(** * Blinky-and-temperature firmware: a shallow embedding

    The development embeds the two variants of the Visual System Designer
    demo application,

      - [demo/blinky-temperature/src/main.c] (module [Demo]) and
      - [demo/templates/blinky-temperature/src/{utils.c,main.c}]
        (module [Template]),

    as executable Rocq functions over an explicit machine state, and proves
    the properties of the specification about start-up validation,
    threshold calibration, the alert handler and the monitor loop.

    C [double] is IEEE-754 binary64, which is what Rocq's primitive [float]
    is; [int] results of driver calls are kept as [Z] (the program only
    compares them with zero, it never computes with them). *)

From Stdlib Require Import ZArith List String Bool Lia Floats Uint63.
From stdpp Require Import base list.
Import ListNotations.

Local Open Scope Z_scope.

(** ** Zephyr: the external collaborators *)

(** [struct sensor_value]: integer part and millionths. *)
Record sensor_value := SensorValue { val1 : Z; val2 : Z }.

Definition double := float.

(** The C conversion [(double)n] of a 32-bit integer. *)
Definition double_of_int (n : Z) : double :=
  if n <? 0 then PrimFloat.opp (PrimFloat.of_uint63 (Uint63.of_Z (- n)))
  else PrimFloat.of_uint63 (Uint63.of_Z n).

(** Zephyr's inline helper of [<zephyr/drivers/sensor.h>] (not part of the
    application sources): [(double)val->val1 + (double)val->val2 / 1000000]. *)
Definition sensor_value_to_double (v : sensor_value) : double :=
  (double_of_int (val1 v) + double_of_int (val2 v) / 1000000)%float.

Inductive sensor_attribute := SENSOR_ATTR_LOWER_THRESH | SENSOR_ATTR_UPPER_THRESH.

(** What the drivers answer.  Calls that are repeated by the monitor loop
    are indexed by the tick (the number of [k_sleep]s elapsed) and by the
    index of the device in its array. *)
Record Drivers := {
  CONFIG_ARCH : string;
  gpio_is_ready : nat -> bool;
  gpio_pin_configure : nat -> Z;
  gpio_pin_toggle : nat -> nat -> Z;
  device_ready : nat -> bool;
  sensor_sample_fetch : nat -> nat -> Z;
  sensor_channel_get_result : nat -> nat -> Z * sensor_value;
  sensor_value_from_double : double -> Z * sensor_value;
  sensor_attr_set_result : nat -> sensor_attribute -> sensor_value -> Z;
  sensor_trigger_set_result : nat -> Z
}.

(** ** Observable behaviour: driver calls and console lines *)

Inductive call :=
| GpioConfigure (led : nat)
| GpioToggle (led : nat)
| SampleFetch (dev : nat)
| ChannelGet (dev : nat)
| AttrSet (dev : nat) (a : sensor_attribute) (v : sensor_value)
| TriggerSet (dev : nat)
| Sleep (ms : Z).

Inductive report :=
| Banner (arch : string)
| LedsRegistered (n : nat)
| SensorsRegistered (n : nat)
| LedNotReady (name : string)
| LedConfigureFailed (name : string)
| FoundThermometer (name : string)
| DeviceNotReady (name : string)
| CouldNotFetch (ret : Z)
| CouldNotGet (ret : Z)
| FailedToRead (ret : Z)
| FailedToConvert (ret : Z)
| SetLowerLimit (t : double)
| SetUpperLimit (t : double)
| EnabledTriggers
| Reading (name : string) (t : double)
| FailedToToggle (name : string)
| LedState (name : string) (on : bool)
| ReadingFailed (ret : Z)
| BelowThreshold (t : double)
| AboveThreshold (t : double)
| AlertWithoutCondition
| DiscoveredLed (name : string)
| DiscoveredThermometer (name : string)
| GetTemperatureFailed (ret : Z).

Inductive event :=
| Call (c : call)
| Print (r : report).

(** ** Machine state and the monad of the embedding *)

(** [mem] is the program's own memory (its globals), [pins] the physical
    level of every LED output, [now] the tick. *)
Record machine (G : Type) := Machine { mem : G; pins : list bool; now : nat }.
Arguments Machine {G} _ _ _.
Arguments mem {G} _.
Arguments pins {G} _.
Arguments now {G} _.

Definition M (G A : Type) : Type := machine G -> A * machine G * list event.

Definition ret {G A} (a : A) : M G A := fun s => (a, s, []).

Definition bind {G A B} (c : M G A) (k : A -> M G B) : M G B :=
  fun s =>
    let '(a, s1, o1) := c s in
    let '(b, s2, o2) := k a s1 in
    (b, s2, o1 ++ o2).

Declare Scope c_scope.
Delimit Scope c_scope with C.
Notation "x <- c ;; k" := (bind c (fun x => k))
  (at level 100, c at next level, right associativity) : c_scope.
Notation "c ;; k" := (bind c (fun _ => k))
  (at level 100, right associativity) : c_scope.

Definition printf {G} (r : report) : M G unit := fun s => (tt, s, [Print r]).
Definition load {G} : M G G := fun s => (mem s, s, []).
Definition store {G} (f : G -> G) : M G unit :=
  fun s => (tt, Machine (f (mem s)) (pins s) (now s), []).
Definition when {G} (b : bool) (c : M G unit) : M G unit :=
  if b then c else ret tt.

Definition result {G A} (r : A * machine G * list event) : A := fst (fst r).
Definition final {G A} (r : A * machine G * list event) : machine G := snd (fst r).
Definition output {G A} (r : A * machine G * list event) : list event := snd r.

(** ** Driver calls, as the program performs them *)

Section Calls.
Context {G : Type} (z : Drivers).

Definition gpio_is_ready_dt (led : nat) : M G bool :=
    ret (gpio_is_ready z led).

  (** [GPIO_OUTPUT_ACTIVE]: a successful configuration drives the output to
      its active level. *)
Definition gpio_pin_configure_dt (led : nat) : M G Z := fun s =>
    let r := gpio_pin_configure z led in
    (r,
     if r <? 0 then s else Machine (mem s) (<[led := true]> (pins s)) (now s),
     [Call (GpioConfigure led)]).

  (** A successful toggle inverts the output; a failed one leaves it. *)
Definition gpio_pin_toggle_dt (led : nat) : M G Z := fun s =>
    let r := gpio_pin_toggle z (now s) led in
    (r,
     if r <? 0 then s else Machine (mem s) (alter negb led (pins s)) (now s),
     [Call (GpioToggle led)]).

Definition device_is_ready (dev : nat) : M G bool :=
    ret (device_ready z dev).

Definition sensor_sample_fetch_chan (dev : nat) : M G Z := fun s =>
    (sensor_sample_fetch z (now s) dev, s, [Call (SampleFetch dev)]).

Definition sensor_channel_get (dev : nat) : M G (Z * sensor_value) := fun s =>
    (sensor_channel_get_result z (now s) dev, s, [Call (ChannelGet dev)]).

Definition sensor_attr_set (dev : nat) (a : sensor_attribute)
      (v : sensor_value) : M G Z := fun s =>
    (sensor_attr_set_result z dev a v, s, [Call (AttrSet dev a v)]).

Definition sensor_trigger_set (dev : nat) : M G Z := fun s =>
    (sensor_trigger_set_result z dev, s, [Call (TriggerSet dev)]).

Definition k_sleep (ms : Z) : M G unit := fun s =>
    (tt, Machine (mem s) (pins s) (S (now s)), [Call (Sleep ms)]).

  (** [read_temperature], identical in [main.c] and [utils.c].  [val] is the
      content of [*val] on entry; the second component is its content on
      return. *)
Definition read_temperature (dev : nat) (val : sensor_value)
      : M G (Z * sensor_value) :=
    (r <- sensor_sample_fetch_chan dev ;;
     if r <? 0 then
       printf (CouldNotFetch r) ;; ret (r, val)
     else
       got <- sensor_channel_get dev ;;
       let '(r, val) := got in
       when (r <? 0) (printf (CouldNotGet r)) ;;
       ret (r, val))%C.
End Calls.

(** ** The demo: [demo/blinky-temperature/src/main.c] *)

(** A devicetree node with a [friendly_name] property: one entry of
    [all_sensor_names] and of [all_sensor_devices] (its [dev->name]). *)
Record sensor_node := SensorNode { friendly_name : string; dev_name : string }.

(** The static hardware manifest: [led_names] (and [leds], of the same
    length) and the two parallel sensor arrays. *)
Record Devicetree := { led_names : list string; all_sensors : list sensor_node }.

Module Demo.

  (** The file-scope variables of [main.c]. *)
Record globals := Globals {
    high_temp : double;
    low_temp : double;
    is_themometer : list bool;
    led_state : list bool
  }.

Definition set_high_temp (t : double) (g : globals) : globals :=
    Globals t (low_temp g) (is_themometer g) (led_state g).
Definition set_low_temp (t : double) (g : globals) : globals :=
    Globals (high_temp g) t (is_themometer g) (led_state g).
Definition set_is_themometer (i : nat) (b : bool) (g : globals) : globals :=
    Globals (high_temp g) (low_temp g) (<[i := b]> (is_themometer g)) (led_state g).
Definition set_led_state (i : nat) (b : bool) (g : globals) : globals :=
    Globals (high_temp g) (low_temp g) (is_themometer g) (<[i := b]> (led_state g)).

Definition get_is_themometer (i : nat) (g : globals) : bool :=
    default false (is_themometer g !! i).
Definition get_led_state (i : nat) (g : globals) : bool :=
    default false (led_state g !! i).

Abbreviation C := (M globals).

Section Program.
Variable z : Drivers.
Variable dt : Devicetree.

    (** [temp_alert_handler]; [value] is the (uninitialised) local. *)
Definition temp_alert_handler (dev : nat) (value : sensor_value) : C unit :=
      (rd <- read_temperature z dev value ;;
       let '(r, value) := rd in
       if r <? 0 then
         printf (ReadingFailed r)
       else
         let temp := sensor_value_to_double value in
         g <- load ;;
         if (temp <=? low_temp g)%float then
           printf (BelowThreshold temp)
         else if (high_temp g <=? temp)%float then
           printf (AboveThreshold temp)
         else
           printf AlertWithoutCondition)%C.

    (** The first [for] loop of [main]: [Some code] is [return code]. *)
Fixpoint init_leds (i : nat) (names : list string) : C (option Z) :=
      match names with
      | [] => ret None
      | name :: names =>
          (ready <- gpio_is_ready_dt z i ;;
           if negb ready then
             printf (LedNotReady name) ;; ret (Some 0)
           else
             r <- gpio_pin_configure_dt z i ;;
             if r <? 0 then
               printf (LedConfigureFailed name) ;; ret (Some 0)
             else
               store (set_led_state i true) ;;
               init_leds (S i) names)%C
      end.

    (** The body of the second [for] loop, after the readiness check:
        [inl code] is [return code], [inr value] falls through to the next
        sensor with the content of the local [value]. *)
Definition calibrate (i : nat) (value : sensor_value) : C (Z + sensor_value) :=
      (rd <- read_temperature z i value ;;
       let '(r, value) := rd in
       if negb (r =? 0) then
         printf (FailedToRead r) ;; ret (inl r)
       else
         let temp := sensor_value_to_double value in
         store (set_low_temp (temp + 0.5)%float) ;;
         g <- load ;;
         let '(r, value) := sensor_value_from_double z (low_temp g) in
         if negb (r =? 0) then
           printf (FailedToConvert r) ;; ret (inl r)
         else
           r <- sensor_attr_set z i SENSOR_ATTR_LOWER_THRESH value ;;
           when (r =? 0) (printf (SetLowerLimit (low_temp g))) ;;
           store (set_high_temp (temp + 1.5)%float) ;;
           g <- load ;;
           let '(r, value) := sensor_value_from_double z (high_temp g) in
           if negb (r =? 0) then
             printf (FailedToConvert r) ;; ret (inl r)
           else
             r <- sensor_attr_set z i SENSOR_ATTR_UPPER_THRESH value ;;
             when (r =? 0) (printf (SetUpperLimit (high_temp g))) ;;
             r <- sensor_trigger_set z i ;;
             when (r =? 0) (printf EnabledTriggers) ;;
             ret (inr value))%C.

    (** The second [for] loop of [main]. *)
Fixpoint init_sensors (i : nat) (nodes : list sensor_node)
        (value : sensor_value) : C (option Z * sensor_value) :=
      match nodes with
      | [] => ret (None, value)
      | node :: nodes =>
          (when (String.eqb (friendly_name node) "thermometer")
             (printf (FoundThermometer (dev_name node)) ;;
              store (set_is_themometer i true)) ;;
           ready <- device_is_ready z i ;;
           if negb ready then
             printf (DeviceNotReady (dev_name node)) ;; ret (Some 0, value)
           else
             c <- calibrate i value ;;
             match c with
             | inl code => ret (Some code, value)
             | inr value => init_sensors (S i) nodes value
             end)%C
      end.

    (** [main] up to the [while (1)]. *)
Definition startup (value : sensor_value) : C (option Z * sensor_value) :=
      (printf (Banner (CONFIG_ARCH z)) ;;
       printf (LedsRegistered (length (led_names dt))) ;;
       printf (SensorsRegistered (length (all_sensors dt))) ;;
       r <- init_leds 0 (led_names dt) ;;
       match r with
       | Some code => ret (Some code, value)
       | None => init_sensors 0 (all_sensors dt) value
       end)%C.

    (** The sensor [for] loop of one iteration; [break] ends it. *)
Fixpoint poll_sensors (i : nat) (nodes : list sensor_node)
        (value : sensor_value) : C sensor_value :=
      match nodes with
      | [] => ret value
      | node :: nodes =>
          (g <- load ;;
           if negb (get_is_themometer i g) then
             poll_sensors (S i) nodes value
           else
             rd <- read_temperature z i value ;;
             let '(r, value) := rd in
             if negb (r =? 0) then
               printf (FailedToRead r) ;; ret value
             else
               printf (Reading (dev_name node) (sensor_value_to_double value)) ;;
               poll_sensors (S i) nodes value)%C
      end.

    (** The LED [for] loop of one iteration. *)
Fixpoint toggle_leds (i : nat) (names : list string) : C unit :=
      match names with
      | [] => ret tt
      | name :: names =>
          (r <- gpio_pin_toggle_dt z i ;;
           when (r <? 0) (printf (FailedToToggle name)) ;;
           g <- load ;;
           store (set_led_state i (negb (get_led_state i g))) ;;
           g <- load ;;
           printf (LedState name (get_led_state i g)) ;;
           toggle_leds (S i) names)%C
      end.

    (** The body of [while (1)]. *)
Definition iteration (value : sensor_value) : C sensor_value :=
      (value <- poll_sensors 0 (all_sensors dt) value ;;
       toggle_leds 0 (led_names dt) ;;
       k_sleep 1000 ;;
       ret value)%C.

    (** [while (1)], unrolled [n] times: the body has no [return] and no
        [break] of the outer loop, so after any number of iterations the
        program is still inside it. *)
Fixpoint monitor_loop (n : nat) (value : sensor_value) : C (option Z) :=
      match n with
      | O => ret None
      | S n => (value <- iteration value ;; monitor_loop n value)%C
      end.

    (** [main], observed for [n] iterations of its loop: [Some code] when it
        has returned [code], [None] while it is still running. *)
Definition main (n : nat) (value : sensor_value) : C (option Z) :=
      (st <- startup value ;;
       match st with
       | (Some code, _) => ret (Some code)
       | (None, value) => monitor_loop n value
       end)%C.

    (** Zero-initialised statics at boot; the outputs are inactive until
        they are configured. *)
Definition boot : machine globals :=
      Machine
        (Globals 0%float 0%float
           (replicate (length (all_sensors dt)) false)
           (replicate (length (led_names dt)) false))
        (replicate (length (led_names dt)) false) 0.
End Program.
End Demo.

(** ** The generated variant: [demo/templates/blinky-temperature/src] *)

Module Template.

  (** [struct led] and [struct thermometer] of [utils.h]; [gpio] and [dev]
      are the indices of the pin and of the device at the drivers. *)
Record led := Led { gpio : nat; name : string; state : bool }.
Record thermometer := Thermometer { dev : nat; thermometer_name : string }.

  (** The [struct led] globals of the generated [main.c], by address. *)
Definition memory := nat -> led.

Definition set_state (p : nat) (b : bool) (g : memory) : memory :=
    fun q => if Nat.eqb q p then Led (gpio (g p)) (name (g p)) b else g q.

Abbreviation C := (M memory).

Section Program.
Variable z : Drivers.
    (** What the template is instantiated with: the addresses of the LED
        structures and the thermometer structures, in the order of the
        generator's [leds] and [thermometers] lists. *)
Variable leds : list nat.
Variable thermometers : list thermometer.

Definition print_temperature (thermoemeter : thermometer) : C Z :=
      (rd <- read_temperature z (dev thermoemeter) (SensorValue 0 0) ;;
       let '(r, value) := rd in
       if negb (r =? 0) then
         printf (FailedToRead r) ;; ret (-1)
       else
         printf (Reading (thermometer_name thermoemeter)
                   (sensor_value_to_double value)) ;;
         ret 0)%C.

Definition init_led (p : nat) : C Z :=
      (g <- load ;;
       printf (DiscoveredLed (name (g p))) ;;
       ready <- gpio_is_ready_dt z (gpio (g p)) ;;
       if negb ready then
         printf (LedNotReady (name (g p))) ;; ret (-1)
       else
         r <- gpio_pin_configure_dt z (gpio (g p)) ;;
         if r <? 0 then
           printf (LedConfigureFailed (name (g p))) ;; ret r
         else
           store (set_state p false) ;; ret 0)%C.

Definition init_thermometer (t : thermometer) : C Z :=
      (printf (DiscoveredThermometer (thermometer_name t)) ;;
       ready <- device_is_ready z (dev t) ;;
       if negb ready then
         printf (DeviceNotReady (thermometer_name t)) ;; ret (-1)
       else ret 0)%C.

Definition get_temperature (t : thermometer) : C double :=
      (rd <- read_temperature z (dev t) (SensorValue 0 0) ;;
       let '(r, value) := rd in
       if negb (r =? 0) then
         printf (GetTemperatureFailed r) ;; ret PrimFloat.nan
       else
         ret (sensor_value_to_double value))%C.

Definition toggle_led_state (p : nat) : C Z :=
      (g <- load ;;
       r <- gpio_pin_toggle_dt z (gpio (g p)) ;;
       if r <? 0 then
         printf (FailedToToggle (name (g p))) ;; ret r
       else
         store (set_state p (negb (state (g p)))) ;;
         g <- load ;;
         printf (LedState (name (g p)) (state (g p))) ;;
         ret 0)%C.

    (** The generated [main]: each [//! for] block is the sequence of its
        body over the list. *)
Fixpoint init_leds (ps : list nat) : C (option Z) :=
      match ps with
      | [] => ret None
      | p :: ps =>
          (r <- init_led p ;;
           if r <? 0 then ret (Some r) else init_leds ps)%C
      end.

Fixpoint init_thermometers (ts : list thermometer) : C (option Z) :=
      match ts with
      | [] => ret None
      | t :: ts =>
          (r <- init_thermometer t ;;
           if r <? 0 then ret (Some r) else init_thermometers ts)%C
      end.

Fixpoint toggle_leds (ps : list nat) : C (option Z) :=
      match ps with
      | [] => ret None
      | p :: ps =>
          (r <- toggle_led_state p ;;
           if r <? 0 then ret (Some r) else toggle_leds ps)%C
      end.

Fixpoint print_thermometers (ts : list thermometer) : C (option Z) :=
      match ts with
      | [] => ret None
      | t :: ts =>
          (temp <- get_temperature t ;;
           if PrimFloat.is_nan temp then ret (Some (-1))
           else
             printf (Reading (thermometer_name t) temp) ;;
             print_thermometers ts)%C
      end.

    (** The body of [while (1)]: [Some code] is [return code]. *)
Definition iteration : C (option Z) :=
      (r <- toggle_leds leds ;;
       match r with
       | Some code => ret (Some code)
       | None =>
           r <- print_thermometers thermometers ;;
           match r with
           | Some code => ret (Some code)
           | None => k_sleep 1000 ;; ret None
           end
       end)%C.

Fixpoint monitor_loop (n : nat) : C (option Z) :=
      match n with
      | O => ret None
      | S n =>
          (r <- iteration ;;
           match r with
           | Some code => ret (Some code)
           | None => monitor_loop n
           end)%C
      end.

Definition main (n : nat) : C (option Z) :=
      (r <- init_leds leds ;;
       match r with
       | Some code => ret (Some code)
       | None =>
           r <- init_thermometers thermometers ;;
           match r with
           | Some code => ret (Some code)
           | None => monitor_loop n
           end
       end)%C.
End Program.

  (** The initialisers of the generated [struct led] globals: pin and name
      from the devicetree, [state] zero. *)
Definition boot (names : list string) : machine memory :=
    Machine (fun p => Led p (nth p names ""%string) false)
      (replicate (length names) false) 0.
End Template.

(** ** Test benches: concrete drivers and boards *)

Module Bench.

  (** Truncation toward zero, the C conversion [(int32_t)d] of a double in
      range. *)
Definition int_of_double (d : double) : Z :=
    match Prim2SF d with
    | S754_finite sign m e =>
        let a := if 0 <=? e then Z.shiftl (Z.pos m) e
                 else Z.shiftr (Z.pos m) (- e) in
        if sign then - a else a
    | _ => 0
    end.

  (** A conversion in the manner of Zephyr's [sensor_value_from_double]:
      [-ERANGE] outside the range of [int32_t]. *)
Definition from_double (inp : double) : Z * sensor_value :=
    if ((inp <? -2147483648) || (2147483647 <? inp))%float then
      (-34, SensorValue 0 0)
    else
      let i := int_of_double inp in
      let v2 := ((inp - double_of_int i) * 1000000)%float in
      if ((v2 <? -2147483648) || (2147483647 <? v2))%float then
        (-34, SensorValue 0 0)
      else (0, SensorValue i (int_of_double v2)).

  (** Drivers whose devices are all ready and configurable; what varies is
      given by the arguments. *)
Definition drivers (dev_ready : nat -> bool) (toggle fetch : nat -> nat -> Z)
      (temps : nat -> nat -> sensor_value) (attr trig : Z) : Drivers := {|
    CONFIG_ARCH := "arm"%string;
    gpio_is_ready := fun _ => true;
    gpio_pin_configure := fun _ => 0;
    gpio_pin_toggle := toggle;
    device_ready := dev_ready;
    sensor_sample_fetch := fetch;
    sensor_channel_get_result := fun t d => (0, temps t d);
    sensor_value_from_double := from_double;
    sensor_attr_set_result := fun _ _ _ => attr;
    sensor_trigger_set_result := fun _ => trig
  |}.

Definition always (r : Z) : nat -> nat -> Z := fun _ _ => r.
Definition fails_at (t d : nat) (r : Z) : nat -> nat -> Z :=
    fun t' d' => if Nat.eqb t' t && Nat.eqb d' d then r else 0.

  (** One thermometer and two LEDs; the thermometer reads 20.0, 20.3, 21.6
      and then 21.0 degrees in successive periods. *)
Definition lab_board : Devicetree := {|
    led_names := ["led0"; "led1"]%string;
    all_sensors := [SensorNode "thermometer" "temp0"]
  |}.

Definition lab_temps (t d : nat) : sensor_value :=
    match t with
    | 0%nat => SensorValue 20 0
    | 1%nat => SensorValue 20 300000
    | 2%nat => SensorValue 21 600000
    | _ => SensorValue 21 0
    end.

Definition lab : Drivers :=
    drivers (fun _ => true) (always 0) (always 0) lab_temps 0 0.

  (** The same board with the first LED's toggle failing ([-EIO]) in the
      first period. *)
Definition stuck_led : Drivers :=
    drivers (fun _ => true) (fails_at 0 0 (-5)) (always 0) lab_temps 0 0.

  (** A sensor without threshold attributes ([-ENOTSUP]) that accepts the
      trigger all the same. *)
Definition no_thresholds : Drivers :=
    drivers (fun _ => true) (always 0) (always 0) lab_temps (-134) 0.

  (** The thermometer is not ready. *)
Definition not_ready : Drivers :=
    drivers (fun _ => false) (always 0) (always 0) lab_temps 0 0.


  (** A baseline at the top of the [int32_t] range: the thresholds are not
      convertible. *)
Definition hot : Drivers :=
    drivers (fun _ => true) (always 0) (always 0)
      (fun _ _ => SensorValue 2147483647 0) 0 0.

  (** Baselines of 0.4 and of 0.6 degrees. *)
Definition cold_04 : Drivers :=
    drivers (fun _ => true) (always 0) (always 0)
      (fun _ _ => SensorValue 0 400000) 0 0.
Definition cold_06 : Drivers :=
    drivers (fun _ => true) (always 0) (always 0)
      (fun _ _ => SensorValue 0 600000) 0 0.

  (** Two thermometers and one LED.  Their baselines are 20.0 and 30.0
      degrees; afterwards the first one reads 25.0.  In the second period
      the fetch on the first thermometer fails. *)
Definition twin_board : Devicetree := {|
    led_names := ["led0"]%string;
    all_sensors := [SensorNode "thermometer" "temp0";
                    SensorNode "thermometer" "temp1"]
  |}.

Definition twin_temps (t d : nat) : sensor_value :=
    match d, t with
    | 0%nat, 0%nat => SensorValue 20 0
    | 0%nat, _ => SensorValue 25 0
    | _, _ => SensorValue 30 0
    end.

Definition twin : Drivers :=
    drivers (fun _ => true) (always 0) (fails_at 1 0 (-5)) twin_temps 0 0.


  (** The garbage in an uninitialised [struct sensor_value]. *)
Definition junk : sensor_value := SensorValue 0 0.
End Bench.

(** ** Vocabulary of the statements *)

(** The code [read_temperature] returns on device [dev] at tick [t]. *)
Definition read_code (z : Drivers) (t dev : nat) : Z :=
  let r := sensor_sample_fetch z t dev in
  if r <? 0 then r else fst (sensor_channel_get_result z t dev).

(** The sample that a successful read stores. *)
Definition read_value (z : Drivers) (t dev : nat) : sensor_value :=
  snd (sensor_channel_get_result z t dev).

Definition is_fetch (e : event) : bool :=
  match e with Call (SampleFetch _) => true | _ => false end.

(** What the alert handler prints for a sample [v] against the bounds. *)
Definition verdict (lower upper v : double) : report :=
  if (v <=? lower)%float then BelowThreshold v
  else if (upper <=? v)%float then AboveThreshold v
  else AlertWithoutCondition.

(** [k] is one of the [n] indices from [i] on. *)
Definition in_range (i n k : nat) : bool := (i <=? k)%nat && (k <? i + n)%nat.

(** The events of the LED loop of an iteration. *)
Definition led_event (e : event) : bool :=
  match e with
  | Call (GpioToggle _) | Print (FailedToToggle _) | Print (LedState _ _) => true
  | _ => false
  end.



(** The code with which [main] returns right after printing [e], if [e] is
    one of the start-up diagnostics. *)
Definition exit_code_of (e : event) : option Z :=
  match e with
  | Print (LedNotReady _) | Print (LedConfigureFailed _)
  | Print (DeviceNotReady _) => Some 0
  | Print (FailedToRead r) | Print (FailedToConvert r) => Some r
  | _ => None
  end.

(** [main] returns with [r] as soon as a start-up diagnostic is printed. *)
Definition exits_with (r : option Z) (out : list event) : Prop :=
  forall e c, e ∈ out -> exit_code_of e = Some c -> r = Some c.

(** No start-up diagnostic in [out]. *)
Definition quiet (out : list event) : Prop :=
  forall e, e ∈ out -> exit_code_of e = None.

(** What start-up can emit; the codes it prints as failures are not zero. *)
Definition startup_event (e : event) : bool :=
  match e with
  | Call (GpioConfigure _) | Call (SampleFetch _) | Call (ChannelGet _)
  | Call (AttrSet _ _ _) | Call (TriggerSet _) => true
  | Print (Banner _) | Print (LedsRegistered _) | Print (SensorsRegistered _)
  | Print (LedNotReady _) | Print (LedConfigureFailed _)
  | Print (FoundThermometer _) | Print (DeviceNotReady _)
  | Print (CouldNotFetch _) | Print (CouldNotGet _)
  | Print (SetLowerLimit _) | Print (SetUpperLimit _)
  | Print EnabledTriggers => true
  | Print (FailedToRead r) | Print (FailedToConvert r) => negb (r =? 0)
  | _ => false
  end.

(** What only an iteration of the monitor loop emits. *)
Definition iteration_event (e : event) : bool :=
  match e with
  | Call (GpioToggle _) | Call (Sleep _) => true
  | Print (Reading _ _) | Print (LedState _ _) | Print (FailedToToggle _) => true
  | _ => false
  end.

(** Baselines between -300 and 1000 degrees whose millionths are a
    multiple of [step]. *)
Definition on_grid (step : Z) (v : sensor_value) : bool :=
  (-300 <=? val1 v) && (val1 v <=? 1000) &&
  (-1000000 <? val2 v) && (val2 v <? 1000000) && (val2 v mod step =? 0).

(** [P] holds of the double of every baseline of the grid. *)
Definition grid_check (step : Z) (P : double -> bool) : bool :=
  forallb (fun v1 =>
    forallb (fun k => P (sensor_value_to_double (SensorValue v1 (k * step))))
      (seqZ (- (1000000 / step)) (2 * (1000000 / step) + 1)))
    (seqZ (-300) 1301).

(** The two differences of the bounds are exactly 1.0 and 0.5. *)
Definition exact_offsets (base : double) : bool :=
  (((base + 1.5) - (base + 0.5) =? 1) && ((base + 0.5) - base =? 0.5))%float.

Definition strictly_ordered (base : double) : bool :=
  (base + 0.5 <? base + 1.5)%float.

(** The bounds of a calibrated sensor, as the specification words them:
    exact offsets from the baseline, strictly ordered. *)
Definition exact_bounds (z : Drivers) (i : nat) (value : sensor_value)
    (s : machine Demo.globals) : Prop :=
  read_code z (now s) i = 0 ->
  let base := sensor_value_to_double (read_value z (now s) i) in
  let g := mem (final (Demo.calibrate z i value s)) in
  (Demo.high_temp g - Demo.low_temp g =? 1)%float = true /\
  (Demo.low_temp g - base =? 0.5)%float = true /\
  (Demo.low_temp g <? Demo.high_temp g)%float = true.

(** Registration of the handler gated by the thresholds, as the
    specification words it: the trigger is set only if a threshold
    attribute was installed, and the sensor is reported armed only if both
    were. *)
Definition gated_registration (z : Drivers) (i : nat) (value : sensor_value)
    (s : machine Demo.globals) : Prop :=
  let out := output (Demo.calibrate z i value s) in
  (Call (TriggerSet i) ∈ out ->
   (exists t, Print (SetLowerLimit t) ∈ out) \/
   (exists t, Print (SetUpperLimit t) ∈ out)) /\
  (Print EnabledTriggers ∈ out ->
   (exists t, Print (SetLowerLimit t) ∈ out) /\
   (exists t, Print (SetUpperLimit t) ∈ out)).

Definition is_sleep (e : event) : bool :=
  match e with Call (Sleep _) => true | _ => false end.

Definition is_toggle (e : event) : bool :=
  match e with Call (GpioToggle _) => true | _ => false end.

Definition is_sensor_call (e : event) : bool :=
  match e with
  | Call (SampleFetch _) | Call (ChannelGet _) | Call (AttrSet _ _ _)
  | Call (TriggerSet _) => true
  | _ => false
  end.

(** The events of the sensor loop of an iteration. *)
Definition poll_event (e : event) : bool :=
  match e with
  | Call (SampleFetch _) | Call (ChannelGet _) => true
  | Print (CouldNotFetch _) | Print (CouldNotGet _) => true
  | Print (FailedToRead _) | Print (Reading _ _) => true
  | _ => false
  end.

(** The events of start-up's LED loop. *)
Definition led_init_event (e : event) : bool :=
  match e with
  | Call (GpioConfigure _) => true
  | Print (LedNotReady _) | Print (LedConfigureFailed _) => true
  | _ => false
  end.

(** In the generated variant: every LED structure holds its own pin, and
    for the LEDs of [D] the stored state is the negation of the level of
    the output. *)
Definition state_negates_output (D : nat -> Prop)
    (s : machine Template.memory) : Prop :=
  (forall q, Template.gpio (mem s q) = q) /\
  (forall p, D p -> pins s !! p = Some (negb (Template.state (mem s p)))).

(** The sensor a driver call is made on. *)
Definition sensor_of (c : call) : option nat :=
  match c with
  | SampleFetch d | ChannelGet d | AttrSet d _ _ | TriggerSet d => Some d
  | _ => None
  end.

(** At tick [t] sensor [j] is ready, its read returns 0 and both of its
    bounds are convertible: its calibration runs to the end. *)
Definition calibratable (z : Drivers) (t j : nat) : Prop :=
  device_ready z j = true /\
  read_code z t j = 0 /\
  fst (sensor_value_from_double z
         (sensor_value_to_double (read_value z t j) + 0.5)%float) = 0 /\
  fst (sensor_value_from_double z
         (sensor_value_to_double (read_value z t j) + 1.5)%float) = 0.

(** ** Doubles as whole numbers of units *)

(** The fields of a [struct sensor_value] are [int32_t]. *)
Definition int32 (n : Z) : Prop := -2147483648 <= n <= 2147483647.

(** [2^e] in units of [2^-1074], the smallest positive double: every
    finite double is a whole number of these units. *)
Definition pow2 (e : Z) : Z := 2 ^ (e + 1074).

(** The magnitude and the value of a double in these units (0 for an
    infinity and for what is not a number). *)
Definition SFmag (x : spec_float) : Z :=
  match x with S754_finite _ m e => Z.pos m * pow2 e | _ => 0 end.

Definition SFval (x : spec_float) : Z :=
  match x with
  | S754_finite s m e => cond_Zopp s (Z.pos m * pow2 e)
  | _ => 0
  end.

(** A zero or a finite double. *)
Definition is_real (x : spec_float) : bool :=
  match x with S754_zero _ | S754_finite _ _ _ => true | _ => false end.

Definition exp_ok (x : spec_float) : Prop :=
  match x with S754_finite _ _ e => -1074 <= e | _ => True end.


(** * Facts *)

(** ** The monad *)

Lemma bind_run {G A B} (c : M G A) (k : A -> M G B) (s : machine G) :
  bind c k s =
  (result (k (result (c s)) (final (c s))),
   final (k (result (c s)) (final (c s))),
   output (c s) ++ output (k (result (c s)) (final (c s)))).
Proof.
  unfold bind, result, final, output.
  destruct (c s) as [[a s1] o1]; simpl.
  destruct (k a s1) as [[b s2] o2]; reflexivity.
Qed.

Lemma result_bind {G A B} (c : M G A) (k : A -> M G B) s :
  result (bind c k s) = result (k (result (c s)) (final (c s))).
Proof. rewrite bind_run; reflexivity. Qed.

Lemma final_bind {G A B} (c : M G A) (k : A -> M G B) s :
  final (bind c k s) = final (k (result (c s)) (final (c s))).
Proof. rewrite bind_run; reflexivity. Qed.

Lemma output_bind {G A B} (c : M G A) (k : A -> M G B) s :
  output (bind c k s) = output (c s) ++ output (k (result (c s)) (final (c s))).
Proof. rewrite bind_run; reflexivity. Qed.

Lemma result_triple {G A} (a : A) (s : machine G) (o : list event) :
  result (a, s, o) = a.
Proof. reflexivity. Qed.

Lemma final_triple {G A} (a : A) (s : machine G) (o : list event) :
  final (a, s, o) = s.
Proof. reflexivity. Qed.

Lemma output_triple {G A} (a : A) (s : machine G) (o : list event) :
  output (a, s, o) = o.
Proof. reflexivity. Qed.

Ltac run :=
  rewrite ?result_bind, ?final_bind, ?output_bind,
    ?result_triple, ?final_triple, ?output_triple.

(** ** [read_temperature] *)

Section ReadTemperature.
Context {G : Type} (z : Drivers) (dev : nat) (val : sensor_value) (s : machine G).

Lemma read_temperature_final : final (read_temperature z dev val s) = s.
  Proof.
    unfold read_temperature, bind, sensor_sample_fetch_chan, sensor_channel_get,
      when, printf, ret, final; simpl.
    destruct (sensor_sample_fetch z (now s) dev <? 0); simpl; [reflexivity|].
    destruct (sensor_channel_get_result z (now s) dev) as [r v]; simpl.
    destruct (r <? 0); reflexivity.
  Qed.

Lemma read_temperature_code :
    fst (result (read_temperature z dev val s)) = read_code z (now s) dev.
  Proof.
    unfold read_temperature, read_code, bind, sensor_sample_fetch_chan,
      sensor_channel_get, when, printf, ret, result; simpl.
    destruct (sensor_sample_fetch z (now s) dev <? 0); simpl; [reflexivity|].
    destruct (sensor_channel_get_result z (now s) dev) as [r v]; simpl.
    destruct (r <? 0); reflexivity.
  Qed.

Lemma read_temperature_value :
    read_code z (now s) dev = 0 ->
    snd (result (read_temperature z dev val s)) = read_value z (now s) dev.
  Proof.
    unfold read_temperature, read_code, read_value, bind,
      sensor_sample_fetch_chan, sensor_channel_get, when, printf, ret, result;
      simpl.
    destruct (sensor_sample_fetch z (now s) dev <? 0) eqn:E; simpl.
    - intros H; rewrite H in E; discriminate.
    - destruct (sensor_channel_get_result z (now s) dev) as [r v]; simpl.
      destruct (r <? 0); reflexivity.
  Qed.

  (** One fetch per read, whatever the outcome. *)
Lemma read_temperature_fetches :
    List.filter is_fetch (output (read_temperature z dev val s)) = [Call (SampleFetch dev)].
  Proof.
    unfold read_temperature, bind, sensor_sample_fetch_chan, sensor_channel_get,
      when, printf, ret, output; simpl.
    destruct (sensor_sample_fetch z (now s) dev <? 0); simpl; [reflexivity|].
    destruct (sensor_channel_get_result z (now s) dev) as [r v]; simpl.
    destruct (r <? 0); reflexivity.
  Qed.

  (** The calls of a read are on [dev] only, and it prints no more than its
      own two diagnostics. *)
Lemma read_temperature_output e :
    e ∈ output (read_temperature z dev val s) ->
    e = Call (SampleFetch dev) \/ e = Call (ChannelGet dev) \/
    (exists r, e = Print (CouldNotFetch r)) \/ (exists r, e = Print (CouldNotGet r)).
  Proof.
    unfold read_temperature, bind, sensor_sample_fetch_chan, sensor_channel_get,
      when, printf, ret, output; simpl.
    destruct (sensor_sample_fetch z (now s) dev <? 0); simpl.
    - rewrite !elem_of_cons, elem_of_nil. intros [->|[->|[]]]; eauto.
    - destruct (sensor_channel_get_result z (now s) dev) as [r v]; simpl.
      destruct (r <? 0); simpl;
        rewrite !elem_of_cons, elem_of_nil; intuition (subst; eauto).
  Qed.

Lemma read_temperature_fetched :
    Call (SampleFetch dev) ∈ output (read_temperature z dev val s).
  Proof.
    apply list_elem_of_In.
    assert (H : In (Call (SampleFetch dev))
                  (List.filter is_fetch (output (read_temperature z dev val s))))
      by (rewrite read_temperature_fetches; left; reflexivity).
    apply filter_In in H; tauto.
  Qed.
End ReadTemperature.

(** ** The alert handler *)

Lemma temp_alert_handler_run (z : Drivers) (dev : nat) (value : sensor_value)
    (s : machine Demo.globals) :
  let rd := read_temperature z dev value s in
  Demo.temp_alert_handler z dev value s =
  (tt, s,
   output rd ++
   [Print (if fst (result rd) <? 0 then ReadingFailed (fst (result rd))
           else verdict (Demo.low_temp (mem s)) (Demo.high_temp (mem s))
                  (sensor_value_to_double (snd (result rd))))]).
Proof.
  intros rd. unfold Demo.temp_alert_handler. rewrite bind_run.
  fold rd. replace (final rd) with s by (symmetry; apply read_temperature_final).
  destruct (result rd) as [r v]; simpl.
  destruct (r <? 0); [reflexivity|].
  unfold bind, load, printf, verdict; simpl.
  destruct (PrimFloat.leb _ _); [reflexivity|].
  destruct (PrimFloat.leb _ _); reflexivity.
Qed.

(** C9. Every invocation of the alert handler, the one whose read fails
    included, leaves the whole machine as it found it: the globals
    ([led_state], [is_themometer], [low_temp], [high_temp]), the outputs and
    the clock.  It reads the sensor exactly once (no retry), and when the
    read fails the last thing it does is to print the failure. *)
Theorem temp_alert_handler_frame (z : Drivers) (dev : nat)
    (value : sensor_value) (s : machine Demo.globals) :
  final (Demo.temp_alert_handler z dev value s) = s /\
  List.filter is_fetch (output (Demo.temp_alert_handler z dev value s))
    = [Call (SampleFetch dev)] /\
  (read_code z (now s) dev < 0 ->
   exists o, output (Demo.temp_alert_handler z dev value s)
             = o ++ [Print (ReadingFailed (read_code z (now s) dev))]).
Proof.
  pose proof (temp_alert_handler_run z dev value s) as H; simpl in H.
  rewrite H, final_triple, output_triple. split; [reflexivity|]. split.
  - rewrite List.filter_app, read_temperature_fetches; simpl.
    destruct (_ <? 0); reflexivity.
  - intros Hneg. eexists. f_equal.
    rewrite read_temperature_code.
    apply Z.ltb_lt in Hneg. rewrite Hneg. reflexivity.
Qed.

Lemma temp_alert_handler_frame_witness :
  read_code Bench.twin 1 0 < 0 /\
  exists o, output (Demo.temp_alert_handler Bench.twin 0 Bench.junk
                      (Machine (mem (Demo.boot Bench.twin_board)) [true] 1))
            = o ++ [Print (ReadingFailed (read_code Bench.twin 1 0))].
Proof.
  assert (H : read_code Bench.twin 1 0 < 0) by (vm_compute; reflexivity).
  split; [exact H|].
  exact (proj2 (proj2 (temp_alert_handler_frame Bench.twin 0 Bench.junk
                         (Machine (mem (Demo.boot Bench.twin_board)) [true] 1))) H).
Defined.

(** C3. When the handler's read succeeds with the value [v], what it prints
    after the read is decided by the bounds: "below threshold" with [v] if
    [v <= low_temp], else "above threshold" with [v] if [v >= high_temp],
    else the inconsistency report.  On the lab bench (baseline 20.0, hence
    bounds 20.5 and 21.5) the reads of 20.3, 21.6 and 21.0 degrees give
    below, above and the inconsistency report. *)
Theorem temp_alert_handler_verdict :
  (forall (z : Drivers) (dev : nat) (value : sensor_value)
          (s : machine Demo.globals),
      let rd := read_temperature z dev value s in
      let v := sensor_value_to_double (snd (result rd)) in
      let lower := Demo.low_temp (mem s) in
      let upper := Demo.high_temp (mem s) in
      ~ fst (result rd) < 0 ->
      output (Demo.temp_alert_handler z dev value s)
        = output rd ++ [Print (verdict lower upper v)] /\
      ((v <=? lower)%float = true -> verdict lower upper v = BelowThreshold v) /\
      ((v <=? lower)%float = false -> (upper <=? v)%float = true ->
       verdict lower upper v = AboveThreshold v) /\
      ((v <=? lower)%float = false -> (upper <=? v)%float = false ->
       verdict lower upper v = AlertWithoutCondition)) /\
  (let at_tick n :=
     final (Demo.main Bench.lab Bench.lab_board n Bench.junk
              (Demo.boot Bench.lab_board)) in
   let said n :=
     last (output (Demo.temp_alert_handler Bench.lab 0 Bench.junk (at_tick n))) in
   sensor_value_to_double (read_value Bench.lab 0 0) = 20%float /\
   Demo.low_temp (mem (at_tick 0%nat)) = 20.5%float /\
   Demo.high_temp (mem (at_tick 0%nat)) = 21.5%float /\
   said 1%nat
     = Some (Print (BelowThreshold (sensor_value_to_double (SensorValue 20 300000)))) /\
   said 2%nat
     = Some (Print (AboveThreshold (sensor_value_to_double (SensorValue 21 600000)))) /\
   said 3%nat = Some (Print AlertWithoutCondition)).
Proof.
  split.
  - intros z dev value s rd v lower upper Hok.
    pose proof (temp_alert_handler_run z dev value s) as H; simpl in H.
    fold rd in H. split.
    + rewrite H, output_triple.
      destruct (fst (result rd) <? 0) eqn:E; [apply Z.ltb_lt in E; tauto|].
      reflexivity.
    + unfold verdict. split; [|split].
      * intros ->; reflexivity.
      * intros -> ->; reflexivity.
      * intros -> ->; reflexivity.
  - vm_compute. repeat split; reflexivity.
Qed.

(** ** The monitor loop of the demo *)

Section DemoLoop.
Variable z : Drivers.
Variable dt : Devicetree.

Lemma toggle_leds_cons i name names s :
    Demo.toggle_leds z i (name :: names) s =
    let r := gpio_pin_toggle z (now s) i in
    let b := negb (Demo.get_led_state i (mem s)) in
    let s1 := Machine (Demo.set_led_state i b (mem s))
                (if r <? 0 then pins s else alter negb i (pins s)) (now s) in
    let rest := Demo.toggle_leds z (S i) names s1 in
    (tt, final rest,
     Call (GpioToggle i)
       :: (if r <? 0 then [Print (FailedToToggle name)] else [])
       ++ Print (LedState name (Demo.get_led_state i (mem s1))) :: output rest).
  Proof.
    cbn [Demo.toggle_leds].
    unfold bind, gpio_pin_toggle_dt, when, printf, load, store, ret, final, output.
    destruct (gpio_pin_toggle z (now s) i <? 0) eqn:E; cbn -[Demo.toggle_leds];
      destruct (Demo.toggle_leds z (S i) names _) as [[[] s2] o2]; reflexivity.
  Qed.

Lemma toggle_leds_now names : forall i s,
    now (final (Demo.toggle_leds z i names s)) = now s.
  Proof.
    induction names as [|name names IH]; intros i s; [reflexivity|].
    rewrite toggle_leds_cons; cbv zeta; rewrite final_triple, IH; reflexivity.
  Qed.

  (** The LED loop touches [led_state] only. *)
Lemma toggle_leds_globals names : forall i s,
    let g' := mem (final (Demo.toggle_leds z i names s)) in
    Demo.low_temp g' = Demo.low_temp (mem s) /\
    Demo.high_temp g' = Demo.high_temp (mem s) /\
    Demo.is_themometer g' = Demo.is_themometer (mem s).
  Proof.
    induction names as [|name names IH]; intros i s; [repeat split|].
    rewrite toggle_leds_cons; cbv zeta; rewrite final_triple.
    specialize (IH (S i)
      (Machine (Demo.set_led_state i (negb (Demo.get_led_state i (mem s))) (mem s))
         (if gpio_pin_toggle z (now s) i <? 0 then pins s else alter negb i (pins s))
         (now s))).
    cbv zeta in IH. exact IH.
  Qed.

Lemma flip_lookup (l : list bool) (i k : nat) :
    <[i := negb (default false (l !! i))]> l !! k
    = if Nat.eqb i k then negb <$> l !! k else l !! k.
  Proof.
    destruct (Nat.eqb_spec i k) as [->|Hne].
    - destruct (l !! k) as [b|] eqn:E; simpl.
      + apply list_lookup_insert_eq. apply lookup_lt_is_Some; eauto.
      + apply lookup_ge_None. rewrite length_insert.
        apply lookup_ge_None; exact E.
    - apply list_lookup_insert_ne; exact Hne.
  Qed.

Lemma get_set_led_state i g b :
    Demo.led_state g !! i = Some b ->
    Demo.get_led_state i
      (Demo.set_led_state i (negb (Demo.get_led_state i g)) g) = negb b.
  Proof.
    intros H. unfold Demo.get_led_state, Demo.set_led_state; simpl.
    rewrite flip_lookup, Nat.eqb_refl, H. reflexivity.
  Qed.

  (** Every LED of the array has its flag inverted, once. *)
Lemma toggle_leds_led_state names : forall i s k,
    Demo.led_state (mem (final (Demo.toggle_leds z i names s))) !! k
    = if in_range i (length names) k then negb <$> Demo.led_state (mem s) !! k
      else Demo.led_state (mem s) !! k.
  Proof.
    induction names as [|name names IH]; intros i s k.
    - unfold in_range; simpl.
      destruct (i <=? k)%nat eqn:E1, (k <? i + 0)%nat eqn:E2; try reflexivity.
      apply Nat.leb_le in E1; apply Nat.ltb_lt in E2; lia.
    - rewrite toggle_leds_cons; cbv zeta; rewrite final_triple, IH.
      cbn [mem Demo.set_led_state Demo.led_state length].
      unfold Demo.get_led_state. rewrite flip_lookup. unfold in_range.
      destruct (Nat.eqb_spec i k) as [->|Hne].
      + replace (S k <=? k)%nat with false by (symmetry; apply Nat.leb_gt; lia).
        replace (k <=? k)%nat with true by (symmetry; apply Nat.leb_le; lia).
        replace (k <? k + S (length names))%nat with true
          by (symmetry; apply Nat.ltb_lt; lia).
        reflexivity.
      + replace (S i <=? k)%nat with (i <=? k)%nat.
        2:{ destruct (Nat.leb_spec i k), (Nat.leb_spec (S i) k); try reflexivity; lia. }
        replace (S i + length names)%nat with (i + S (length names))%nat by lia.
        reflexivity.
  Qed.

  (** The outputs follow the successful toggles only. *)
Lemma toggle_leds_pins names : forall i s k,
    pins (final (Demo.toggle_leds z i names s)) !! k
    = if in_range i (length names) k && negb (gpio_pin_toggle z (now s) k <? 0)
      then negb <$> pins s !! k
      else pins s !! k.
  Proof.
    induction names as [|name names IH]; intros i s k.
    - unfold in_range; simpl.
      destruct (i <=? k)%nat eqn:E1, (k <? i + 0)%nat eqn:E2; try reflexivity.
      apply Nat.leb_le in E1; apply Nat.ltb_lt in E2; lia.
    - rewrite toggle_leds_cons; cbv zeta; rewrite final_triple, IH.
      cbn [pins now length]. unfold in_range.
      destruct (Nat.eqb_spec i k) as [->|Hne].
      + replace (S k <=? k)%nat with false by (symmetry; apply Nat.leb_gt; lia).
        replace (k <=? k)%nat with true by (symmetry; apply Nat.leb_le; lia).
        replace (k <? k + S (length names))%nat with true
          by (symmetry; apply Nat.ltb_lt; lia).
        cbn [andb negb].
        destruct (gpio_pin_toggle z (now s) k <? 0); cbn [negb];
          [reflexivity | apply list_lookup_alter_eq].
      + replace (S i <=? k)%nat with (i <=? k)%nat.
        2:{ destruct (Nat.leb_spec i k), (Nat.leb_spec (S i) k); try reflexivity; lia. }
        replace (S i + length names)%nat with (i + S (length names))%nat by lia.
        assert (Hpins : (if gpio_pin_toggle z (now s) i <? 0 then pins s
                         else alter negb i (pins s)) !! k = pins s !! k).
        { destruct (_ <? 0); [reflexivity|].
          apply list_lookup_alter_ne; exact Hne. }
        rewrite Hpins. reflexivity.
  Qed.

  (** Every LED is toggled at the driver, and its inverted flag printed,
      whether or not the toggle succeeded. *)
Lemma toggle_leds_output names : forall i s k name,
    names !! k = Some name ->
    let out := output (Demo.toggle_leds z i names s) in
    Call (GpioToggle (i + k)) ∈ out /\
    (gpio_pin_toggle z (now s) (i + k)%nat < 0 -> Print (FailedToToggle name) ∈ out) /\
    (forall b, Demo.led_state (mem s) !! (i + k)%nat = Some b ->
               Print (LedState name (negb b)) ∈ out).
  Proof.
    induction names as [|name0 names IH]; intros i s k name Hk; [discriminate|].
    cbv zeta. rewrite toggle_leds_cons; cbv zeta; rewrite output_triple.
    destruct k as [|k]; simpl in Hk.
    - injection Hk as ->. rewrite Nat.add_0_r. split; [|split].
      + apply list_elem_of_here.
      + intros Hneg. apply Z.ltb_lt in Hneg. rewrite Hneg.
        apply list_elem_of_further, list_elem_of_here.
      + intros b Hb. apply list_elem_of_further, elem_of_app. right.
        cbn [mem]. rewrite (get_set_led_state _ _ _ Hb). apply list_elem_of_here.
    - specialize (IH (S i)
        (Machine (Demo.set_led_state i (negb (Demo.get_led_state i (mem s))) (mem s))
           (if gpio_pin_toggle z (now s) i <? 0 then pins s else alter negb i (pins s))
           (now s)) k name Hk).
      cbv zeta in IH. cbn [now mem Demo.set_led_state Demo.led_state] in IH.
      replace (S i + k)%nat with (i + S k)%nat in IH by lia.
      destruct IH as (IH1 & IH2 & IH3). split; [|split].
      + apply list_elem_of_further, elem_of_app. right.
        apply list_elem_of_further, IH1.
      + intros Hneg. apply list_elem_of_further, elem_of_app. right.
        apply list_elem_of_further, IH2, Hneg.
      + intros b Hb. apply list_elem_of_further, elem_of_app. right.
        apply list_elem_of_further, IH3.
        unfold Demo.get_led_state. rewrite flip_lookup.
        destruct (Nat.eqb_spec i (i + S k)); [lia | exact Hb].
  Qed.

Lemma toggle_leds_events names : forall i s,
    Forall (fun e => led_event e = true) (output (Demo.toggle_leds z i names s)).
  Proof.
    induction names as [|name names IH]; intros i s; [constructor|].
    rewrite toggle_leds_cons; cbv zeta; rewrite output_triple.
    constructor; [reflexivity|].
    apply Forall_app; split.
    - destruct (_ <? 0); repeat constructor.
    - constructor; [reflexivity | apply IH].
  Qed.

Lemma poll_sensors_cons i node nodes value s :
    Demo.poll_sensors z i (node :: nodes) value s =
    if negb (Demo.get_is_themometer i (mem s)) then
      Demo.poll_sensors z (S i) nodes value s
    else
      let rd := read_temperature z i value s in
      let r := fst (result rd) in
      let v := snd (result rd) in
      if negb (r =? 0) then
        (v, s, output rd ++ [Print (FailedToRead r)])
      else
        let rest := Demo.poll_sensors z (S i) nodes v s in
        (result rest, final rest,
         output rd ++ Print (Reading (dev_name node) (sensor_value_to_double v))
           :: output rest).
  Proof.
    cbn [Demo.poll_sensors]. unfold bind at 1, load at 1.
    destruct (negb (Demo.get_is_themometer i (mem s))).
    - destruct (Demo.poll_sensors z (S i) nodes value s) as [[v' s'] o']; reflexivity.
    - rewrite bind_run, app_nil_l.
      rewrite (read_temperature_final z i value s).
      destruct (result (read_temperature z i value s)) as [r v]; cbn [fst snd].
      destruct (negb (r =? 0)).
      + rewrite bind_run; reflexivity.
      + rewrite bind_run. cbv zeta. unfold printf at 1 2 3; run. reflexivity.
  Qed.

  (** Polling changes nothing in the machine. *)
Lemma poll_sensors_final nodes : forall i value s,
    final (Demo.poll_sensors z i nodes value s) = s.
  Proof.
    induction nodes as [|node nodes IH]; intros i value s; [reflexivity|].
    rewrite poll_sensors_cons.
    destruct (negb _); [apply IH|]. cbv zeta.
    destruct (negb _); rewrite final_triple; [reflexivity | apply IH].
  Qed.

  (** A fetch in the sensor loop is on a thermometer of the array. *)
Lemma poll_sensors_fetch nodes : forall i value s j,
    Call (SampleFetch j) ∈ output (Demo.poll_sensors z i nodes value s) ->
    in_range i (length nodes) j = true /\ Demo.get_is_themometer j (mem s) = true.
  Proof.
    induction nodes as [|node nodes IH]; intros i value s j.
    - intros H; apply elem_of_nil in H; destruct H.
    - assert (Hrec : forall v,
        Call (SampleFetch j) ∈ output (Demo.poll_sensors z (S i) nodes v s) ->
        in_range i (length (node :: nodes)) j = true /\
        Demo.get_is_themometer j (mem s) = true).
      { intros v H. apply IH in H as [H1 H2]. split; [|exact H2].
        unfold in_range in *. apply andb_true_iff in H1 as [H1 H3].
        apply Nat.leb_le in H1; apply Nat.ltb_lt in H3.
        apply andb_true_iff; split; [apply Nat.leb_le | apply Nat.ltb_lt];
          simpl; lia. }
      assert (Hhead : Demo.get_is_themometer i (mem s) = true ->
        forall v, Call (SampleFetch j) ∈ output (read_temperature z i v s) ->
        in_range i (length (node :: nodes)) j = true /\
        Demo.get_is_themometer j (mem s) = true).
      { intros Hth v H.
        apply read_temperature_output in H
          as [H|[H|[[r H]|[r H]]]]; try discriminate.
        injection H as ->. split; [|exact Hth].
        unfold in_range. apply andb_true_iff;
          split; [apply Nat.leb_le | apply Nat.ltb_lt]; simpl; lia. }
      rewrite poll_sensors_cons.
      destruct (Demo.get_is_themometer i (mem s)) eqn:Hth; cbn [negb];
        [|apply Hrec].
      cbv zeta. destruct (negb _); rewrite output_triple; intros H.
      + apply elem_of_app in H as [H|H]; [apply (Hhead eq_refl value H)|].
        apply elem_of_cons in H as [H|H]; [discriminate|].
        apply elem_of_nil in H; destruct H.
      + apply elem_of_app in H as [H|H]; [apply (Hhead eq_refl value H)|].
        apply elem_of_cons in H as [H|H]; [discriminate|].
        apply (Hrec _ H).
  Qed.


Lemma iteration_run value s :
    let p := Demo.poll_sensors z 0 (all_sensors dt) value s in
    let t := Demo.toggle_leds z 0 (led_names dt) s in
    Demo.iteration z dt value s =
    (result p, Machine (mem (final t)) (pins (final t)) (S (now s)),
     output p ++ output t ++ [Call (Sleep 1000)]).
  Proof.
    cbv zeta. unfold Demo.iteration. rewrite !bind_run.
    rewrite poll_sensors_final.
    unfold ret; run. unfold k_sleep; run.
    rewrite toggle_leds_now, app_nil_r. reflexivity.
  Qed.
End DemoLoop.



(** ** Iterating the demo's loop *)

Section DemoIterations.
Variable z : Drivers.
Variable dt : Devicetree.

Lemma monitor_loop_step n value s :
    let it := Demo.iteration z dt value s in
    let rest := Demo.monitor_loop z dt n (result it) (final it) in
    Demo.monitor_loop z dt (S n) value s
    = (result rest, final rest, output it ++ output rest).
  Proof. cbv zeta. cbn [Demo.monitor_loop]. apply bind_run. Qed.


Lemma iteration_led_state value s k :
    (k < length (led_names dt))%nat ->
    Demo.led_state (mem (final (Demo.iteration z dt value s))) !! k
    = negb <$> Demo.led_state (mem s) !! k.
  Proof.
    intros Hk.
    pose proof (iteration_run z dt value s) as Hrun; cbv zeta in Hrun.
    rewrite Hrun, final_triple; cbn [mem].
    rewrite toggle_leds_led_state. unfold in_range.
    replace (k <? 0 + length (led_names dt))%nat with true
      by (symmetry; apply Nat.ltb_lt; lia).
    reflexivity.
  Qed.

Lemma monitor_loop_led_state n : forall value s k,
    (k < length (led_names dt))%nat ->
    Demo.led_state (mem (final (Demo.monitor_loop z dt n value s))) !! k
    = (if Nat.even n then id else negb) <$> Demo.led_state (mem s) !! k.
  Proof.
    induction n as [|n IH]; intros value s k Hk.
    - cbn. destruct (Demo.led_state (mem s) !! k); reflexivity.
    - rewrite monitor_loop_step; cbv zeta; run.
      rewrite IH by exact Hk. rewrite iteration_led_state by exact Hk.
      rewrite Nat.even_succ, <- Nat.negb_even.
      destruct (Demo.led_state (mem s) !! k) as [b|]; [|destruct (Nat.even n); reflexivity].
      destruct (Nat.even n), b; reflexivity.
  Qed.
End DemoIterations.

(** ** The generated variant *)

Section TemplateLoop.
Variable z : Drivers.

Lemma toggle_led_state_run (p : nat) (s : machine Template.memory) :
    let r := gpio_pin_toggle z (now s) (Template.gpio (mem s p)) in
    Template.toggle_led_state z p s =
    if r <? 0 then
      (r, s, [Call (GpioToggle (Template.gpio (mem s p)));
              Print (FailedToToggle (Template.name (mem s p)))])
    else
      let g' := Template.set_state p (negb (Template.state (mem s p))) (mem s) in
      (0, Machine g' (alter negb (Template.gpio (mem s p)) (pins s)) (now s),
       [Call (GpioToggle (Template.gpio (mem s p)));
        Print (LedState (Template.name (g' p)) (Template.state (g' p)))]).
  Proof.
    cbv zeta. unfold Template.toggle_led_state, bind, load, gpio_pin_toggle_dt,
      printf, store, ret, Template.memory in *.
    destruct (gpio_pin_toggle z (now s) (Template.gpio (mem s p)) <? 0); reflexivity.
  Qed.

Lemma set_state_gpio p b g q :
    Template.gpio (Template.set_state p b g q) = Template.gpio (g q).
  Proof.
    unfold Template.set_state. destruct (Nat.eqb_spec q p) as [->|]; reflexivity.
  Qed.

Lemma template_toggle_leds_cons (p : nat) (ps : list nat)
      (s : machine Template.memory) :
    let one := Template.toggle_led_state z p s in
    Template.toggle_leds z (p :: ps) s =
    if result one <? 0 then (Some (result one), final one, output one)
    else
      let rest := Template.toggle_leds z ps (final one) in
      (result rest, final rest, output one ++ output rest).
  Proof.
    cbv zeta. cbn [Template.toggle_leds]. rewrite bind_run.
    destruct (result (Template.toggle_led_state z p s) <? 0); [|reflexivity].
    unfold ret; run. rewrite app_nil_r. reflexivity.
  Qed.


Lemma get_temperature_run t (s : machine Template.memory) :
    let rd := read_temperature z (Template.dev t) (SensorValue 0 0) s in
    Template.get_temperature z t s =
    if negb (fst (result rd) =? 0) then
      (PrimFloat.nan, s, output rd ++ [Print (GetTemperatureFailed (fst (result rd)))])
    else (sensor_value_to_double (snd (result rd)), s, output rd).
  Proof.
    cbv zeta. unfold Template.get_temperature. rewrite bind_run.
    rewrite read_temperature_final.
    destruct (result (read_temperature z (Template.dev t) (SensorValue 0 0) s))
      as [r v]; cbn [fst snd].
    destruct (negb (r =? 0)).
    - rewrite bind_run. reflexivity.
    - unfold ret; run. rewrite app_nil_r. reflexivity.
  Qed.

  (** The thermometer block: it leaves the machine alone, can only return
      [-1], and does so if any read of the block fails. *)
Lemma template_print_thermometers ts : forall s : machine Template.memory,
    let r := Template.print_thermometers z ts s in
    final r = s /\
    (forall c, result r = Some c -> c = -1) /\
    ((exists t, t ∈ ts /\ read_code z (now s) (Template.dev t) <> 0) ->
     result r = Some (-1)).
  Proof.
    induction ts as [|t ts IH]; intros s; cbv zeta.
    - cbn. split; [reflexivity|]. split; [discriminate|].
      intros (t & Ht & _). apply elem_of_nil in Ht; destruct Ht.
    - cbn [Template.print_thermometers]. rewrite bind_run.
      pose proof (get_temperature_run t s) as Hget; cbv zeta in Hget.
      rewrite Hget, read_temperature_code.
      destruct (read_code z (now s) (Template.dev t) =? 0) eqn:E; cbn [negb]; run.
      + destruct (PrimFloat.is_nan _).
        * unfold ret; run. split; [reflexivity|]. split; [congruence|reflexivity].
        * rewrite bind_run. unfold printf at 1 2 3; run.
          destruct (IH s) as (IH1 & IH2 & IH3).
          split; [exact IH1|]. split; [exact IH2|].
          intros (t' & Ht' & Hfail). apply IH3.
          apply elem_of_cons in Ht' as [->|Ht'].
          -- apply Z.eqb_eq in E. tauto.
          -- exists t'; split; assumption.
      + replace (PrimFloat.is_nan PrimFloat.nan) with true by reflexivity.
        unfold ret; run. split; [reflexivity|]. split; [congruence|reflexivity].
  Qed.

End TemplateLoop.

(** C10. In an iteration of the demo's loop the stored flag of every LED
    is inverted and the inverted value printed, whatever the toggle call
    returned; when the call fails the failure is printed and the output
    keeps its level, so a flag that agreed with the output before the
    iteration disagrees with it afterwards.  The generated variant's
    [toggle_led_state] returns the driver's error with [led->state] (and
    the whole machine) untouched. *)
Theorem failed_toggle_desynchronises :
  (forall (z : Drivers) (dt : Devicetree) (value : sensor_value)
          (s : machine Demo.globals) (k : nat) (name : string) (b : bool),
      led_names dt !! k = Some name ->
      Demo.led_state (mem s) !! k = Some b ->
      let r := Demo.iteration z dt value s in
      Demo.led_state (mem (final r)) !! k = Some (negb b) /\
      Print (LedState name (negb b)) ∈ output r /\
      (gpio_pin_toggle z (now s) k < 0 ->
       Print (FailedToToggle name) ∈ output r /\
       pins (final r) !! k = pins s !! k /\
       (pins s !! k = Some b ->
        pins (final r) !! k <> Demo.led_state (mem (final r)) !! k))) /\
  (forall (z : Drivers) (p : nat) (s : machine Template.memory),
      gpio_pin_toggle z (now s) (Template.gpio (mem s p)) < 0 ->
      result (Template.toggle_led_state z p s)
        = gpio_pin_toggle z (now s) (Template.gpio (mem s p)) /\
      final (Template.toggle_led_state z p s) = s /\
      Print (FailedToToggle (Template.name (mem s p)))
        ∈ output (Template.toggle_led_state z p s)).
Proof.
  split.
  - intros z dt value s k name b Hname Hb r.
    assert (Hk : (k < length (led_names dt))%nat)
      by (apply lookup_lt_is_Some; eauto).
    assert (Hled : Demo.led_state (mem (final r)) !! k = Some (negb b)).
    { subst r. rewrite iteration_led_state by exact Hk. rewrite Hb; reflexivity. }
    pose proof (iteration_run z dt value s) as Hrun; cbv zeta in Hrun.
    destruct (toggle_leds_output z (led_names dt) 0 s k name Hname)
      as (_ & Hfail & Hrep).
    split; [exact Hled|]. split.
    { subst r. rewrite Hrun, output_triple.
      apply elem_of_app; right. apply elem_of_app; left. exact (Hrep b Hb). }
    intros Hneg.
    assert (Hpins : pins (final r) !! k = pins s !! k).
    { subst r. rewrite Hrun, final_triple; cbn [pins].
      rewrite toggle_leds_pins.
      apply Z.ltb_lt in Hneg. rewrite Hneg, andb_false_r. reflexivity. }
    split; [|split; [exact Hpins|]].
    + subst r. rewrite Hrun, output_triple.
      apply elem_of_app; right. apply elem_of_app; left. exact (Hfail Hneg).
    + intros Hsame. rewrite Hpins, Hled, Hsame. destruct b; discriminate.
  - intros z p s Hneg.
    pose proof (toggle_led_state_run z p s) as Hrun; cbv zeta in Hrun.
    apply Z.ltb_lt in Hneg. rewrite Hneg in Hrun. rewrite Hrun; run.
    split; [reflexivity|]. split; [reflexivity|].
    apply list_elem_of_further, list_elem_of_here.
Qed.



(** ** Start-up of the demo *)

Section DemoStartup.
Variable z : Drivers.

Lemma init_leds_cons i name names s :
    Demo.init_leds z i (name :: names) s =
    if negb (gpio_is_ready z i) then
      (Some 0, s, [Print (LedNotReady name)])
    else if gpio_pin_configure z i <? 0 then
      (Some 0, s, [Call (GpioConfigure i); Print (LedConfigureFailed name)])
    else
      let rest :=
        Demo.init_leds z (S i) names
          (Machine (Demo.set_led_state i true (mem s)) (<[i := true]> (pins s)) (now s)) in
      (result rest, final rest, Call (GpioConfigure i) :: output rest).
  Proof.
    cbn [Demo.init_leds].
    unfold bind, gpio_is_ready_dt, gpio_pin_configure_dt, printf, store, ret.
    destruct (negb (gpio_is_ready z i)); [reflexivity|].
    destruct (gpio_pin_configure z i <? 0); cbn -[Demo.init_leds]; [reflexivity|].
    destruct (Demo.init_leds z (S i) names _) as [[r s'] o]; reflexivity.
  Qed.

Lemma calibrate_run i value s :
    let rd := read_temperature z i value s in
    let r := fst (result rd) in
    let temp := sensor_value_to_double (snd (result rd)) in
    let low := (temp + 0.5)%float in
    let high := (temp + 1.5)%float in
    let s1 := Machine (Demo.set_low_temp low (mem s)) (pins s) (now s) in
    let s2 := Machine (Demo.set_high_temp high (mem s1)) (pins s) (now s) in
    let c1 := sensor_value_from_double z low in
    let c2 := sensor_value_from_double z high in
    let a1 := sensor_attr_set_result z i SENSOR_ATTR_LOWER_THRESH (snd c1) in
    let a2 := sensor_attr_set_result z i SENSOR_ATTR_UPPER_THRESH (snd c2) in
    let o1 := Call (AttrSet i SENSOR_ATTR_LOWER_THRESH (snd c1))
                :: (if a1 =? 0 then [Print (SetLowerLimit low)] else []) in
    let o2 := Call (AttrSet i SENSOR_ATTR_UPPER_THRESH (snd c2))
                :: (if a2 =? 0 then [Print (SetUpperLimit high)] else []) in
    let o3 := Call (TriggerSet i)
                :: (if sensor_trigger_set_result z i =? 0
                    then [Print EnabledTriggers] else []) in
    Demo.calibrate z i value s =
    if negb (r =? 0) then (inl r, s, output rd ++ [Print (FailedToRead r)])
    else if negb (fst c1 =? 0) then
      (inl (fst c1), s1, output rd ++ [Print (FailedToConvert (fst c1))])
    else if negb (fst c2 =? 0) then
      (inl (fst c2), s2, output rd ++ o1 ++ [Print (FailedToConvert (fst c2))])
    else (inr (snd c2), s2, output rd ++ o1 ++ o2 ++ o3).
  Proof.
    cbv zeta. unfold Demo.calibrate. rewrite bind_run.
    rewrite (read_temperature_final z i value s).
    destruct (result (read_temperature z i value s)) as [r v]; cbn [fst snd].
    destruct (negb (r =? 0)); [rewrite bind_run; reflexivity|].
    unfold bind, store, load, sensor_attr_set, sensor_trigger_set, when, printf, ret;
      cbn [mem pins now Demo.low_temp Demo.high_temp Demo.set_low_temp
           Demo.set_high_temp].
    destruct (sensor_value_from_double z (sensor_value_to_double v + 0.5)%float)
      as [r1 v1]; cbn [fst snd].
    destruct (negb (r1 =? 0)); [rewrite !app_nil_l; reflexivity|].
    destruct (sensor_value_from_double z (sensor_value_to_double v + 1.5)%float)
      as [r2 v2]; cbn [fst snd].
    destruct (negb (r2 =? 0)).
    - destruct (sensor_attr_set_result z i SENSOR_ATTR_LOWER_THRESH v1 =? 0);
        reflexivity.
    - destruct (sensor_attr_set_result z i SENSOR_ATTR_LOWER_THRESH v1 =? 0),
        (sensor_attr_set_result z i SENSOR_ATTR_UPPER_THRESH v2 =? 0),
        (sensor_trigger_set_result z i =? 0); reflexivity.
  Qed.

Lemma init_sensors_cons i node nodes value s :
    let th := String.eqb (friendly_name node) "thermometer" in
    let s1 := if th then Machine (Demo.set_is_themometer i true (mem s)) (pins s) (now s)
              else s in
    let o1 := if th then [Print (FoundThermometer (dev_name node))] else [] in
    let c := Demo.calibrate z i value s1 in
    Demo.init_sensors z i (node :: nodes) value s =
    if negb (device_ready z i) then
      ((Some 0, value), s1, o1 ++ [Print (DeviceNotReady (dev_name node))])
    else
      match result c with
      | inl code => ((Some code, value), final c, o1 ++ output c)
      | inr v =>
          let rest := Demo.init_sensors z (S i) nodes v (final c) in
          (result rest, final rest, o1 ++ output c ++ output rest)
      end.
  Proof.
    cbv zeta. cbn [Demo.init_sensors].
    unfold bind, when, device_is_ready, printf, store, ret, result, final, output.
    destruct (String.eqb (friendly_name node) "thermometer");
      destruct (negb (device_ready z i)); cbn -[Demo.init_sensors Demo.calibrate];
      try reflexivity;
      destruct (Demo.calibrate z i value _) as [[[code|v] s'] o];
      cbn -[Demo.init_sensors]; rewrite ?app_nil_r; try reflexivity;
      destruct (Demo.init_sensors z (S i) nodes v s') as [[r s''] o'];
      reflexivity.
  Qed.

Lemma quiet_exits_with r out : quiet out -> exits_with r out.
  Proof. intros Hq e c He Hc. rewrite (Hq e He) in Hc. discriminate. Qed.

Lemma quiet_app o1 o2 : quiet o1 -> quiet o2 -> quiet (o1 ++ o2).
  Proof. intros H1 H2 e He. apply elem_of_app in He as [He|He]; auto. Qed.

Lemma exits_with_app r o1 o2 :
    quiet o1 -> exits_with r o2 -> exits_with r (o1 ++ o2).
  Proof.
    intros H1 H2 e c He Hc. apply elem_of_app in He as [He|He].
    - rewrite (H1 e He) in Hc. discriminate.
    - exact (H2 e c He Hc).
  Qed.

Lemma exits_with_one c e : exit_code_of e = Some c -> exits_with (Some c) [e].
  Proof.
    intros He e' c' Hin Hc'. apply elem_of_cons in Hin as [->|Hin].
    - congruence.
    - apply elem_of_nil in Hin; destruct Hin.
  Qed.

Lemma quiet_nil : quiet [].
  Proof. intros e He. apply elem_of_nil in He; destruct He. Qed.

Lemma quiet_cons e out : exit_code_of e = None -> quiet out -> quiet (e :: out).
  Proof. intros He Hq e' Hin. apply elem_of_cons in Hin as [->|Hin]; auto. Qed.

Lemma read_temperature_quiet {G} dev val (s : machine G) :
    quiet (output (read_temperature z dev val s)) /\
    Forall (fun e => startup_event e = true) (output (read_temperature z dev val s)).
  Proof.
    split.
    - intros e He. apply read_temperature_output in He
        as [->|[->|[[r ->]|[r ->]]]]; reflexivity.
    - apply Forall_forall. intros e He. apply read_temperature_output in He
        as [->|[->|[[r ->]|[r ->]]]]; reflexivity.
  Qed.

  (** Start-up's LED loop: every way out of it is [return 0]; it falls
      through only if every LED is ready, and then every flag is [true]. *)
Lemma init_leds_spec names : forall i s,
    let r := Demo.init_leds z i names s in
    Forall (fun e => startup_event e = true) (output r) /\
    exits_with (result r) (output r) /\
    (forall c, result r = Some c -> c = 0) /\
    now (final r) = now s /\
    Demo.low_temp (mem (final r)) = Demo.low_temp (mem s) /\
    Demo.high_temp (mem (final r)) = Demo.high_temp (mem s) /\
    length (Demo.is_themometer (mem (final r))) = length (Demo.is_themometer (mem s)) /\
    length (Demo.led_state (mem (final r))) = length (Demo.led_state (mem s)) /\
    (result r = None ->
     quiet (output r) /\
     (forall k, (k < length names)%nat -> gpio_is_ready z (i + k) = true) /\
     (forall k, in_range i (length names) k = true ->
                (k < length (Demo.led_state (mem s)))%nat ->
                Demo.led_state (mem (final r)) !! k = Some true)).
  Proof.
    induction names as [|name names IH]; intros i s; cbv zeta.
    - cbn. repeat split; try constructor; try discriminate.
      + apply quiet_exits_with, quiet_nil.
      + apply quiet_nil.
      + intros k Hk; lia.
      + intros k Hk. unfold in_range in Hk. apply andb_true_iff in Hk as [H1 H2].
        apply Nat.leb_le in H1; apply Nat.ltb_lt in H2; lia.
    - rewrite init_leds_cons.
      destruct (gpio_is_ready z i) eqn:Hready; cbn [negb].
      2:{ run. repeat split; try (repeat constructor; fail); try discriminate.
          - apply exits_with_one; reflexivity.
          - congruence. }
      destruct (gpio_pin_configure z i <? 0) eqn:Hconf.
      { run. repeat split; try (repeat constructor; fail); try discriminate.
        - apply (exits_with_app _ [_] [_]); [|apply exits_with_one; reflexivity].
          apply quiet_cons; [reflexivity | apply quiet_nil].
        - congruence. }
      cbv zeta; run.
      match goal with |- context [Demo.init_leds z (S i) names ?s1] =>
        destruct (IH (S i) s1)
          as (IH1 & IH2 & IH3 & IH4 & IH5 & IH6 & IH7 & IH8 & IH9);
        cbn [now mem Demo.set_led_state Demo.low_temp Demo.high_temp
             Demo.is_themometer Demo.led_state] in IH4, IH5, IH6, IH7, IH8, IH9
      end.
      rewrite length_insert in IH8.
      split; [constructor; [reflexivity | exact IH1]|].
      split; [apply (exits_with_app _ [_]); [apply quiet_cons; [reflexivity|apply quiet_nil] | exact IH2]|].
      split; [exact IH3|]. split; [exact IH4|]. split; [exact IH5|].
      split; [exact IH6|]. split; [exact IH7|]. split; [exact IH8|].
      intros Hnone. destruct (IH9 Hnone) as (Hq & Hr & Hl).
      split; [apply quiet_cons; [reflexivity | exact Hq]|]. split.
      + intros [|k] Hk.
        * rewrite Nat.add_0_r; exact Hready.
        * replace (i + S k)%nat with (S i + k)%nat by lia. apply Hr.
          cbn [length] in Hk; lia.
      + intros k Hk Hlen. unfold in_range in Hk.
        apply andb_true_iff in Hk as [H1 H2].
        apply Nat.leb_le in H1; apply Nat.ltb_lt in H2. cbn [length] in H2.
        destruct (decide (k = i)) as [->|Hne].
        * destruct (decide (in_range (S i) (length names) i = true)) as [Hin|Hout].
          { unfold in_range in Hin. apply andb_true_iff in Hin as [H3 _].
            apply Nat.leb_le in H3; lia. }
          clear Hout.
          assert (Hkeep : forall names' j s',
            (i < j)%nat ->
            Demo.led_state (mem (final (Demo.init_leds z j names' s'))) !! i
            = Demo.led_state (mem s') !! i).
          { clear. induction names' as [|n' names' IH']; intros j s' Hj; [reflexivity|].
            rewrite init_leds_cons.
            destruct (negb _); [reflexivity|].
            destruct (_ <? 0); [reflexivity|].
            cbv zeta; run. rewrite IH' by lia. cbn.
            apply list_lookup_insert_ne; lia. }
          rewrite Hkeep by lia. cbn.
          apply list_lookup_insert_eq; exact Hlen.
        * apply Hl; [|rewrite length_insert; exact Hlen].
          unfold in_range. apply andb_true_iff; split;
            [apply Nat.leb_le | apply Nat.ltb_lt]; lia.
  Qed.

  (** The calibration of one sensor touches the two bounds only; it
      returns with a code that is not zero, right after the diagnostic, or
      it completes with the bounds at the baseline plus 0.5 and 1.5. *)
Lemma calibrate_spec i value s :
    let c := Demo.calibrate z i value s in
    let base := sensor_value_to_double (read_value z (now s) i) in
    Forall (fun e => startup_event e = true) (output c) /\
    now (final c) = now s /\
    pins (final c) = pins s /\
    Demo.led_state (mem (final c)) = Demo.led_state (mem s) /\
    Demo.is_themometer (mem (final c)) = Demo.is_themometer (mem s) /\
    match result c with
    | inl code => code <> 0 /\ exits_with (Some code) (output c)
    | inr _ =>
        quiet (output c) /\
        read_code z (now s) i = 0 /\
        Demo.low_temp (mem (final c)) = (base + 0.5)%float /\
        Demo.high_temp (mem (final c)) = (base + 1.5)%float
    end.
  Proof.
    cbv zeta.
    pose proof (calibrate_run i value s) as Hrun; cbv zeta in Hrun. rewrite Hrun.
    clear Hrun.
    destruct (read_temperature_quiet i value s) as [Hq Hev].
    rewrite read_temperature_code.
    destruct (read_code z (now s) i =? 0) eqn:Hread; cbn [negb].
    2:{ run. apply Z.eqb_neq in Hread.
        split.
        { apply Forall_app; split; [exact Hev|].
          repeat constructor. cbn. apply negb_true_iff, Z.eqb_neq, Hread. }
        repeat split; try assumption.
        apply exits_with_app; [exact Hq | apply exits_with_one; reflexivity]. }
    apply Z.eqb_eq in Hread.
    rewrite (read_temperature_value z i value s Hread).
    set (base := sensor_value_to_double (read_value z (now s) i)).
    destruct (sensor_value_from_double z (base + 0.5)%float) as [r1 v1]; cbn [fst snd].
    destruct (r1 =? 0) eqn:H1; cbn [negb].
    2:{ run. apply Z.eqb_neq in H1.
        split.
        { apply Forall_app; split; [exact Hev|].
          repeat constructor. cbn. apply negb_true_iff, Z.eqb_neq, H1. }
        repeat split; try assumption.
        apply exits_with_app; [exact Hq | apply exits_with_one; reflexivity]. }
    destruct (sensor_value_from_double z (base + 1.5)%float) as [r2 v2]; cbn [fst snd].
    assert (Ho1 : forall a,
      quiet (Call (AttrSet i SENSOR_ATTR_LOWER_THRESH v1)
               :: (if a =? 0 then [Print (SetLowerLimit (base + 0.5)%float)] else [])) /\
      Forall (fun e => startup_event e = true)
        (Call (AttrSet i SENSOR_ATTR_LOWER_THRESH v1)
           :: (if a =? 0 then [Print (SetLowerLimit (base + 0.5)%float)] else []))).
    { intros a. destruct (a =? 0); split; repeat constructor;
        repeat (apply quiet_cons; [reflexivity|]); apply quiet_nil. }
    assert (Ho2 : forall a,
      quiet (Call (AttrSet i SENSOR_ATTR_UPPER_THRESH v2)
               :: (if a =? 0 then [Print (SetUpperLimit (base + 1.5)%float)] else [])) /\
      Forall (fun e => startup_event e = true)
        (Call (AttrSet i SENSOR_ATTR_UPPER_THRESH v2)
           :: (if a =? 0 then [Print (SetUpperLimit (base + 1.5)%float)] else []))).
    { intros a. destruct (a =? 0); split; repeat constructor;
        repeat (apply quiet_cons; [reflexivity|]); apply quiet_nil. }
    assert (Ho3 : forall a,
      quiet (Call (TriggerSet i) :: (if a =? 0 then [Print EnabledTriggers] else [])) /\
      Forall (fun e => startup_event e = true)
        (Call (TriggerSet i) :: (if a =? 0 then [Print EnabledTriggers] else []))).
    { intros a. destruct (a =? 0); split; repeat constructor;
        repeat (apply quiet_cons; [reflexivity|]); apply quiet_nil. }
    destruct (r2 =? 0) eqn:H2; cbn [negb].
    2:{ run. apply Z.eqb_neq in H2.
        split.
        { apply Forall_app; split; [exact Hev|].
          apply Forall_app; split; [apply Ho1|].
          repeat constructor. cbn. apply negb_true_iff, Z.eqb_neq, H2. }
        repeat split; try assumption.
        apply exits_with_app; [exact Hq|].
        apply exits_with_app; [apply Ho1 | apply exits_with_one; reflexivity]. }
    run. split.
    { apply Forall_app; split; [exact Hev|].
      apply Forall_app; split; [apply Ho1|].
      apply Forall_app; split; [apply Ho2 | apply Ho3]. }
    repeat split; try assumption.
    apply quiet_app; [exact Hq|].
    apply quiet_app; [apply Ho1|].
    apply quiet_app; [apply Ho2 | apply Ho3].
  Qed.

  (** Start-up's sensor loop. *)
Lemma init_sensors_spec nodes : forall i value s,
    let r := Demo.init_sensors z i nodes value s in
    Forall (fun e => startup_event e = true) (output r) /\
    exits_with (fst (result r)) (output r) /\
    now (final r) = now s /\
    pins (final r) = pins s /\
    Demo.led_state (mem (final r)) = Demo.led_state (mem s) /\
    (fst (result r) = None ->
     quiet (output r) /\
     (forall k, (k < length nodes)%nat -> device_ready z (i + k) = true)).
  Proof.
    induction nodes as [|node nodes IH]; intros i value s; cbv zeta.
    - cbn. repeat split; try constructor.
      + apply quiet_exits_with, quiet_nil.
      + apply quiet_nil.
      + intros k Hk; lia.
    - pose proof (init_sensors_cons i node nodes value s) as Hrun; cbv zeta in Hrun.
      rewrite Hrun; clear Hrun.
      set (th := String.eqb (friendly_name node) "thermometer").
      set (s1 := if th then _ else s).
      set (o1 := if th then _ else []).
      assert (Hs1 : now s1 = now s /\ pins s1 = pins s /\
                    Demo.led_state (mem s1) = Demo.led_state (mem s))
        by (subst s1; destruct th; repeat split).
      destruct Hs1 as (Hnow1 & Hpins1 & Hled1).
      assert (Ho1 : quiet o1 /\ Forall (fun e => startup_event e = true) o1).
      { subst o1; destruct th; split; repeat constructor;
          repeat (apply quiet_cons; [reflexivity|]); apply quiet_nil. }
      destruct Ho1 as [Hq1 Hev1].
      destruct (device_ready z i) eqn:Hready; cbn [negb].
      2:{ run. cbn [fst]. split.
          { apply Forall_app; split; [exact Hev1 | repeat constructor]. }
          split; [apply exits_with_app; [exact Hq1 | apply exits_with_one; reflexivity]|].
          repeat split; try assumption; discriminate. }
      destruct (calibrate_spec i value s1) as (Hcev & Hcnow & Hcpins & Hcled & _ & Hc).
      cbv zeta in Hc.
      destruct (result (Demo.calibrate z i value s1)) as [code|v].
      + destruct Hc as [Hcode Hexit]. run. cbn [fst]. split.
        { apply Forall_app; split; assumption. }
        split; [apply exits_with_app; assumption|].
        repeat split; try congruence; discriminate.
      + destruct Hc as (Hcq & _).
        destruct (IH (S i) v (final (Demo.calibrate z i value s1)))
          as (IH1 & IH2 & IH3 & IH4 & IH5 & IH6).
        cbv zeta; run. split.
        { apply Forall_app; split; [exact Hev1|].
          apply Forall_app; split; assumption. }
        split.
        { apply exits_with_app; [exact Hq1|]. apply exits_with_app; assumption. }
        split; [congruence|]. split; [congruence|]. split; [congruence|].
        intros Hnone. destruct (IH6 Hnone) as [Hq Hr]. split.
        * apply quiet_app; [exact Hq1|]. apply quiet_app; assumption.
        * intros [|k] Hk.
          -- rewrite Nat.add_0_r; exact Hready.
          -- replace (i + S k)%nat with (S i + k)%nat by lia. apply Hr.
             cbn [length] in Hk; lia.
  Qed.
End DemoStartup.


Section DemoMain.
Variable z : Drivers.
Variable dt : Devicetree.

Lemma startup_run value s :
  let l := Demo.init_leds z 0 (led_names dt) s in
  let n := Demo.init_sensors z 0 (all_sensors dt) value (final l) in
  let o := [Print (Banner (CONFIG_ARCH z));
            Print (LedsRegistered (length (led_names dt)));
            Print (SensorsRegistered (length (all_sensors dt)))] in
  Demo.startup z dt value s =
  match result l with
  | Some code => ((Some code, value), final l, o ++ output l)
  | None => (result n, final n, o ++ output l ++ output n)
  end.
Proof.
  cbv zeta. unfold Demo.startup.
  unfold bind at 1 2 3, printf at 1 2 3. rewrite bind_run.
  destruct (result (Demo.init_leds z 0 (led_names dt) s)) as [code|].
  - unfold ret; run. rewrite app_nil_r. reflexivity.
  - reflexivity.
Qed.

(** Start-up as a whole: it emits start-up events only, returns exactly
    when it prints a diagnostic, with the code of that diagnostic, and
    falls through to the loop only if every device is ready, leaving every
    LED flag [true]. *)
Lemma startup_spec value s :
  let r := Demo.startup z dt value s in
  Forall (fun e => startup_event e = true) (output r) /\
  exits_with (fst (result r)) (output r) /\
  now (final r) = now s /\
  (fst (result r) = None ->
   (forall k, (k < length (led_names dt))%nat -> gpio_is_ready z k = true) /\
   (forall k, (k < length (all_sensors dt))%nat -> device_ready z k = true) /\
   (forall k, (k < length (led_names dt))%nat ->
              (k < length (Demo.led_state (mem s)))%nat ->
              Demo.led_state (mem (final r)) !! k = Some true)).
Proof.
  cbv zeta.
  pose proof (startup_run value s) as Hrun; cbv zeta in Hrun. rewrite Hrun; clear Hrun.
  destruct (init_leds_spec z (led_names dt) 0 s)
    as (L1 & L2 & L3 & L4 & _ & _ & _ & _ & L9).
  set (o := [Print (Banner _); _; _]).
  assert (Ho : quiet o /\ Forall (fun e => startup_event e = true) o).
  { subst o; split; repeat constructor.
    repeat (apply quiet_cons; [reflexivity|]); apply quiet_nil. }
  destruct Ho as [Hq Hev].
  destruct (result (Demo.init_leds z 0 (led_names dt) s)) as [code|].
  - run. cbn [fst]. split; [apply Forall_app; split; assumption|].
    split; [apply exits_with_app; assumption|]. split; [exact L4|]. discriminate.
  - destruct (L9 eq_refl) as (Lq & Lr & Ll).
    destruct (init_sensors_spec z (all_sensors dt) 0 value
                (final (Demo.init_leds z 0 (led_names dt) s)))
      as (N1 & N2 & N3 & _ & N5 & N6).
    run. split.
    { apply Forall_app; split; [exact Hev|]. apply Forall_app; split; assumption. }
    split.
    { apply exits_with_app; [exact Hq|]. apply exits_with_app; assumption. }
    split; [congruence|].
    intros Hnone. destruct (N6 Hnone) as [_ Nr].
    split; [exact Lr|]. split; [exact Nr|].
    intros k Hk Hlen. rewrite N5. apply Ll; [|exact Hlen].
    unfold in_range. apply andb_true_iff; split;
      [apply Nat.leb_le | apply Nat.ltb_lt]; lia.
Qed.

Lemma main_run n value s :
  let st := Demo.startup z dt value s in
  let l := Demo.monitor_loop z dt n (snd (result st)) (final st) in
  Demo.main z dt n value s =
  match fst (result st) with
  | Some code => (Some code, final st, output st)
  | None => (result l, final l, output st ++ output l)
  end.
Proof.
  cbv zeta. unfold Demo.main. rewrite bind_run.
  destruct (result (Demo.startup z dt value s)) as [[code|] v]; cbn [fst snd].
  - unfold ret; run. rewrite app_nil_r. reflexivity.
  - reflexivity.
Qed.

End DemoMain.

(** ** The first device that fails *)

Section DemoFirstFailure.
Variable z : Drivers.



End DemoFirstFailure.


(** C8. An LED flag that is [true] when the monitor loop is entered is
    [true] after an even number of iterations and [false] after an odd
    one; start-up leaves every flag [true], so this is the state of every
    LED of a run that reached the loop. *)
Theorem led_state_parity (z : Drivers) (dt : Devicetree) (n k : nat) :
  (k < length (led_names dt))%nat ->
  (forall (value : sensor_value) (s : machine Demo.globals),
      Demo.led_state (mem s) !! k = Some true ->
      Demo.led_state (mem (final (Demo.monitor_loop z dt n value s))) !! k
      = Some (Nat.even n)) /\
  (forall value : sensor_value,
      fst (result (Demo.startup z dt value (Demo.boot dt))) = None ->
      Demo.led_state (mem (final (Demo.startup z dt value (Demo.boot dt)))) !! k
      = Some true /\
      Demo.led_state (mem (final (Demo.main z dt n value (Demo.boot dt)))) !! k
      = Some (Nat.even n)).
Proof.
  intros Hk.
  assert (Hloop : forall (value : sensor_value) (s : machine Demo.globals),
    Demo.led_state (mem s) !! k = Some true ->
    Demo.led_state (mem (final (Demo.monitor_loop z dt n value s))) !! k
    = Some (Nat.even n)).
  { intros value s Hs. rewrite monitor_loop_led_state by exact Hk. rewrite Hs.
    destruct (Nat.even n); reflexivity. }
  split; [exact Hloop|].
  intros value Hnone.
  destruct (startup_spec z dt value (Demo.boot dt)) as (_ & _ & _ & Hst).
  destruct (Hst Hnone) as (_ & _ & Hled).
  assert (Htrue : Demo.led_state
                    (mem (final (Demo.startup z dt value (Demo.boot dt)))) !! k
                  = Some true).
  { apply Hled; [exact Hk|]. cbn. rewrite length_replicate. exact Hk. }
  split; [exact Htrue|].
  pose proof (main_run z dt n value (Demo.boot dt)) as Hrun; cbv zeta in Hrun.
  rewrite Hrun, Hnone; run. apply Hloop. exact Htrue.
Qed.

(** ** The bounds *)

Lemma grid_check_sound (step : Z) (P : double -> bool) (v : sensor_value) :
  0 < step ->
  grid_check step P = true ->
  on_grid step v = true ->
  P (sensor_value_to_double v) = true.
Proof.
  intros Hstep Hcheck Hgrid. destruct v as [v1 v2].
  unfold on_grid in Hgrid; cbn [val1 val2] in Hgrid.
  repeat (apply andb_true_iff in Hgrid as [Hgrid ?]).
  repeat match goal with
         | H : (_ <=? _) = true |- _ => apply Z.leb_le in H
         | H : (_ <? _) = true |- _ => apply Z.ltb_lt in H
         | H : (_ =? _) = true |- _ => apply Z.eqb_eq in H
         end.
  assert (Hk : v2 = v2 / step * step).
  { rewrite Z.mul_comm. apply Z.div_exact; lia. }
  unfold grid_check in Hcheck.
  rewrite forallb_forall in Hcheck.
  specialize (Hcheck v1). rewrite forallb_forall in Hcheck.
  rewrite Hk. apply Hcheck.
  - apply list_elem_of_In, elem_of_seqZ. lia.
  - apply list_elem_of_In, elem_of_seqZ.
    assert (v2 / step <= 1000000 / step) by (apply Z.div_le_mono; lia).
    assert (- (v2 / step) <= 1000000 / step).
    { apply Z.div_le_lower_bound; [lia|]. nia. }
    lia.
Qed.

Lemma sixteenths_exact : grid_check 62500 exact_offsets = true.
Proof. vm_compute. reflexivity. Qed.

(** ** Rounding in double precision

    Binary64 arithmetic as [SpecFloat] defines it, over values counted in
    units of [2^-1074]: a coarse bound on the rounding error of an
    addition, enough to separate two sums that are one degree apart. *)

Lemma pow2_pos e : -1074 <= e -> 0 < pow2 e.
Proof. intros H. unfold pow2. apply Z.pow_pos_nonneg; lia. Qed.

Lemma pow2_nonneg e : 0 <= pow2 e.
Proof. unfold pow2. apply Z.pow_nonneg. lia. Qed.

Lemma pow2_shift e n : -1074 <= e -> 0 <= n -> pow2 (e + n) = 2 ^ n * pow2 e.
Proof.
  intros He Hn. unfold pow2.
  replace (e + n + 1074) with (n + (e + 1074)) by lia.
  apply Z.pow_add_r; lia.
Qed.

Lemma pow2_le e1 e2 : e1 <= e2 -> pow2 e1 <= pow2 e2.
Proof.
  intros H. unfold pow2.
  destruct (Z_lt_le_dec (e1 + 1074) 0) as [Hneg|Hpos].
  - rewrite (Z.pow_neg_r 2 (e1 + 1074)) by exact Hneg. apply Z.pow_nonneg; lia.
  - apply Z.pow_le_mono_r; lia.
Qed.

Lemma fexp_eq x : fexp prec emax x = Z.max (x - 53) (-1074).
Proof. reflexivity. Qed.

Lemma digits2_pos_bounds (m : positive) :
  2 ^ (Z.pos (digits2_pos m) - 1) <= Z.pos m < 2 ^ Z.pos (digits2_pos m).
Proof.
  induction m as [m IH|m IH|]; cbn [digits2_pos].
  - rewrite Pos2Z.inj_succ, (Pos2Z.inj_xI m).
    replace (Z.succ (Z.pos (digits2_pos m)) - 1)
      with (Z.succ (Z.pos (digits2_pos m) - 1)) by lia.
    rewrite !Z.pow_succ_r by lia.
    destruct IH as [IH1 IH2]. revert IH1 IH2.
    generalize (2 ^ (Z.pos (digits2_pos m) - 1)) (2 ^ Z.pos (digits2_pos m)). lia.
  - rewrite Pos2Z.inj_succ, (Pos2Z.inj_xO m).
    replace (Z.succ (Z.pos (digits2_pos m)) - 1)
      with (Z.succ (Z.pos (digits2_pos m) - 1)) by lia.
    rewrite !Z.pow_succ_r by lia.
    destruct IH as [IH1 IH2]. revert IH1 IH2.
    generalize (2 ^ (Z.pos (digits2_pos m) - 1)) (2 ^ Z.pos (digits2_pos m)). lia.
  - cbn. lia.
Qed.

Lemma Zdigits2_nonneg m : 0 <= Zdigits2 m.
Proof. destruct m; cbn; lia. Qed.

(** Digits of a number below a power of two. *)
Lemma Zdigits2_le m k : 0 <= m < 2 ^ k -> 0 <= k -> Zdigits2 m <= k.
Proof.
  intros [H0 Hm] Hk. destruct m as [|p|p]; cbn; [lia| |lia].
  pose proof (digits2_pos_bounds p) as [Hlo _].
  assert (2 ^ (Z.pos (digits2_pos p) - 1) < 2 ^ k) by lia.
  apply Z.pow_lt_mono_r_iff in H; lia.
Qed.

Lemma Zdigits2_bound m e B :
  0 <= m -> -1074 <= e -> m * pow2 e < pow2 B -> -1074 <= B ->
  Zdigits2 m + e <= Z.max B e.
Proof.
  intros Hm He Hlt HB.
  destruct m as [|p|p]; cbn [Zdigits2]; [lia| |lia].
  pose proof (digits2_pos_bounds p) as [Hlo _].
  assert (H : 2 ^ (Z.pos (digits2_pos p) - 1) * pow2 e < pow2 B).
  { pose proof (pow2_pos e He). nia. }
  unfold pow2 in H. rewrite <- Z.pow_add_r in H by lia.
  apply Z.pow_lt_mono_r_iff in H; lia.
Qed.

(** ** Shifting right *)

Lemma shr_1_m mrs : 0 <= shr_m mrs -> shr_m (shr_1 mrs) = shr_m mrs / 2.
Proof.
  destruct mrs as [m r s]; cbn [shr_m]. intros Hm.
  rewrite <- Z.div2_div.
  destruct m as [|[p|p|]|p]; try reflexivity. lia.
Qed.

Lemma iter_shr_1_m (p : positive) : forall mrs,
  0 <= shr_m mrs ->
  shr_m (SpecFloat.iter_pos shr_1 p mrs) = shr_m mrs / 2 ^ Z.pos p.
Proof.
  induction p as [p IH|p IH|]; intros mrs Hm; cbn [SpecFloat.iter_pos].
  - assert (H1 : 0 <= shr_m (shr_1 mrs)).
    { rewrite shr_1_m by exact Hm. apply Z.div_pos; lia. }
    assert (H2 : 0 <= shr_m (SpecFloat.iter_pos shr_1 p (shr_1 mrs))).
    { rewrite IH by exact H1. apply Z.div_pos; [exact H1|]. apply Z.pow_pos_nonneg; lia. }
    rewrite IH by exact H2. rewrite IH by exact H1. rewrite shr_1_m by exact Hm.
    rewrite !Z.div_div by (try apply Z.pow_pos_nonneg; lia).
    f_equal. rewrite (Pos2Z.inj_xI p).
    replace (2 * Z.pos p + 1) with (1 + Z.pos p + Z.pos p) by lia.
    rewrite !Z.pow_add_r by lia. lia.
  - assert (H2 : 0 <= shr_m (SpecFloat.iter_pos shr_1 p mrs)).
    { rewrite IH by exact Hm. apply Z.div_pos; [exact Hm|]. apply Z.pow_pos_nonneg; lia. }
    rewrite IH by exact H2. rewrite IH by exact Hm.
    rewrite !Z.div_div by (try apply Z.pow_pos_nonneg; lia).
    f_equal. rewrite (Pos2Z.inj_xO p).
    replace (2 * Z.pos p) with (Z.pos p + Z.pos p) by lia.
    rewrite !Z.pow_add_r by lia. lia.
  - rewrite shr_1_m by exact Hm. reflexivity.
Qed.

Lemma shr_fexp_spec m e l :
  0 <= m ->
  let n := Z.max 0 (fexp prec emax (Zdigits2 m + e) - e) in
  shr_m (fst (shr_fexp prec emax m e l)) = m / 2 ^ n /\
  snd (shr_fexp prec emax m e l) = e + n.
Proof.
  intros Hm n. unfold shr_fexp, shr.
  assert (Hrec : shr_m (shr_record_of_loc m l) = m)
    by (destruct l as [|[]]; reflexivity).
  subst n. destruct (fexp prec emax (Zdigits2 m + e) - e) as [|p|p] eqn:E; cbn [fst snd].
  - rewrite Hrec. cbn. rewrite Z.div_1_r. split; [reflexivity | lia].
  - rewrite iter_shr_1_m by (rewrite Hrec; exact Hm). rewrite Hrec.
    replace (Z.max 0 (Z.pos p)) with (Z.pos p) by lia. split; reflexivity.
  - rewrite Hrec. replace (Z.max 0 (Z.neg p)) with 0 by lia.
    cbn. rewrite Z.div_1_r. split; [reflexivity | lia].
Qed.

Lemma round_nearest_even_bounds m l :
  m <= round_nearest_even m l <= m + 1.
Proof.
  unfold round_nearest_even. destruct l as [|[]]; try lia.
  destruct (Z.even m); lia.
Qed.

(** The crude specification of rounding: the result is a zero or a finite
    number of the given sign, within four units in the last place of the
    rounded mantissa. *)
Lemma binary_round_aux_spec sx mx ex lx :
  0 <= mx -> -1074 <= ex ->
  let e1 := ex + Z.max 0 (fexp prec emax (Zdigits2 mx + ex) - ex) in
  e1 <= 970 ->
  let r := binary_round_aux prec emax sx mx ex lx in
  is_real r = true /\
  SFval r = cond_Zopp sx (SFmag r) /\
  mx * pow2 ex - 4 * pow2 e1 <= SFmag r <= mx * pow2 ex + pow2 e1.
Proof.
  intros Hmx Hex e1 He1 r. subst r. unfold binary_round_aux.
  destruct (shr_fexp_spec mx ex lx Hmx) as [Hm1 Hs1]. fold e1 in Hs1.
  destruct (shr_fexp prec emax mx ex lx) as [mrs' e'] eqn:E1. cbn [fst snd] in Hm1, Hs1.
  set (n := Z.max 0 (fexp prec emax (Zdigits2 mx + ex) - ex)) in *.
  set (m' := shr_m mrs') in *.
  pose proof (round_nearest_even_bounds m' (loc_of_shr_record mrs')) as Hrne.
  set (m1 := round_nearest_even m' (loc_of_shr_record mrs')) in *.
  assert (Hn : 0 <= n) by (subst n; lia).
  assert (Hpn : 0 < 2 ^ n) by (apply Z.pow_pos_nonneg; lia).
  assert (Hm'0 : 0 <= m') by (rewrite Hm1; apply Z.div_pos; lia).
  assert (Hfloor : m' * 2 ^ n <= mx < (m' + 1) * 2 ^ n).
  { rewrite Hm1. pose proof (Z.mul_div_le mx (2 ^ n) Hpn).
    pose proof (Z.mul_succ_div_gt mx (2 ^ n) Hpn). lia. }
  assert (He' : e' = e1) by (subst e1; lia). subst e'.
  assert (He1lo : -1074 <= e1) by (subst e1; lia).
  assert (Hp1 : pow2 e1 = 2 ^ n * pow2 ex) by (subst e1; apply pow2_shift; lia).
  (* the rounded mantissa has at most 54 digits *)
  assert (Hm'53 : m' < 2 ^ 53).
  { destruct (Z_le_gt_dec (fexp prec emax (Zdigits2 mx + ex) - ex) 0) as [Hle|Hgt].
    - replace n with 0 in * by (subst n; lia). rewrite fexp_eq in Hle.
      assert (Zdigits2 mx <= 53) by lia.
      destruct mx as [|p|p]; [rewrite Hm1; cbn; lia| |lia].
      pose proof (digits2_pos_bounds p) as [_ Hhi]. cbn [Zdigits2] in H.
      assert (2 ^ Z.pos (digits2_pos p) <= 2 ^ 53) by (apply Z.pow_le_mono_r; lia).
      rewrite Hm1. cbn [Z.pow]. rewrite Z.div_1_r. lia.
    - assert (Hn' : n = fexp prec emax (Zdigits2 mx + ex) - ex) by (subst n; lia).
      rewrite fexp_eq in Hn'.
      destruct mx as [|p|p]; [rewrite Hm1; cbn; lia| |lia].
      pose proof (digits2_pos_bounds p) as [_ Hhi]. cbn [Zdigits2] in Hn'.
      assert (Hd : Z.pos (digits2_pos p) <= n + 53) by lia.
      assert (2 ^ Z.pos (digits2_pos p) <= 2 ^ (n + 53)) by (apply Z.pow_le_mono_r; lia).
      rewrite Z.pow_add_r in H by lia.
      rewrite Hm1. apply Z.div_lt_upper_bound; [lia|]. lia. }
  assert (Hd1 : Zdigits2 m1 <= 54).
  { apply Zdigits2_le; [|lia]. split; [lia|].
    replace (2 ^ 54) with (2 * 2 ^ 53) by reflexivity. lia. }
  assert (Hm10 : 0 <= m1) by lia.
  destruct (shr_fexp_spec m1 e1 loc_Exact Hm10) as [Hm2 Hs2].
  destruct (shr_fexp prec emax m1 e1 loc_Exact) as [mrs'' e''] eqn:E2.
  cbn [fst snd] in Hm2, Hs2.
  set (n2 := Z.max 0 (fexp prec emax (Zdigits2 m1 + e1) - e1)) in *.
  assert (Hn2 : 0 <= n2 <= 1).
  { subst n2. rewrite fexp_eq. lia. }
  assert (Hpn2 : 0 < 2 ^ n2) by (apply Z.pow_pos_nonneg; lia).
  assert (Hfloor2 : shr_m mrs'' * 2 ^ n2 <= m1 < (shr_m mrs'' + 1) * 2 ^ n2).
  { rewrite Hm2. pose proof (Z.mul_div_le m1 (2 ^ n2) Hpn2).
    pose proof (Z.mul_succ_div_gt m1 (2 ^ n2) Hpn2). lia. }
  assert (Hm''0 : 0 <= shr_m mrs'') by (rewrite Hm2; apply Z.div_pos; lia).
  assert (Hp2 : pow2 e'' = 2 ^ n2 * pow2 e1) by (subst e''; apply pow2_shift; lia).
  assert (Hpn2' : 2 ^ n2 <= 2).
  { replace 2 with (2 ^ 1) at 2 by reflexivity. apply Z.pow_le_mono_r; lia. }
  pose proof (pow2_pos ex Hex) as Hpex.
  pose proof (pow2_pos e1 He1lo) as Hpe1.
  destruct (shr_m mrs'') as [|m|m] eqn:Em; [| |lia].
  - cbn [is_real SFval SFmag]. split; [reflexivity|].
    split; [destruct sx; reflexivity|]. nia.
  - replace (e'' <=? emax - prec) with true
      by (symmetry; apply Z.leb_le; change (emax - prec) with 971; lia).
    cbn [is_real SFval SFmag]. split; [reflexivity|]. split; [reflexivity|].
    rewrite Hp2. nia.
Qed.

(** ** Aligning, rounding a positive mantissa, normalising *)

Lemma iter_xO (d : positive) (m : positive) :
  Z.pos (Pos.iter xO m d) = Z.pos m * 2 ^ Z.pos d.
Proof.
  induction d as [|d IH] using Pos.peano_ind.
  - cbn. lia.
  - rewrite Pos.iter_succ, Pos2Z.inj_succ, Z.pow_succ_r by lia.
    rewrite (Pos2Z.inj_xO (Pos.iter xO m d)), IH. lia.
Qed.

Lemma shl_align_spec mx ex ex' :
  -1074 <= ex -> -1074 <= ex' ->
  Z.pos (fst (shl_align mx ex ex')) * pow2 (snd (shl_align mx ex ex')) = Z.pos mx * pow2 ex /\
  snd (shl_align mx ex ex') = Z.min ex ex'.
Proof.
  intros Hex Hex'. unfold shl_align.
  destruct (ex' - ex) as [|d|d] eqn:E; cbn [fst snd].
  - split; [reflexivity | lia].
  - split; [reflexivity | lia].
  - rewrite iter_xO. split; [|lia].
    replace ex with (ex' + Z.pos d) by lia.
    rewrite pow2_shift by lia. lia.
Qed.

Lemma binary_round_spec sx mx ex B :
  -1074 <= ex -> Z.pos mx * pow2 ex < pow2 B ->
  let e1 := Z.max ex (Z.max (B - 53) (-1074)) in
  e1 <= 970 ->
  let r := binary_round prec emax sx mx ex in
  is_real r = true /\
  SFval r = cond_Zopp sx (SFmag r) /\
  Z.pos mx * pow2 ex - 4 * pow2 e1 <= SFmag r <= Z.pos mx * pow2 ex + pow2 e1.
Proof.
  intros Hex Hlt e1 He1 r. subst r. unfold binary_round.
  assert (Hf : -1074 <= fexp prec emax (Z.pos (digits2_pos mx) + ex))
    by (rewrite fexp_eq; lia).
  destruct (shl_align_spec mx ex _ Hex Hf) as [Hval Hez].
  destruct (shl_align mx ex (fexp prec emax (Z.pos (digits2_pos mx) + ex))) as [mz ez].
  cbn [fst snd] in Hval, Hez.
  assert (Hez0 : -1074 <= ez <= ex) by lia.
  assert (HB : -1074 <= B).
  { destruct (Z_lt_le_dec B (-1074)) as [Hn|]; [|assumption].
    unfold pow2 in Hlt at 2. rewrite Z.pow_neg_r in Hlt by lia.
    pose proof (pow2_pos ex Hex). lia. }
  assert (Hd : Zdigits2 (Z.pos mz) + ez <= Z.max B ez).
  { apply Zdigits2_bound; lia. }
  assert (Hle : ez + Z.max 0 (fexp prec emax (Zdigits2 (Z.pos mz) + ez) - ez) <= e1).
  { rewrite fexp_eq. subst e1. lia. }
  destruct (binary_round_aux_spec sx (Z.pos mz) ez loc_Exact) as (Hr & Hs & Hm);
    [lia | lia | lia |].
  split; [exact Hr|]. split; [exact Hs|].
  pose proof (pow2_le _ _ Hle) as Hp.
  pose proof (pow2_nonneg (ez + Z.max 0 (fexp prec emax (Zdigits2 (Z.pos mz) + ez) - ez))).
  rewrite Hval in Hm. lia.
Qed.

Lemma binary_normalize_spec m e B :
  -1074 <= e -> Z.abs m * pow2 e < pow2 B ->
  let e1 := Z.max e (Z.max (B - 53) (-1074)) in
  e1 <= 970 ->
  let r := binary_normalize prec emax m e false in
  is_real r = true /\
  m * pow2 e - 4 * pow2 e1 <= SFval r <= m * pow2 e + 4 * pow2 e1.
Proof.
  intros He Hlt e1 He1 r. subst r.
  pose proof (pow2_nonneg e1) as Hp.
  destruct m as [|m|m]; cbn [binary_normalize].
  - cbn. split; [reflexivity | lia].
  - destruct (binary_round_spec false m e B He Hlt He1) as (Hr & Hs & Hm).
    split; [exact Hr|]. rewrite Hs. cbn [cond_Zopp]. fold e1 in Hm. lia.
  - destruct (binary_round_spec true m e B He Hlt He1) as (Hr & Hs & Hm).
    split; [exact Hr|]. rewrite Hs. cbn [cond_Zopp]. fold e1 in Hm.
    rewrite <- Pos2Z.opp_pos. lia.
Qed.

(** ** Valid numbers *)

Lemma valid_exp_ok x : valid_binary x = true -> exp_ok x.
Proof.
  destruct x as [| | |s m e]; cbn; try exact (fun _ => I).
  unfold bounded, canonical_mantissa. intros H.
  apply andb_prop in H as [H _]. apply Z.eqb_eq in H.
  rewrite fexp_eq in H. lia.
Qed.

Lemma valid_exp_le s m e B :
  valid_binary (S754_finite s m e) = true ->
  Z.pos m * pow2 e < pow2 B -> -1074 <= B ->
  e <= Z.max (B - 53) (-1074).
Proof.
  cbn. unfold bounded, canonical_mantissa. intros H Hlt HB.
  apply andb_prop in H as [H _]. apply Z.eqb_eq in H.
  rewrite fexp_eq in H.
  assert (He : -1074 <= e) by lia.
  pose proof (Zdigits2_bound (Z.pos m) e B ltac:(lia) He Hlt HB) as Hd.
  cbn [Zdigits2] in Hd. lia.
Qed.

Lemma SFval_mag x : Z.abs (SFval x) = SFmag x.
Proof.
  destruct x as [| | |s m e]; cbn; try reflexivity.
  pose proof (pow2_nonneg e). destruct s; cbn [cond_Zopp]; lia.
Qed.

Lemma SFval_opp x : SFval (SFopp x) = - SFval x.
Proof. destruct x as [| | |[] m e]; cbn; lia. Qed.

Lemma is_real_opp x : is_real (SFopp x) = is_real x.
Proof. destruct x; reflexivity. Qed.

(** ** Addition *)

Lemma SFadd_spec x y B :
  is_real x = true -> is_real y = true ->
  valid_binary x = true -> valid_binary y = true ->
  -1021 <= B <= 1023 ->
  SFmag y < pow2 B ->
  Z.abs (SFval x + SFval y) < pow2 B ->
  is_real (SFadd prec emax x y) = true /\
  Z.abs (SFval (SFadd prec emax x y) - (SFval x + SFval y)) <= 4 * pow2 (B - 53).
Proof.
  intros Hx Hy Vx Vy HB Hy_lt Hsum.
  pose proof (pow2_nonneg (B - 53)) as Hp.
  destruct x as [sx| | |sx mx ex], y as [sy| | |sy my ey]; try discriminate.
  - split; [destruct sx, sy; reflexivity|].
    destruct sx, sy; cbn; lia.
  - split; [reflexivity|]. cbn [SFadd SFval]. lia.
  - split; [reflexivity|]. cbn [SFadd SFval]. lia.
  - cbn [SFadd].
    pose proof (valid_exp_ok _ Vx) as Ex. pose proof (valid_exp_ok _ Vy) as Ey.
    cbn in Ex, Ey.
    pose proof (valid_exp_le sy my ey B Vy Hy_lt ltac:(lia)) as Eyle.
    set (ez := Z.min ex ey).
    assert (Hez : -1074 <= ez) by (subst ez; lia).
    destruct (shl_align_spec mx ex ez Ex Hez) as [Hvx Hsx].
    destruct (shl_align_spec my ey ez Ey Hez) as [Hvy Hsy].
    replace (snd (shl_align mx ex ez)) with ez in Hvx by (subst ez; lia).
    replace (snd (shl_align my ey ez)) with ez in Hvy by (subst ez; lia).
    set (ax := fst (shl_align mx ex ez)) in *.
    set (ay := fst (shl_align my ey ez)) in *.
    set (m := cond_Zopp sx (Z.pos ax) + cond_Zopp sy (Z.pos ay)).
    assert (Hm : m * pow2 ez = SFval (S754_finite sx mx ex) + SFval (S754_finite sy my ey)).
    { subst m. cbn [SFval]. rewrite <- Hvx, <- Hvy.
      destruct sx, sy; cbn [cond_Zopp]; lia. }
    assert (Habs : Z.abs m * pow2 ez < pow2 B).
    { rewrite <- Hm in Hsum. pose proof (pow2_nonneg ez).
      rewrite Z.abs_mul in Hsum. rewrite (Z.abs_eq (pow2 ez)) in Hsum by lia. exact Hsum. }
    assert (He1 : Z.max ez (Z.max (B - 53) (-1074)) = B - 53) by (subst ez; lia).
    destruct (binary_normalize_spec m ez B Hez Habs) as [Hr Hv]; [lia|].
    rewrite He1 in Hv. rewrite Hm in Hv.
    split; [exact Hr|]. lia.
Qed.

(** ** Comparison *)

Lemma canonical_lt s1 m1 e1 s2 m2 e2 :
  valid_binary (S754_finite s1 m1 e1) = true ->
  valid_binary (S754_finite s2 m2 e2) = true ->
  e1 < e2 -> Z.pos m1 * pow2 e1 < Z.pos m2 * pow2 e2.
Proof.
  cbn. unfold bounded, canonical_mantissa. intros V1 V2 Hlt.
  apply andb_prop in V1 as [V1 _]. apply Z.eqb_eq in V1.
  apply andb_prop in V2 as [V2 _]. apply Z.eqb_eq in V2.
  rewrite fexp_eq in V1, V2.
  pose proof (digits2_pos_bounds m1) as [_ H1].
  pose proof (digits2_pos_bounds m2) as [H2 _].
  assert (Hd1 : Z.pos (digits2_pos m1) <= 53) by lia.
  assert (Hd2 : Z.pos (digits2_pos m2) = 53) by lia.
  rewrite Hd2 in H2. change (2 ^ (53 - 1)) with 4503599627370496 in H2.
  assert (H1' : Z.pos m1 < 9007199254740992).
  { change 9007199254740992 with (2 ^ 53).
    eapply Z.lt_le_trans; [exact H1|]. apply Z.pow_le_mono_r; lia. }
  assert (He1 : -1074 <= e1) by lia.
  pose proof (pow2_pos e1 He1) as Hp1.
  assert (Hp : 2 * pow2 e1 <= pow2 e2).
  { replace (2 * pow2 e1) with (pow2 (e1 + 1)) by (rewrite pow2_shift by lia; lia).
    apply pow2_le. lia. }
  nia.
Qed.

Lemma SFltb_of_val x y :
  is_real x = true -> is_real y = true ->
  valid_binary x = true -> valid_binary y = true ->
  SFval x < SFval y -> SFltb x y = true.
Proof.
  intros Hx Hy Vx Vy Hlt. unfold SFltb.
  destruct x as [sx| | |sx mx ex], y as [sy| | |sy my ey]; try discriminate.
  - cbn [SFval] in Hlt. pose proof (pow2_nonneg ey).
    destruct sy; cbn [cond_Zopp] in Hlt; [lia | reflexivity].
  - cbn [SFval] in Hlt. pose proof (pow2_nonneg ex).
    destruct sx; cbn [cond_Zopp] in Hlt; [reflexivity | lia].
  - cbn [SFval] in Hlt. cbn [SFcompare].
    pose proof (pow2_nonneg ex). pose proof (pow2_nonneg ey).
    pose proof (valid_exp_ok _ Vx) as Ex. pose proof (valid_exp_ok _ Vy) as Ey.
    cbn in Ex, Ey.
    pose proof (pow2_pos ex Ex). pose proof (pow2_pos ey Ey).
    destruct sx, sy; cbn [cond_Zopp] in Hlt; [| reflexivity | lia |].
    + destruct (Z.compare_spec ex ey) as [E|E|E].
      * subst ey. change (Pos.compare_cont Eq mx my) with (Pos.compare mx my).
        assert (Hm : (my < mx)%positive) by nia.
        apply Pos.compare_gt_iff in Hm. rewrite Hm. reflexivity.
      * pose proof (canonical_lt _ _ _ _ _ _ Vx Vy E). lia.
      * reflexivity.
    + destruct (Z.compare_spec ex ey) as [E|E|E].
      * subst ey. change (Pos.compare_cont Eq mx my) with (Pos.compare mx my).
        assert (Hm : (mx < my)%positive) by nia.
        apply Pos.compare_lt_iff in Hm. rewrite Hm. reflexivity.
      * reflexivity.
      * pose proof (canonical_lt _ _ _ _ _ _ Vy Vx E). lia.
Qed.

(** ** Conversion from an integer *)

Lemma of_uint63_bound n :
  0 <= n <= 2147483648 ->
  is_real (Prim2SF (of_uint63 (Uint63.of_Z n))) = true /\
  SFmag (Prim2SF (of_uint63 (Uint63.of_Z n))) < pow2 32.
Proof.
  intros Hn. rewrite of_uint63_spec, Uint63.of_Z_spec.
  rewrite Z.mod_small by (change wB with 9223372036854775808; lia).
  assert (Hp : pow2 32 = 4294967296 * pow2 0)
    by (change 32 with (0 + 32); rewrite pow2_shift by lia; reflexivity).
  pose proof (pow2_pos 0 ltac:(lia)) as Hp0.
  destruct (binary_normalize_spec n 0 32) as [Hr Hv]; [lia | | cbn; lia |].
  - rewrite Hp. rewrite Z.abs_eq by lia. nia.
  - split; [exact Hr|]. rewrite <- SFval_mag.
    change (Z.max 0 (Z.max (32 - 53) (-1074))) with 0 in Hv.
    assert (n * pow2 0 <= 2147483648 * pow2 0) by nia.
    assert (0 <= n * pow2 0) by nia. lia.
Qed.

(** ** Division by one million *)

Lemma SFdiv_million_bound x :
  is_real x = true -> valid_binary x = true -> SFmag x < pow2 32 ->
  let q := SFdiv prec emax x (S754_finite false 8589934592000000 (-33)) in
  is_real q = true /\ SFmag q < pow2 14.
Proof.
  intros Hx Vx Hlt q. subst q.
  pose proof (pow2_pos (-40) ltac:(lia)) as Hu.
  assert (P13 : pow2 13 = 2 ^ 53 * pow2 (-40))
    by (change 13 with (-40 + 53); rewrite pow2_shift by lia; reflexivity).
  assert (P14 : pow2 14 = 2 ^ 54 * pow2 (-40))
    by (change 14 with (-40 + 54); rewrite pow2_shift by lia; reflexivity).
  assert (P32 : pow2 32 = 2 ^ 72 * pow2 (-40))
    by (change 32 with (-40 + 72); rewrite pow2_shift by lia; reflexivity).
  destruct x as [sx| | |sx mx ex]; try discriminate.
  - cbn. split; [reflexivity|]. rewrite P14. lia.
  - cbn [SFdiv SFmag] in *.
    pose proof (valid_exp_ok _ Vx) as Ex. cbn in Ex.
    pose proof (valid_exp_le sx mx ex 32 Vx Hlt ltac:(lia)) as Exle.
    pose proof (Zdigits2_bound (Z.pos mx) ex 32 ltac:(lia) Ex Hlt ltac:(lia)) as Hd1.
    unfold SFdiv_core_binary.
    set (m2 := 8589934592000000%positive).
    change (Zdigits2 (Z.pos m2)) with 53.
    set (e' := Z.min (fexp prec emax (Zdigits2 (Z.pos mx) + ex - (53 + -33))) (ex - -33)).
    assert (He' : -1074 <= e' <= -41) by (subst e'; rewrite fexp_eq; lia).
    set (s := ex - -33 - e').
    assert (Hs : 0 <= s) by (subst s e'; lia).
    set (m' := match s with Z.pos _ => Z.shiftl (Z.pos mx) s | 0 => Z.pos mx | Z.neg _ => 0 end).
    assert (Hm' : m' = Z.pos mx * 2 ^ s).
    { subst m'. destruct s as [|p|p] eqn:Es; [cbn; lia | | lia].
      apply Z.shiftl_mul_pow2. lia. }
    pose proof (Z_div_mod m' (Z.pos m2) ltac:(lia)) as Hdiv.
    destruct (Z.div_eucl m' (Z.pos m2)) as [q r]. destruct Hdiv as [Hq Hr].
    assert (Hps : 0 < 2 ^ s) by (apply Z.pow_pos_nonneg; lia).
    assert (Hq0 : 0 <= q) by nia.
    pose proof (pow2_pos e' ltac:(lia)) as Hpe'.
    pose proof (pow2_pos ex Ex) as Hpex.
    assert (Hshift : 2 ^ s * pow2 e' = 2 ^ 33 * pow2 ex).
    { rewrite <- !pow2_shift by lia. f_equal. subst s. lia. }
    assert (HQ : q * pow2 e' < pow2 13).
    { assert (H1 : Z.pos m2 * (q * pow2 e') <= 2 ^ 33 * (Z.pos mx * pow2 ex)) by nia.
      rewrite P13. rewrite P32 in Hlt. subst m2.
      change (2 ^ 33) with 8589934592 in H1. change (2 ^ 72) with 4722366482869645213696 in Hlt.
      change (2 ^ 53) with 9007199254740992.
      remember (q * pow2 e') as Q. remember (Z.pos mx * pow2 ex) as X.
      lia. }
    pose proof (Zdigits2_bound q e' 13 Hq0 ltac:(lia) HQ ltac:(lia)) as Hdq.
    assert (He1 : e' + Z.max 0 (fexp prec emax (Zdigits2 q + e') - e') <= -40)
      by (rewrite fexp_eq; lia).
    destruct (binary_round_aux_spec (xorb sx false) q e' (new_location (Z.pos m2) r))
      as (Hreal & _ & Hmag); [lia | lia | lia |].
    split; [exact Hreal|].
    pose proof (pow2_le _ _ He1) as Hple.
    rewrite P14. rewrite P13 in HQ.
    change (2 ^ 53) with 9007199254740992 in HQ. change (2 ^ 54) with 18014398509481984.
    lia.
Qed.

(** ** The baseline of a sensor and its two bounds *)

Lemma double_of_int_bound n :
  int32 n ->
  is_real (Prim2SF (double_of_int n)) = true /\
  SFmag (Prim2SF (double_of_int n)) < pow2 32.
Proof.
  intros [Hlo Hhi]. unfold double_of_int.
  destruct (Z.ltb_spec n 0) as [Hn|Hn].
  - rewrite FloatAxioms.opp_spec, is_real_opp.
    destruct (of_uint63_bound (- n)) as [Hr Hm]; [lia|].
    split; [exact Hr|]. rewrite <- SFval_mag, SFval_opp, Z.abs_opp, SFval_mag. exact Hm.
  - apply of_uint63_bound. lia.
Qed.

Lemma sensor_value_to_double_bound v :
  int32 (val1 v) -> int32 (val2 v) ->
  is_real (Prim2SF (sensor_value_to_double v)) = true /\
  SFmag (Prim2SF (sensor_value_to_double v)) < pow2 34.
Proof.
  intros H1 H2. unfold sensor_value_to_double.
  destruct (double_of_int_bound _ H1) as [Ra Ma].
  destruct (double_of_int_bound _ H2) as [Rc Mc].
  set (a := double_of_int (val1 v)) in *. set (c := double_of_int (val2 v)) in *.
  assert (Hq : is_real (Prim2SF (c / 1000000)) = true /\ SFmag (Prim2SF (c / 1000000)) < pow2 14).
  { rewrite FloatAxioms.div_spec. change (Prim2SF 1000000) with (S754_finite false 8589934592000000 (-33)).
    apply SFdiv_million_bound; [exact Rc | apply Prim2SF_valid | exact Mc]. }
  destruct Hq as [Rq Mq]. set (q := (c / 1000000)%float) in *.
  pose proof (pow2_pos (-20) ltac:(lia)) as Hu.
  assert (P14 : pow2 14 = 2 ^ 34 * pow2 (-20))
    by (change 14 with (-20 + 34); rewrite pow2_shift by lia; reflexivity).
  assert (P32 : pow2 32 = 2 ^ 52 * pow2 (-20))
    by (change 32 with (-20 + 52); rewrite pow2_shift by lia; reflexivity).
  assert (P33 : pow2 33 = 2 ^ 53 * pow2 (-20))
    by (change 33 with (-20 + 53); rewrite pow2_shift by lia; reflexivity).
  assert (P34 : pow2 34 = 2 ^ 54 * pow2 (-20))
    by (change 34 with (-20 + 54); rewrite pow2_shift by lia; reflexivity).
  rewrite <- SFval_mag in Ma, Mq.
  rewrite FloatAxioms.add_spec.
  destruct (SFadd_spec (Prim2SF a) (Prim2SF q) 33 Ra Rq (Prim2SF_valid a) (Prim2SF_valid q))
    as [Rb Eb]; [lia | | |].
  - rewrite <- SFval_mag, P33. rewrite P14 in Mq.
    change (2 ^ 34) with 17179869184 in Mq. change (2 ^ 53) with 9007199254740992. lia.
  - rewrite P33. rewrite P14 in Mq. rewrite P32 in Ma.
    change (2 ^ 34) with 17179869184 in Mq. change (2 ^ 52) with 4503599627370496 in Ma.
    change (2 ^ 53) with 9007199254740992. lia.
  - split; [exact Rb|]. rewrite <- SFval_mag.
    change (33 - 53) with (-20) in Eb.
    rewrite P34. rewrite P14 in Mq. rewrite P32 in Ma.
    change (2 ^ 34) with 17179869184 in Mq. change (2 ^ 52) with 4503599627370496 in Ma.
    change (2 ^ 54) with 18014398509481984. unfold SF64add. lia.
Qed.

(** Whatever a sensor reports, the lower bound is strictly below the upper
    bound: the baseline is below [2^34] in magnitude, where a double still
    resolves far less than the distance of one degree between the sums. *)
Lemma strictly_ordered_int32 v :
  int32 (val1 v) -> int32 (val2 v) ->
  strictly_ordered (sensor_value_to_double v) = true.
Proof.
  intros H1 H2. destruct (sensor_value_to_double_bound v H1 H2) as [Rb Mb].
  unfold strictly_ordered. set (b := sensor_value_to_double v) in *.
  pose proof (pow2_pos (-53) ltac:(lia)) as Hu.
  assert (P34 : pow2 34 = 2 ^ 87 * pow2 (-53))
    by (change 34 with (-53 + 87); rewrite pow2_shift by lia; reflexivity).
  assert (P35 : pow2 35 = 2 ^ 88 * pow2 (-53))
    by (change 35 with (-53 + 88); rewrite pow2_shift by lia; reflexivity).
  assert (P18 : pow2 (35 - 53) = 2 ^ 35 * pow2 (-53))
    by (change (35 - 53) with (-53 + 35); rewrite pow2_shift by lia; reflexivity).
  assert (P52 : pow2 (-52) = 2 * pow2 (-53))
    by (change (-52) with (-53 + 1); rewrite pow2_shift by lia; reflexivity).
  assert (Vlo : SFval (Prim2SF 0.5) = 4503599627370496 * pow2 (-53)) by reflexivity.
  assert (Vhi : SFval (Prim2SF 1.5) = 6755399441055744 * pow2 (-52)) by reflexivity.
  rewrite P52 in Vhi.
  change (2 ^ 87) with 154742504910672534362390528 in P34.
  change (2 ^ 88) with 309485009821345068724781056 in P35.
  change (2 ^ 35) with 34359738368 in P18.
  rewrite <- SFval_mag in Mb.
  destruct (SFadd_spec (Prim2SF b) (Prim2SF 0.5) 35 Rb eq_refl (Prim2SF_valid b) (Prim2SF_valid _))
    as [Rlo Elo]; [lia | rewrite <- SFval_mag; lia | lia |].
  destruct (SFadd_spec (Prim2SF b) (Prim2SF 1.5) 35 Rb eq_refl (Prim2SF_valid b) (Prim2SF_valid _))
    as [Rhi Ehi]; [lia | rewrite <- SFval_mag; lia | lia |].
  rewrite FloatAxioms.ltb_spec. rewrite !FloatAxioms.add_spec.
  apply SFltb_of_val.
  - exact Rlo.
  - exact Rhi.
  - rewrite <- FloatAxioms.add_spec. apply Prim2SF_valid.
  - rewrite <- FloatAxioms.add_spec. apply Prim2SF_valid.
  - unfold SF64add. lia.
Qed.

(** C4 (as stated) fails: from a baseline of 0.4 degrees the two bounds,
    computed in double precision, are not exactly 1.0 apart. *)
Lemma exact_bounds_counterexample :
  ~ exact_bounds Bench.cold_04 0 Bench.junk (Demo.boot Bench.lab_board).
Proof.
  intros H. destruct H as [H _]; [vm_compute; reflexivity|].
  vm_compute in H. discriminate.
Qed.

(** The other offset fails likewise, from a baseline of 0.6 degrees. *)
Lemma lower_offset_inexact :
  let base := sensor_value_to_double (SensorValue 0 600000) in
  ((base + 0.5) - base =? 0.5)%float = false.
Proof. vm_compute. reflexivity. Qed.

(** C4 (amended). For a sensor whose baseline read succeeds, [low_temp] is
    the double-precision sum of the baseline and 0.5.  [high_temp] is the
    double-precision sum of the baseline and 1.5 once the lower bound has
    been converted; if that conversion fails it is left as it was.
    Whatever 32-bit integers the sample is made of, the first sum is
    strictly below the second, so that the lower bound is strictly below
    the upper one whenever both were assigned.  For every baseline between
    -300 and 1000 degrees that is a whole number of sixteenths of a degree
    the two differences are exactly 1.0 and 0.5. *)
Theorem calibrate_bounds (z : Drivers) (i : nat) (value : sensor_value)
    (s : machine Demo.globals) :
  read_code z (now s) i = 0 ->
  let v := read_value z (now s) i in
  let base := sensor_value_to_double v in
  let converted := fst (sensor_value_from_double z (base + 0.5)%float) in
  let g := mem (final (Demo.calibrate z i value s)) in
  Demo.low_temp g = (base + 0.5)%float /\
  (converted = 0 -> Demo.high_temp g = (base + 1.5)%float) /\
  (converted <> 0 -> Demo.high_temp g = Demo.high_temp (mem s)) /\
  (int32 (val1 v) -> int32 (val2 v) ->
   (base + 0.5 <? base + 1.5)%float = true /\
   (converted = 0 -> (Demo.low_temp g <? Demo.high_temp g)%float = true)) /\
  (on_grid 62500 v = true ->
   ((base + 1.5) - (base + 0.5) =? 1)%float = true /\
   ((base + 0.5) - base =? 0.5)%float = true).
Proof.
  intros Hread v base converted g.
  assert (Hrun := calibrate_run z i value s); cbv zeta in Hrun.
  rewrite read_temperature_code, Hread in Hrun; cbn [Z.eqb negb] in Hrun.
  rewrite (read_temperature_value z i value s Hread) in Hrun.
  fold v in Hrun. fold base in Hrun. fold converted in Hrun.
  assert (Hlow : Demo.low_temp g = (base + 0.5)%float).
  { subst g. rewrite Hrun.
    destruct (negb (converted =? 0)); [reflexivity|].
    destruct (negb (fst (sensor_value_from_double z (base + 1.5)%float) =? 0));
      reflexivity. }
  assert (Hhigh : converted = 0 -> Demo.high_temp g = (base + 1.5)%float).
  { intros Hconv. subst g. rewrite Hrun, Hconv; cbn [Z.eqb negb].
    destruct (negb (fst (sensor_value_from_double z (base + 1.5)%float) =? 0));
      reflexivity. }
  split; [exact Hlow|]. split; [exact Hhigh|]. split; [|split].
  - intros Hconv. subst g. rewrite Hrun.
    apply Z.eqb_neq in Hconv. rewrite Hconv; cbn [negb]. reflexivity.
  - intros H1 H2.
    pose proof (strictly_ordered_int32 v H1 H2) as Hlt.
    unfold strictly_ordered in Hlt. fold base in Hlt.
    split; [exact Hlt|]. intros Hconv. rewrite Hlow, (Hhigh Hconv). exact Hlt.
  - intros Hgrid.
    pose proof (grid_check_sound 62500 exact_offsets v eq_refl sixteenths_exact Hgrid)
      as H.
    unfold exact_offsets in H. fold base in H.
    apply andb_true_iff in H. exact H.
Qed.

(** ** Registration of the handler *)

(** C5 (as stated) fails: a sensor that refuses both threshold attributes
    still has the handler registered, and is reported armed. *)
Lemma gated_registration_counterexample :
  ~ gated_registration Bench.no_thresholds 0 Bench.junk (Demo.boot Bench.lab_board).
Proof.
  intros [H _].
  destruct H as [[t H]|[t H]].
  - apply list_elem_of_In. vm_compute. tauto.
  - apply list_elem_of_In in H. vm_compute in H. intuition discriminate.
  - apply list_elem_of_In in H. vm_compute in H. intuition discriminate.
Qed.

(** C5 (amended). For every sensor whose baseline is read and whose two
    bounds are converted, registration of the handler is attempted,
    whatever the two installations of the attributes returned; each
    installation is reported exactly when it returned 0, and the sensor is
    reported armed exactly when the registration returned 0.  Calibration
    stores nothing about it: the flags of the program are as before. *)
Theorem calibrate_registers_handler (z : Drivers) (i : nat) (value : sensor_value)
    (s : machine Demo.globals) :
  read_code z (now s) i = 0 ->
  let base := sensor_value_to_double (read_value z (now s) i) in
  let c1 := sensor_value_from_double z (base + 0.5)%float in
  let c2 := sensor_value_from_double z (base + 1.5)%float in
  fst c1 = 0 -> fst c2 = 0 ->
  let out := output (Demo.calibrate z i value s) in
  Call (TriggerSet i) ∈ out /\
  (Print EnabledTriggers ∈ out <-> sensor_trigger_set_result z i = 0) /\
  (Print (SetLowerLimit (base + 0.5)%float) ∈ out <->
   sensor_attr_set_result z i SENSOR_ATTR_LOWER_THRESH (snd c1) = 0) /\
  (Print (SetUpperLimit (base + 1.5)%float) ∈ out <->
   sensor_attr_set_result z i SENSOR_ATTR_UPPER_THRESH (snd c2) = 0) /\
  Demo.is_themometer (mem (final (Demo.calibrate z i value s)))
    = Demo.is_themometer (mem s) /\
  Demo.led_state (mem (final (Demo.calibrate z i value s)))
    = Demo.led_state (mem s).
Proof.
  intros Hread base c1 c2 H1 H2 out.
  assert (Hrun := calibrate_run z i value s); cbv zeta in Hrun.
  rewrite read_temperature_code, Hread in Hrun; cbn [Z.eqb negb] in Hrun.
  rewrite (read_temperature_value z i value s Hread) in Hrun.
  fold base in Hrun. fold c1 in Hrun. fold c2 in Hrun.
  rewrite H1, H2 in Hrun; cbn [Z.eqb negb] in Hrun.
  destruct (read_temperature_quiet z i value s) as [_ Hev].
  rewrite Forall_forall in Hev.
  assert (Hrd : forall r, Print r ∈ output (read_temperature z i value s) ->
                          (exists c, r = CouldNotFetch c) \/ (exists c, r = CouldNotGet c)).
  { intros r Hr. apply read_temperature_output in Hr
      as [Hr|[Hr|[[c Hr]|[c Hr]]]]; try discriminate; injection Hr as ->; eauto. }
  subst out. rewrite Hrun, output_triple.
  assert (Hwhen : forall (b : bool) (e x : event),
            e ∈ (if b then [x] else []) <-> b = true /\ e = x).
  { intros [] e x; [rewrite elem_of_cons, elem_of_nil | rewrite elem_of_nil];
      intuition discriminate. }
  split; [|split; [|split; [|split; [|split]]]]; try reflexivity.
  - rewrite !elem_of_app. right; right; right. apply list_elem_of_here.
  - rewrite !elem_of_app, !elem_of_cons, !Hwhen. split.
    + intros [H|[[H|[Hb H]]|[[H|[Hb H]]|[H|[Hb H]]]]]; try discriminate;
        try (apply Hrd in H as [[c H]|[c H]]; discriminate).
      apply Z.eqb_eq; exact Hb.
    + intros E. apply Z.eqb_eq in E. right; right; right; right.
      split; [exact E | reflexivity].
  - rewrite !elem_of_app, !elem_of_cons, !Hwhen. split.
    + intros [H|[[H|[Hb H]]|[[H|[Hb H]]|[H|[Hb H]]]]]; try discriminate;
        try (apply Hrd in H as [[c H]|[c H]]; discriminate).
      apply Z.eqb_eq; exact Hb.
    + intros E. apply Z.eqb_eq in E. right; left; right.
      split; [exact E | reflexivity].
  - rewrite !elem_of_app, !elem_of_cons, !Hwhen. split.
    + intros [H|[[H|[Hb H]]|[[H|[Hb H]]|[H|[Hb H]]]]]; try discriminate;
        try (apply Hrd in H as [[c H]|[c H]]; discriminate).
      apply Z.eqb_eq; exact Hb.
    + intros E. apply Z.eqb_eq in E. right; right; left; right.
      split; [exact E | reflexivity].
Qed.

(** ** One pair of bounds for all sensors *)

(** [low_temp] and [high_temp] are overwritten by the calibration of each
    sensor in turn: when start-up's sensor loop completes they are the
    bounds of the last sensor of the array. *)
Lemma init_sensors_bounds (z : Drivers) (nodes : list sensor_node) :
  forall (i : nat) (value : sensor_value) (s : machine Demo.globals),
    nodes <> [] ->
    fst (result (Demo.init_sensors z i nodes value s)) = None ->
    let base :=
      sensor_value_to_double (read_value z (now s) (i + length nodes - 1)) in
    let g := mem (final (Demo.init_sensors z i nodes value s)) in
    Demo.low_temp g = (base + 0.5)%float /\ Demo.high_temp g = (base + 1.5)%float.
Proof.
  induction nodes as [|node nodes IH]; intros i value s Hne Hnone; [congruence|].
  cbv zeta.
  pose proof (init_sensors_cons z i node nodes value s) as Hrun; cbv zeta in Hrun.
  rewrite Hrun in Hnone |- *; clear Hrun.
  set (s1 := if String.eqb (friendly_name node) "thermometer" then _ else s) in *.
  assert (Hnow1 : now s1 = now s) by (subst s1; destruct (String.eqb _ _); reflexivity).
  destruct (negb (device_ready z i)); [discriminate Hnone|].
  destruct (calibrate_spec z i value s1) as (_ & Hcnow & _ & _ & _ & Hc).
  cbv zeta in Hc.
  destruct (result (Demo.calibrate z i value s1)) as [code|v]; [discriminate Hnone|].
  destruct Hc as (_ & _ & Hlow & Hhigh).
  cbv zeta in Hnone |- *. rewrite result_triple in Hnone. rewrite final_triple.
  destruct nodes as [|node' nodes'].
  - cbn [Demo.init_sensors length]. unfold ret; run.
    replace (i + 1 - 1)%nat with i by lia.
    rewrite Hlow, Hhigh, Hnow1. split; reflexivity.
  - destruct (IH (S i) v (final (Demo.calibrate z i value s1))) as [IH1 IH2];
      [discriminate | exact Hnone |].
    rewrite IH1, IH2, Hcnow, Hnow1.
    replace (S i + length (node' :: nodes') - 1)%nat
      with (i + length (node :: node' :: nodes') - 1)%nat by (cbn [length]; lia).
    split; reflexivity.
Qed.

(** C2. On the twin bench the first thermometer is calibrated with the
    bounds 20.5 and 21.5 and the second with 30.5 and 31.5, which is what
    [low_temp] and [high_temp] hold from then on.  An alert of the first
    thermometer at 25.0 degrees, above its own upper bound, is reported by
    the handler as below the threshold. *)
Theorem handler_uses_last_calibrated_bounds :
  let boot := Demo.boot Bench.twin_board in
  let own := mem (final (Demo.calibrate Bench.twin 0 Bench.junk boot)) in
  let s := final (Demo.main Bench.twin Bench.twin_board 2 Bench.junk boot) in
  fst (result (Demo.startup Bench.twin Bench.twin_board Bench.junk boot)) = None /\
  (Demo.low_temp own, Demo.high_temp own) = (20.5, 21.5)%float /\
  (Demo.low_temp (mem s), Demo.high_temp (mem s)) = (30.5, 31.5)%float /\
  read_code Bench.twin (now s) 0 = 0 /\
  sensor_value_to_double (read_value Bench.twin (now s) 0) = 25%float /\
  last (output (Demo.temp_alert_handler Bench.twin 0 Bench.junk s))
    = Some (Print (BelowThreshold 25%float)) /\
  verdict 20.5%float 21.5%float 25%float = AboveThreshold 25%float.
Proof. vm_compute. repeat split; reflexivity. Qed.

(** ** Instances *)

Lemma temp_alert_handler_verdict_witness :
  let s := final (Demo.main Bench.lab Bench.lab_board 1 Bench.junk
                    (Demo.boot Bench.lab_board)) in
  let rd := read_temperature Bench.lab 0 Bench.junk s in
  ~ fst (result rd) < 0 /\
  output (Demo.temp_alert_handler Bench.lab 0 Bench.junk s)
    = output rd ++
      [Print (verdict (Demo.low_temp (mem s)) (Demo.high_temp (mem s))
                (sensor_value_to_double (snd (result rd))))].
Proof.
  intros s rd.
  assert (H : ~ fst (result rd) < 0) by (vm_compute; discriminate).
  split; [exact H|].
  exact (proj1 (proj1 temp_alert_handler_verdict Bench.lab 0%nat Bench.junk s H)).
Defined.


Lemma failed_toggle_desynchronises_witness :
  let s := final (Demo.startup Bench.stuck_led Bench.lab_board Bench.junk
                    (Demo.boot Bench.lab_board)) in
  let r := Demo.iteration Bench.stuck_led Bench.lab_board Bench.junk s in
  (led_names Bench.lab_board !! 0%nat = Some "led0"%string /\
   Demo.led_state (mem s) !! 0%nat = Some true /\
   gpio_pin_toggle Bench.stuck_led (now s) 0 < 0 /\
   pins s !! 0%nat = Some true) /\
  Demo.led_state (mem (final r)) !! 0%nat = Some false /\
  Print (LedState "led0" false) ∈ output r /\
  pins (final r) !! 0%nat <> Demo.led_state (mem (final r)) !! 0%nat.
Proof.
  intros s r.
  assert (H1 : led_names Bench.lab_board !! 0%nat = Some "led0"%string) by reflexivity.
  assert (H2 : Demo.led_state (mem s) !! 0%nat = Some true) by (vm_compute; reflexivity).
  assert (H3 : gpio_pin_toggle Bench.stuck_led (now s) 0 < 0) by (vm_compute; reflexivity).
  assert (H4 : pins s !! 0%nat = Some true) by (vm_compute; reflexivity).
  destruct (proj1 failed_toggle_desynchronises Bench.stuck_led Bench.lab_board
              Bench.junk s 0%nat "led0"%string true H1 H2) as (R1 & R2 & R3).
  destruct (R3 H3) as (_ & _ & R4).
  split; [repeat split; assumption|].
  split; [exact R1|]. split; [exact R2 | exact (R4 H4)].
Defined.



Lemma led_state_parity_witness :
  (1 < length (led_names Bench.lab_board))%nat /\
  fst (result (Demo.startup Bench.lab Bench.lab_board Bench.junk
                 (Demo.boot Bench.lab_board))) = None /\
  Demo.led_state
    (mem (final (Demo.main Bench.lab Bench.lab_board 3 Bench.junk
                   (Demo.boot Bench.lab_board)))) !! 1%nat
  = Some (Nat.even 3).
Proof.
  assert (H1 : (1 < length (led_names Bench.lab_board))%nat) by (cbn; lia).
  assert (H2 : fst (result (Demo.startup Bench.lab Bench.lab_board Bench.junk
                              (Demo.boot Bench.lab_board))) = None)
    by (vm_compute; reflexivity).
  split; [exact H1|]. split; [exact H2|].
  exact (proj2 (proj2 (led_state_parity Bench.lab Bench.lab_board 3 1 H1)
                  Bench.junk H2)).
Defined.

Lemma calibrate_bounds_witness :
  let s := Demo.boot Bench.lab_board in
  let v := read_value Bench.lab (now s) 0 in
  let base := sensor_value_to_double v in
  let g := mem (final (Demo.calibrate Bench.lab 0 Bench.junk s)) in
  let v' := read_value Bench.hot (now s) 0 in
  let base' := sensor_value_to_double v' in
  let g' := mem (final (Demo.calibrate Bench.hot 0 Bench.junk s)) in
  (read_code Bench.lab (now s) 0 = 0 /\
   fst (sensor_value_from_double Bench.lab (base + 0.5)%float) = 0 /\
   int32 (val1 v) /\ int32 (val2 v) /\ on_grid 62500 v = true /\
   read_code Bench.hot (now s) 0 = 0 /\
   fst (sensor_value_from_double Bench.hot (base' + 0.5)%float) <> 0 /\
   int32 (val1 v') /\ int32 (val2 v')) /\
  Demo.low_temp g = (base + 0.5)%float /\
  Demo.high_temp g = (base + 1.5)%float /\
  (Demo.low_temp g <? Demo.high_temp g)%float = true /\
  ((base + 1.5) - (base + 0.5) =? 1)%float = true /\
  ((base + 0.5) - base =? 0.5)%float = true /\
  Demo.low_temp g' = (base' + 0.5)%float /\
  Demo.high_temp g' = Demo.high_temp (mem s) /\
  (base' + 0.5 <? base' + 1.5)%float = true.
Proof.
  intros s v base g v' base' g'.
  assert (H1 : read_code Bench.lab (now s) 0 = 0) by reflexivity.
  assert (H2 : fst (sensor_value_from_double Bench.lab (base + 0.5)%float) = 0)
    by (vm_compute; reflexivity).
  assert (H3 : int32 (val1 v)) by (unfold int32; cbn; lia).
  assert (H4 : int32 (val2 v)) by (unfold int32; cbn; lia).
  assert (H5 : on_grid 62500 v = true) by (vm_compute; reflexivity).
  assert (H6 : read_code Bench.hot (now s) 0 = 0) by reflexivity.
  assert (H7 : fst (sensor_value_from_double Bench.hot (base' + 0.5)%float) <> 0)
    by (vm_compute; discriminate).
  assert (H8 : int32 (val1 v')) by (unfold int32; cbn; lia).
  assert (H9 : int32 (val2 v')) by (unfold int32; cbn; lia).
  destruct (calibrate_bounds Bench.lab 0 Bench.junk s H1) as (R1 & R2 & _ & R4 & R5).
  destruct (calibrate_bounds Bench.hot 0 Bench.junk s H6) as (Q1 & _ & Q3 & Q4 & _).
  destruct (R5 H5) as [R6 R7].
  split.
  { exact (conj H1 (conj H2 (conj H3 (conj H4 (conj H5
             (conj H6 (conj H7 (conj H8 H9)))))))). }
  split; [exact R1|]. split; [exact (R2 H2)|].
  split; [exact (proj2 (R4 H3 H4) H2)|].
  split; [exact R6|]. split; [exact R7|].
  split; [exact Q1|]. split; [exact (Q3 H7)|].
  exact (proj1 (Q4 H8 H9)).
Defined.

Lemma calibrate_registers_handler_witness :
  let s := Demo.boot Bench.lab_board in
  let base := sensor_value_to_double (read_value Bench.no_thresholds (now s) 0) in
  let out := output (Demo.calibrate Bench.no_thresholds 0 Bench.junk s) in
  (read_code Bench.no_thresholds (now s) 0 = 0 /\
   fst (sensor_value_from_double Bench.no_thresholds (base + 0.5)%float) = 0 /\
   fst (sensor_value_from_double Bench.no_thresholds (base + 1.5)%float) = 0) /\
  Call (TriggerSet 0) ∈ out /\
  (Print EnabledTriggers ∈ out <-> sensor_trigger_set_result Bench.no_thresholds 0 = 0).
Proof.
  intros s base out.
  assert (H1 : read_code Bench.no_thresholds (now s) 0 = 0) by reflexivity.
  assert (H2 : fst (sensor_value_from_double Bench.no_thresholds (base + 0.5)%float) = 0)
    by (vm_compute; reflexivity).
  assert (H3 : fst (sensor_value_from_double Bench.no_thresholds (base + 1.5)%float) = 0)
    by (vm_compute; reflexivity).
  destruct (calibrate_registers_handler Bench.no_thresholds 0 Bench.junk s H1 H2 H3)
    as (R1 & R2 & _).
  split; [repeat split; assumption|].
  split; [exact R1 | exact R2].
Defined.


(** * Further properties of the code *)

(** ** [read_temperature] *)

(** X1. [read_temperature] never changes the machine.  When the fetch
    fails (a negative code) it returns that code, does not call
    [sensor_channel_get] and leaves [*val] as it was; otherwise, a positive
    fetch code included, it returns what [sensor_channel_get] returned.
    Each of its two diagnostics is printed exactly for a negative code of
    the corresponding call. *)
Theorem read_temperature_protocol {G : Type} (z : Drivers) (dev : nat)
    (val : sensor_value) (s : machine G) :
  let rd := read_temperature z dev val s in
  let f := sensor_sample_fetch z (now s) dev in
  let g := sensor_channel_get_result z (now s) dev in
  final rd = s /\
  (Call (ChannelGet dev) ∈ output rd <-> ~ f < 0) /\
  (f < 0 -> result rd = (f, val)) /\
  (~ f < 0 -> result rd = g) /\
  (forall r, Print (CouldNotFetch r) ∈ output rd <-> r = f /\ f < 0) /\
  (forall r, Print (CouldNotGet r) ∈ output rd <-> ~ f < 0 /\ r = fst g /\ r < 0).
Proof.
  cbv zeta. split; [apply read_temperature_final|].
  unfold read_temperature, bind, sensor_sample_fetch_chan, sensor_channel_get,
    when, printf, ret, result, output; simpl.
  destruct (Z.ltb_spec (sensor_sample_fetch z (now s) dev) 0) as [Hf|Hf]; simpl.
  - rewrite !elem_of_cons, !elem_of_nil.
    split; [split; [intros [H|[H|[]]]; discriminate | lia]|].
    split; [reflexivity|]. split; [lia|]. split.
    + intros r. rewrite !elem_of_cons, !elem_of_nil. split.
      * intros [H|[H|[]]]; [discriminate|]. injection H as ->. split; [reflexivity|lia].
      * intros [-> _]. right; left; reflexivity.
    + intros r. rewrite !elem_of_cons, !elem_of_nil. split.
      * intros [H|[H|[]]]; discriminate.
      * lia.
  - destruct (sensor_channel_get_result z (now s) dev) as [r0 v0]; simpl.
    destruct (Z.ltb_spec r0 0) as [Hg|Hg]; simpl;
      rewrite !elem_of_cons, !elem_of_nil.
    + split; [split; [lia | intros _; right; left; reflexivity]|].
      split; [lia|]. split; [reflexivity|]. split.
      * intros r. rewrite !elem_of_cons, !elem_of_nil. split.
        -- intros [H|[H|[H|[]]]]; discriminate.
        -- lia.
      * intros r. rewrite !elem_of_cons, !elem_of_nil. split.
        -- intros [H|[H|[H|[]]]]; try discriminate. injection H as ->.
           repeat split; lia.
        -- intros (_ & -> & _). right; right; left; reflexivity.
    + split; [split; [lia | intros _; right; left; reflexivity]|].
      split; [lia|]. split; [reflexivity|]. split.
      * intros r. rewrite !elem_of_cons, !elem_of_nil. split.
        -- intros [H|[H|[]]]; discriminate.
        -- lia.
      * intros r. rewrite !elem_of_cons, !elem_of_nil. split.
        -- intros [H|[H|[]]]; discriminate.
        -- intros (_ & -> & H). lia.
Qed.

Lemma read_temperature_protocol_witness :
  let s := Machine (mem (Demo.boot Bench.twin_board)) [true] 1%nat in
  sensor_sample_fetch Bench.twin (now s) 0 < 0 /\
  result (read_temperature Bench.twin 0 (SensorValue 7 7) s)
    = (sensor_sample_fetch Bench.twin (now s) 0, SensorValue 7 7).
Proof.
  intros s.
  assert (H : sensor_sample_fetch Bench.twin (now s) 0 < 0) by reflexivity.
  split; [exact H|].
  exact (proj1 (proj2 (proj2 (read_temperature_protocol Bench.twin 0
                                (SensorValue 7 7) s))) H).
Defined.

(** ** What an iteration of the demo does, and what it leaves alone *)

Lemma filter_none {A} (f : A -> bool) (l : list A) :
  Forall (fun x => f x = false) l -> List.filter f l = [].
Proof.
  induction 1 as [|x l Hx _ IH]; [reflexivity|]. cbn. rewrite Hx. exact IH.
Qed.

Lemma poll_sensors_events (z : Drivers) (nodes : list sensor_node) :
  forall i value s,
    Forall (fun e => poll_event e = true) (output (Demo.poll_sensors z i nodes value s)).
Proof.
  induction nodes as [|node nodes IH]; intros i value s; [constructor|].
  rewrite poll_sensors_cons.
  assert (Hrd : forall v, Forall (fun e => poll_event e = true)
                            (output (read_temperature z i v s))).
  { intros v. apply Forall_forall. intros e He.
    apply read_temperature_output in He as [->|[->|[[r ->]|[r ->]]]]; reflexivity. }
  destruct (negb _); [apply IH|]. cbv zeta.
  destruct (negb _); rewrite output_triple.
  - apply Forall_app; split; [apply Hrd | repeat constructor].
  - apply Forall_app; split; [apply Hrd|]. constructor; [reflexivity | apply IH].
Qed.

Lemma toggle_leds_toggles (z : Drivers) (names : list string) :
  forall i s,
    List.filter is_toggle (output (Demo.toggle_leds z i names s))
    = List.map (fun k => Call (GpioToggle k)) (seq i (length names)).
Proof.
  induction names as [|name names IH]; intros i s; [reflexivity|].
  rewrite toggle_leds_cons; cbv zeta; rewrite output_triple.
  cbn [List.filter is_toggle length seq List.map]. f_equal.
  rewrite List.filter_app.
  replace (List.filter is_toggle
             (if gpio_pin_toggle z (now s) i <? 0
              then [Print (FailedToToggle name)] else [])) with (@nil event)
    by (destruct (_ <? 0); reflexivity).
  cbn [app List.filter is_toggle]. apply IH.
Qed.

(** X2. Whatever the drivers answer, an iteration of the demo's loop calls
    [gpio_pin_toggle_dt] exactly once for every LED, in the order of the
    array, and ends with its only [k_sleep], of 1000 ms. *)
Theorem iteration_toggles_then_sleeps (z : Drivers) (dt : Devicetree)
    (value : sensor_value) (s : machine Demo.globals) :
  let out := output (Demo.iteration z dt value s) in
  List.filter is_toggle out
    = List.map (fun k => Call (GpioToggle k)) (seq 0 (length (led_names dt))) /\
  List.filter is_sleep out = [Call (Sleep 1000)] /\
  last out = Some (Call (Sleep 1000)).
Proof.
  cbv zeta.
  pose proof (iteration_run z dt value s) as Hrun; cbv zeta in Hrun.
  rewrite Hrun, output_triple.
  pose proof (poll_sensors_events z (all_sensors dt) 0 value s) as Hp.
  pose proof (toggle_leds_events z (led_names dt) 0 s) as Ht.
  split; [|split].
  - rewrite !List.filter_app, toggle_leds_toggles.
    rewrite (filter_none is_toggle (output (Demo.poll_sensors _ _ _ _ _))).
    + cbn. apply app_nil_r.
    + eapply Forall_impl; [exact Hp|]. intros [[]|[]]; cbn; congruence.
  - rewrite !List.filter_app.
    rewrite (filter_none is_sleep (output (Demo.poll_sensors _ _ _ _ _))),
      (filter_none is_sleep (output (Demo.toggle_leds _ _ _ _))); [reflexivity| |].
    + eapply Forall_impl; [exact Ht|]. intros [[]|[]]; cbn; congruence.
    + eapply Forall_impl; [exact Hp|]. intros [[]|[]]; cbn; congruence.
  - rewrite app_assoc. apply last_snoc.
Qed.

(** X3. The monitor loop of the demo never writes the bounds nor the
    thermometer flags: after any number of iterations [low_temp],
    [high_temp] and [is_themometer] are what they were when the loop was
    entered, and [led_state] has kept its length. *)
Theorem monitor_loop_frame (z : Drivers) (dt : Devicetree) (n : nat) :
  forall (value : sensor_value) (s : machine Demo.globals),
    let g' := mem (final (Demo.monitor_loop z dt n value s)) in
    Demo.low_temp g' = Demo.low_temp (mem s) /\
    Demo.high_temp g' = Demo.high_temp (mem s) /\
    Demo.is_themometer g' = Demo.is_themometer (mem s) /\
    length (Demo.led_state g') = length (Demo.led_state (mem s)).
Proof.
  induction n as [|n IH]; intros value s; cbv zeta; [repeat split|].
  rewrite monitor_loop_step; cbv zeta; run.
  destruct (IH (result (Demo.iteration z dt value s))
              (final (Demo.iteration z dt value s))) as (H1 & H2 & H3 & H4).
  rewrite H1, H2, H3, H4.
  pose proof (iteration_run z dt value s) as Hrun; cbv zeta in Hrun.
  rewrite Hrun, final_triple; cbn [mem].
  destruct (toggle_leds_globals z (led_names dt) 0 s) as (G1 & G2 & G3).
  split; [exact G1|]. split; [exact G2|]. split; [exact G3|].
  clear. generalize 0%nat as i. revert s.
  induction (led_names dt) as [|name names IHn]; intros s i; [reflexivity|].
  rewrite toggle_leds_cons; cbv zeta; rewrite final_triple, IHn.
  cbn. apply length_insert.
Qed.

Lemma poll_sensors_all_ok (z : Drivers) (nodes : list sensor_node) :
  forall i value s,
    (forall k, (k < length nodes)%nat ->
               Demo.get_is_themometer (i + k) (mem s) = true ->
               read_code z (now s) (i + k) = 0) ->
    let out := output (Demo.poll_sensors z i nodes value s) in
    (forall k node, nodes !! k = Some node ->
       Demo.get_is_themometer (i + k) (mem s) = true ->
       Print (Reading (dev_name node)
                (sensor_value_to_double (read_value z (now s) (i + k)))) ∈ out) /\
    (forall r, Print (FailedToRead r) ∉ out).
Proof.
  induction nodes as [|node nodes IH]; intros i value s Hok; cbv zeta.
  - split; [intros k node Hk; discriminate|].
    intros r H; apply elem_of_nil in H; destruct H.
  - assert (Hrec : forall v,
      let out := output (Demo.poll_sensors z (S i) nodes v s) in
      (forall k node0, nodes !! k = Some node0 ->
         Demo.get_is_themometer (i + S k) (mem s) = true ->
         Print (Reading (dev_name node0)
                  (sensor_value_to_double (read_value z (now s) (i + S k)))) ∈ out) /\
      (forall r, Print (FailedToRead r) ∉ out)).
    { intros v. destruct (IH (S i) v s) as [H1 H2].
      - intros k Hk. replace (S i + k)%nat with (i + S k)%nat by lia.
        apply Hok; cbn [length]; lia.
      - split; [|exact H2]. intros k node0 Hk Hth.
        replace (i + S k)%nat with (S i + k)%nat by lia. apply H1; [exact Hk|].
        replace (S i + k)%nat with (i + S k)%nat by lia. exact Hth. }
    rewrite poll_sensors_cons.
    destruct (Demo.get_is_themometer i (mem s)) eqn:Hth0; cbn [negb].
    + assert (H0 : read_code z (now s) i = 0).
      { specialize (Hok 0%nat). rewrite Nat.add_0_r in Hok.
        apply Hok; [cbn [length]; lia | exact Hth0]. }
      cbv zeta. rewrite read_temperature_code, H0; cbn [Z.eqb negb].
      rewrite output_triple, (read_temperature_value z i value s H0).
      destruct (Hrec (read_value z (now s) i)) as [H1 H2]. split.
      * intros [|k] node0 Hk Hth.
        -- cbn in Hk. injection Hk as ->. rewrite Nat.add_0_r.
           apply elem_of_app; right. apply list_elem_of_here.
        -- apply elem_of_app; right. apply list_elem_of_further.
           apply (H1 k node0 Hk Hth).
      * intros r H. apply elem_of_app in H as [H|H].
        -- apply read_temperature_output in H
             as [H|[H|[[c H]|[c H]]]]; discriminate.
        -- apply elem_of_cons in H as [H|H]; [discriminate | exact (H2 r H)].
    + destruct (Hrec value) as [H1 H2]. split; [|exact H2].
      intros [|k] node0 Hk Hth.
      * rewrite Nat.add_0_r in Hth. congruence.
      * apply (H1 k node0 Hk Hth).
Qed.

(** X4. In an iteration of the demo's loop in which no read of a
    thermometer fails, the reading of every thermometer of the array is
    printed, under the name of its device, and no read failure is
    printed. *)
Theorem iteration_reports_every_thermometer (z : Drivers) (dt : Devicetree)
    (value : sensor_value) (s : machine Demo.globals) :
  (forall k, (k < length (all_sensors dt))%nat ->
             Demo.get_is_themometer k (mem s) = true ->
             read_code z (now s) k = 0) ->
  let out := output (Demo.iteration z dt value s) in
  (forall k node, all_sensors dt !! k = Some node ->
     Demo.get_is_themometer k (mem s) = true ->
     Print (Reading (dev_name node)
              (sensor_value_to_double (read_value z (now s) k))) ∈ out) /\
  (forall r, Print (FailedToRead r) ∉ out).
Proof.
  intros Hok out. subst out.
  pose proof (iteration_run z dt value s) as Hrun; cbv zeta in Hrun.
  rewrite Hrun, output_triple.
  destruct (poll_sensors_all_ok z (all_sensors dt) 0 value s Hok) as [H1 H2].
  split.
  - intros k node Hk Hth. apply elem_of_app; left. exact (H1 k node Hk Hth).
  - intros r H. apply elem_of_app in H as [H|H]; [exact (H2 r H)|].
    apply elem_of_app in H as [H|H].
    + pose proof (toggle_leds_events z (led_names dt) 0 s) as Hev.
      rewrite Forall_forall in Hev. specialize (Hev _ H). discriminate.
    + apply elem_of_cons in H as [H|H]; [discriminate|].
      apply elem_of_nil in H; destruct H.
Qed.

Lemma iteration_reports_every_thermometer_witness :
  let s := final (Demo.startup Bench.lab Bench.lab_board Bench.junk
                    (Demo.boot Bench.lab_board)) in
  (forall k, (k < length (all_sensors Bench.lab_board))%nat ->
             Demo.get_is_themometer k (mem s) = true ->
             read_code Bench.lab (now s) k = 0) /\
  Print (Reading "temp0" (sensor_value_to_double (read_value Bench.lab (now s) 0)))
    ∈ output (Demo.iteration Bench.lab Bench.lab_board Bench.junk s).
Proof.
  intros s.
  assert (H : forall k, (k < length (all_sensors Bench.lab_board))%nat ->
                        Demo.get_is_themometer k (mem s) = true ->
                        read_code Bench.lab (now s) k = 0)
    by (intros k _ _; reflexivity).
  split; [exact H|].
  apply (proj1 (iteration_reports_every_thermometer Bench.lab Bench.lab_board
                  Bench.junk s H) 0%nat (SensorNode "thermometer" "temp0")).
  - reflexivity.
  - vm_compute; reflexivity.
Defined.

(** ** Start-up of the demo, sensor by sensor *)

Section DemoStartupMore.
Variable z : Drivers.

Lemma init_leds_is_themometer names : forall i s,
  Demo.is_themometer (mem (final (Demo.init_leds z i names s)))
  = Demo.is_themometer (mem s).
Proof.
  induction names as [|name names IH]; intros i s; [reflexivity|].
  rewrite init_leds_cons.
  destruct (negb _); [reflexivity|]. destruct (_ <? 0); [reflexivity|].
  cbv zeta; run. rewrite IH. reflexivity.
Qed.

(** The sensor loop writes the flag of the sensors it visits only. *)
Lemma init_sensors_flags_below nodes : forall j value s i,
  (i < j)%nat ->
  Demo.is_themometer (mem (final (Demo.init_sensors z j nodes value s))) !! i
  = Demo.is_themometer (mem s) !! i.
Proof.
  induction nodes as [|node nodes IH]; intros j value s i Hij; [reflexivity|].
  pose proof (init_sensors_cons z j node nodes value s) as Hrun; cbv zeta in Hrun.
  rewrite Hrun; clear Hrun.
  set (s1 := if String.eqb (friendly_name node) "thermometer" then _ else s).
  assert (Hs1 : Demo.is_themometer (mem s1) !! i = Demo.is_themometer (mem s) !! i).
  { subst s1. destruct (String.eqb _ _); [|reflexivity].
    cbn. apply list_lookup_insert_ne; lia. }
  destruct (negb _); [rewrite final_triple; exact Hs1|].
  destruct (calibrate_spec z j value s1) as (_ & _ & _ & _ & Hth & _).
  destruct (result (Demo.calibrate z j value s1)) as [code|v]; run.
  - rewrite Hth. exact Hs1.
  - rewrite IH by lia. rewrite Hth. exact Hs1.
Qed.

Lemma init_sensors_flags nodes : forall i value s,
  (i + length nodes <= length (Demo.is_themometer (mem s)))%nat ->
  (forall k, (i <= k)%nat -> Demo.get_is_themometer k (mem s) = false) ->
  fst (result (Demo.init_sensors z i nodes value s)) = None ->
  forall k node, nodes !! k = Some node ->
    Demo.get_is_themometer (i + k)
      (mem (final (Demo.init_sensors z i nodes value s)))
    = String.eqb (friendly_name node) "thermometer".
Proof.
  induction nodes as [|node nodes IH]; intros i value s Hlen Hfalse Hnone k node0 Hk;
    [discriminate|].
  pose proof (init_sensors_cons z i node nodes value s) as Hrun; cbv zeta in Hrun.
  pose proof (init_sensors_flags_below nodes (S i)) as Hbelow.
  rewrite Hrun in Hnone |- *; clear Hrun.
  remember (String.eqb (friendly_name node) "thermometer") as th eqn:Eth.
  set (s1 := if th then _ else s) in *.
  destruct (negb (device_ready z i)); [discriminate Hnone|].
  destruct (calibrate_spec z i value s1) as (_ & _ & _ & _ & Hth & _).
  destruct (result (Demo.calibrate z i value s1)) as [code|v]; [discriminate Hnone|].
  cbv zeta in Hnone |- *. rewrite result_triple in Hnone. rewrite final_triple.
  assert (Hlen1 : length (Demo.is_themometer (mem s1))
                  = length (Demo.is_themometer (mem s))).
  { subst s1. destruct th; [cbn; apply length_insert | reflexivity]. }
  assert (Hat : default false (Demo.is_themometer (mem s1) !! i) = th).
  { subst s1. destruct th.
    - cbn. rewrite list_lookup_insert_eq by (cbn [length] in Hlen; lia). reflexivity.
    - exact (Hfalse i (Nat.le_refl i)). }
  assert (Habove : forall k', (S i <= k')%nat ->
            default false (Demo.is_themometer (mem s1) !! k') = false).
  { intros k' Hk'. subst s1. destruct th.
    - cbn. rewrite list_lookup_insert_ne by lia. apply Hfalse; lia.
    - apply Hfalse; lia. }
  destruct k as [|k]; cbn in Hk.
  - injection Hk as <-. rewrite Nat.add_0_r, <- Eth.
    unfold Demo.get_is_themometer. rewrite Hbelow by lia. rewrite Hth. exact Hat.
  - replace (i + S k)%nat with (S i + k)%nat by lia.
    apply IH; [| |exact Hnone|exact Hk].
    + rewrite Hth, Hlen1. cbn [length] in Hlen. lia.
    + intros k' Hk'. unfold Demo.get_is_themometer. rewrite Hth.
      apply Habove; exact Hk'.
Qed.

(** A calibration that completes has fetched the sensor, written its two
    attributes with the converted bounds and set the trigger. *)
Lemma calibrate_calls i value s v :
  result (Demo.calibrate z i value s) = inr v ->
  let base := sensor_value_to_double (read_value z (now s) i) in
  let out := output (Demo.calibrate z i value s) in
  Call (SampleFetch i) ∈ out /\
  Call (AttrSet i SENSOR_ATTR_LOWER_THRESH
          (snd (sensor_value_from_double z (base + 0.5)%float))) ∈ out /\
  Call (AttrSet i SENSOR_ATTR_UPPER_THRESH
          (snd (sensor_value_from_double z (base + 1.5)%float))) ∈ out /\
  Call (TriggerSet i) ∈ out.
Proof.
  intros Hres. cbv zeta.
  destruct (calibrate_spec z i value s) as (_ & _ & _ & _ & _ & Hc).
  cbv zeta in Hc. rewrite Hres in Hc. destruct Hc as (_ & Hread & _).
  assert (Hrun := calibrate_run z i value s); cbv zeta in Hrun.
  rewrite read_temperature_code, Hread in Hrun; cbn [Z.eqb negb] in Hrun.
  rewrite (read_temperature_value z i value s Hread) in Hrun.
  rewrite Hrun in Hres |- *.
  destruct (negb (fst (sensor_value_from_double z _) =? 0));
    [rewrite result_triple in Hres; discriminate|].
  destruct (negb (fst (sensor_value_from_double z _) =? 0));
    [rewrite result_triple in Hres; discriminate|].
  rewrite output_triple, !elem_of_app.
  split; [left; apply read_temperature_fetched|].
  split; [right; left; apply list_elem_of_here|].
  split; [right; right; left; apply list_elem_of_here|].
  right; right; right; apply list_elem_of_here.
Qed.

Lemma init_sensors_calls nodes : forall i value s,
  fst (result (Demo.init_sensors z i nodes value s)) = None ->
  forall k, (k < length nodes)%nat ->
    let base := sensor_value_to_double (read_value z (now s) (i + k)) in
    let out := output (Demo.init_sensors z i nodes value s) in
    Call (SampleFetch (i + k)) ∈ out /\
    Call (AttrSet (i + k) SENSOR_ATTR_LOWER_THRESH
            (snd (sensor_value_from_double z (base + 0.5)%float))) ∈ out /\
    Call (AttrSet (i + k) SENSOR_ATTR_UPPER_THRESH
            (snd (sensor_value_from_double z (base + 1.5)%float))) ∈ out /\
    Call (TriggerSet (i + k)) ∈ out.
Proof.
  induction nodes as [|node nodes IH]; intros i value s Hnone k Hk;
    [cbn in Hk; lia|].
  cbv zeta.
  pose proof (init_sensors_cons z i node nodes value s) as Hrun; cbv zeta in Hrun.
  rewrite Hrun in Hnone |- *; clear Hrun.
  set (s1 := if String.eqb (friendly_name node) "thermometer" then _ else s) in *.
  assert (Hnow1 : now s1 = now s) by (subst s1; destruct (String.eqb _ _); reflexivity).
  destruct (negb (device_ready z i)); [discriminate Hnone|].
  destruct (calibrate_spec z i value s1) as (_ & Hcnow & _).
  pose proof (calibrate_calls i value s1) as Hcalls.
  destruct (result (Demo.calibrate z i value s1)) as [code|v]; [discriminate Hnone|].
  specialize (Hcalls v eq_refl). cbv zeta in Hcalls. rewrite Hnow1 in Hcalls.
  cbv zeta in Hnone |- *. rewrite result_triple in Hnone. rewrite output_triple.
  destruct k as [|k].
  - rewrite Nat.add_0_r. destruct Hcalls as (C1 & C2 & C3 & C4).
    repeat split; apply elem_of_app; right; apply elem_of_app; left; assumption.
  - specialize (IH (S i) v _ Hnone k). cbv zeta in IH.
    rewrite Hcnow, Hnow1 in IH.
    replace (S i + k)%nat with (i + S k)%nat in IH by lia.
    destruct IH as (C1 & C2 & C3 & C4); [cbn [length] in Hk; lia|].
    repeat split; apply elem_of_app; right; apply elem_of_app; right; assumption.
Qed.

Lemma monitor_loop_is_themometer (dt : Devicetree) n : forall value s,
  Demo.is_themometer (mem (final (Demo.monitor_loop z dt n value s)))
  = Demo.is_themometer (mem s).
Proof.
  induction n as [|n IH]; intros value s; [reflexivity|].
  rewrite monitor_loop_step; cbv zeta; run. rewrite IH.
  pose proof (iteration_run z dt value s) as Hrun; cbv zeta in Hrun.
  rewrite Hrun, final_triple; cbn [mem].
  apply (toggle_leds_globals z (led_names dt) 0 s).
Qed.
End DemoStartupMore.

(** X5. In a run of the demo that reaches its loop, the flag of every
    sensor is set exactly when its [friendly_name] is "thermometer", and
    from then on the loop only ever fetches from such sensors: a sensor
    node of another name is calibrated at start-up but never polled. *)
Theorem only_thermometers_are_polled (z : Drivers) (dt : Devicetree)
    (value : sensor_value) :
  fst (result (Demo.startup z dt value (Demo.boot dt))) = None ->
  (forall k node, all_sensors dt !! k = Some node ->
     Demo.get_is_themometer k
       (mem (final (Demo.startup z dt value (Demo.boot dt))))
     = String.eqb (friendly_name node) "thermometer") /\
  (forall n v j,
     Call (SampleFetch j)
       ∈ output (Demo.iteration z dt v
                   (final (Demo.main z dt n value (Demo.boot dt)))) ->
     exists node, all_sensors dt !! j = Some node /\
                  friendly_name node = "thermometer"%string).
Proof.
  intros Hnone.
  assert (Hflags : forall k node, all_sensors dt !! k = Some node ->
    Demo.get_is_themometer k (mem (final (Demo.startup z dt value (Demo.boot dt))))
    = String.eqb (friendly_name node) "thermometer").
  { pose proof (startup_run z dt value (Demo.boot dt)) as Hrun; cbv zeta in Hrun.
    rewrite Hrun in Hnone |- *; clear Hrun.
    pose proof (init_leds_is_themometer z (led_names dt) 0 (Demo.boot dt)) as Hth.
    destruct (result (Demo.init_leds z 0 (led_names dt) (Demo.boot dt)));
      [discriminate Hnone|].
    rewrite final_triple. intros k node Hk.
    apply (init_sensors_flags z (all_sensors dt) 0 value); [| |exact Hnone|exact Hk].
    - rewrite Hth. cbn. rewrite length_replicate. lia.
    - intros k' _. unfold Demo.get_is_themometer. rewrite Hth. cbn.
      destruct (replicate (length (all_sensors dt)) false !! k') as [b|] eqn:E;
        [|reflexivity].
      apply lookup_replicate in E as [-> _]. reflexivity. }
  split; [exact Hflags|].
  intros n v j Hin.
  pose proof (main_run z dt n value (Demo.boot dt)) as Hmain; cbv zeta in Hmain.
  rewrite Hmain, Hnone in Hin; clear Hmain. rewrite final_triple in Hin.
  pose proof (iteration_run z dt v
    (final (Demo.monitor_loop z dt n
              (snd (result (Demo.startup z dt value (Demo.boot dt))))
              (final (Demo.startup z dt value (Demo.boot dt)))))) as Hrun.
  cbv zeta in Hrun. rewrite Hrun, output_triple in Hin; clear Hrun.
  apply elem_of_app in Hin as [Hin|Hin].
  - apply poll_sensors_fetch in Hin as [Hrange Hflag].
    unfold in_range in Hrange. apply andb_true_iff in Hrange as [_ Hlt].
    apply Nat.ltb_lt in Hlt. cbn in Hlt.
    destruct (lookup_lt_is_Some_2 (all_sensors dt) j Hlt) as [node Hnode].
    exists node. split; [exact Hnode|].
    apply String.eqb_eq. rewrite <- (Hflags j node Hnode).
    unfold Demo.get_is_themometer in *.
    rewrite monitor_loop_is_themometer in Hflag. exact Hflag.
  - apply elem_of_app in Hin as [Hin|Hin].
    + pose proof (toggle_leds_events z (led_names dt) 0
        (final (Demo.monitor_loop z dt n
                  (snd (result (Demo.startup z dt value (Demo.boot dt))))
                  (final (Demo.startup z dt value (Demo.boot dt)))))) as Hev.
      rewrite Forall_forall in Hev. specialize (Hev _ Hin). discriminate.
    + apply elem_of_cons in Hin as [Hin|Hin]; [discriminate|].
      apply elem_of_nil in Hin; destruct Hin.
Qed.

Lemma only_thermometers_are_polled_witness :
  fst (result (Demo.startup Bench.lab Bench.lab_board Bench.junk
                 (Demo.boot Bench.lab_board))) = None /\
  Demo.get_is_themometer 0
    (mem (final (Demo.startup Bench.lab Bench.lab_board Bench.junk
                   (Demo.boot Bench.lab_board))))
  = String.eqb (friendly_name (SensorNode "thermometer" "temp0")) "thermometer".
Proof.
  assert (H : fst (result (Demo.startup Bench.lab Bench.lab_board Bench.junk
                             (Demo.boot Bench.lab_board))) = None)
    by (vm_compute; reflexivity).
  split; [exact H|].
  exact (proj1 (only_thermometers_are_polled Bench.lab Bench.lab_board Bench.junk H)
           0%nat (SensorNode "thermometer" "temp0") eq_refl).
Defined.

(** X6. In a run of the demo that reaches its loop, start-up has treated
    every sensor node, thermometer or not, alike: it has fetched its
    baseline, written to that very sensor the lower and the upper
    threshold attribute converted from its own baseline plus 0.5 and plus
    1.5, and set its trigger. *)
Theorem startup_calibrates_every_sensor (z : Drivers) (dt : Devicetree)
    (value : sensor_value) (k : nat) :
  fst (result (Demo.startup z dt value (Demo.boot dt))) = None ->
  (k < length (all_sensors dt))%nat ->
  let base := sensor_value_to_double (read_value z 0 k) in
  let out := output (Demo.startup z dt value (Demo.boot dt)) in
  Call (SampleFetch k) ∈ out /\
  Call (AttrSet k SENSOR_ATTR_LOWER_THRESH
          (snd (sensor_value_from_double z (base + 0.5)%float))) ∈ out /\
  Call (AttrSet k SENSOR_ATTR_UPPER_THRESH
          (snd (sensor_value_from_double z (base + 1.5)%float))) ∈ out /\
  Call (TriggerSet k) ∈ out.
Proof.
  intros Hnone Hk. cbv zeta.
  pose proof (startup_run z dt value (Demo.boot dt)) as Hrun; cbv zeta in Hrun.
  rewrite Hrun in Hnone |- *; clear Hrun.
  destruct (init_leds_spec z (led_names dt) 0 (Demo.boot dt))
    as (_ & _ & _ & Hnow & _).
  destruct (result (Demo.init_leds z 0 (led_names dt) (Demo.boot dt)));
    [discriminate Hnone|].
  rewrite output_triple.
  pose proof (init_sensors_calls z (all_sensors dt) 0 value _ Hnone k Hk) as Hcalls.
  cbv zeta in Hcalls. rewrite Hnow in Hcalls. cbn [now Demo.boot] in Hcalls.
  destruct Hcalls as (C1 & C2 & C3 & C4).
  repeat split; apply elem_of_app; right; apply elem_of_app; right; assumption.
Qed.

Lemma startup_calibrates_every_sensor_witness :
  let out := output (Demo.startup Bench.twin Bench.twin_board Bench.junk
                       (Demo.boot Bench.twin_board)) in
  (fst (result (Demo.startup Bench.twin Bench.twin_board Bench.junk
                  (Demo.boot Bench.twin_board))) = None /\
   (1 < length (all_sensors Bench.twin_board))%nat) /\
  Call (AttrSet 1 SENSOR_ATTR_LOWER_THRESH
          (snd (sensor_value_from_double Bench.twin
                  (sensor_value_to_double (read_value Bench.twin 0 1) + 0.5)%float)))
    ∈ out.
Proof.
  intros out.
  assert (H1 : fst (result (Demo.startup Bench.twin Bench.twin_board Bench.junk
                              (Demo.boot Bench.twin_board))) = None)
    by (vm_compute; reflexivity).
  assert (H2 : (1 < length (all_sensors Bench.twin_board))%nat) by (cbn; lia).
  split; [split; assumption|].
  exact (proj1 (proj2 (startup_calibrates_every_sensor Bench.twin Bench.twin_board
                         Bench.junk 1 H1 H2))).
Defined.


(** ** LEDs and their outputs in the demo *)

Section DemoOutputs.
Variable z : Drivers.

Lemma insert_true_lookup (l : list bool) (i k : nat) :
  <[i := true]> l !! k
  = if Nat.eqb i k then (fun _ => true) <$> l !! k else l !! k.
Proof.
  destruct (Nat.eqb_spec i k) as [->|Hne].
  - destruct (l !! k) as [b|] eqn:E; simpl.
    + apply list_lookup_insert_eq. apply lookup_lt_is_Some; eauto.
    + apply lookup_ge_None. rewrite length_insert.
      apply lookup_ge_None; exact E.
  - apply list_lookup_insert_ne; exact Hne.
Qed.

(** Start-up's LED loop, when it completes, has driven every output of the
    array to its active level. *)
Lemma init_leds_pins names : forall i s k,
  result (Demo.init_leds z i names s) = None ->
  pins (final (Demo.init_leds z i names s)) !! k
  = if in_range i (length names) k then (fun _ => true) <$> pins s !! k
    else pins s !! k.
Proof.
  induction names as [|name names IH]; intros i s k Hnone.
  - unfold in_range; simpl.
    destruct (i <=? k)%nat eqn:E1, (k <? i + 0)%nat eqn:E2; try reflexivity.
    apply Nat.leb_le in E1; apply Nat.ltb_lt in E2; lia.
  - rewrite init_leds_cons in Hnone |- *.
    destruct (negb _); [discriminate Hnone|].
    destruct (_ <? 0); [discriminate Hnone|].
    cbv zeta in Hnone |- *. rewrite result_triple in Hnone.
    rewrite final_triple, IH by exact Hnone.
    cbn [pins length]. rewrite insert_true_lookup. unfold in_range.
    destruct (Nat.eqb_spec i k) as [->|Hne].
    + replace (S k <=? k)%nat with false by (symmetry; apply Nat.leb_gt; lia).
      replace (k <=? k)%nat with true by (symmetry; apply Nat.leb_le; lia).
      replace (k <? k + S (length names))%nat with true
        by (symmetry; apply Nat.ltb_lt; lia).
      reflexivity.
    + replace (S i <=? k)%nat with (i <=? k)%nat.
      2:{ destruct (Nat.leb_spec i k), (Nat.leb_spec (S i) k); try reflexivity; lia. }
      replace (S i + length names)%nat with (i + S (length names))%nat by lia.
      reflexivity.
Qed.

(** The LED loop configures the LEDs in order, and a LED only after all
    the LEDs before it were found ready; it touches no sensor. *)
Lemma init_leds_order names : forall i s,
  Forall (fun e => led_init_event e = true) (output (Demo.init_leds z i names s)) /\
  (forall j, Call (GpioConfigure j) ∈ output (Demo.init_leds z i names s) ->
             forall j', (i <= j')%nat -> (j' <= j)%nat -> gpio_is_ready z j' = true).
Proof.
  induction names as [|name names IH]; intros i s.
  - split; [constructor|]. intros j H; apply elem_of_nil in H; destruct H.
  - rewrite init_leds_cons.
    destruct (gpio_is_ready z i) eqn:Hready; cbn [negb].
    2:{ rewrite output_triple. split; [repeat constructor|].
        intros j H. apply elem_of_cons in H as [H|H]; [discriminate|].
        apply elem_of_nil in H; destruct H. }
    destruct (gpio_pin_configure z i <? 0).
    { rewrite output_triple. split; [repeat constructor|].
      intros j H j' H1 H2. apply elem_of_cons in H as [H|H].
      - injection H as ->. replace j' with i by lia. exact Hready.
      - apply elem_of_cons in H as [H|H]; [discriminate|].
        apply elem_of_nil in H; destruct H. }
    cbv zeta. rewrite output_triple.
    match goal with |- context [Demo.init_leds z (S i) names ?s1] =>
      destruct (IH (S i) s1) as [IH1 IH2]
    end.
    split; [constructor; [reflexivity | exact IH1]|].
    intros j H j' H1 H2. apply elem_of_cons in H as [H|H].
    + injection H as ->. replace j' with i by lia. exact Hready.
    + destruct (decide (j' = i)) as [->|Hne]; [exact Hready|].
      apply (IH2 j H); lia.
Qed.

Lemma monitor_loop_sync (dt : Devicetree) n : forall value s k,
  (k < length (led_names dt))%nat ->
  (forall t, (now s <= t < now s + n)%nat -> ~ gpio_pin_toggle z t k < 0) ->
  pins s !! k = Demo.led_state (mem s) !! k ->
  pins (final (Demo.monitor_loop z dt n value s)) !! k
  = Demo.led_state (mem (final (Demo.monitor_loop z dt n value s))) !! k.
Proof.
  induction n as [|n IH]; intros value s k Hk Hok Hsync; [exact Hsync|].
  rewrite monitor_loop_step; cbv zeta; run.
  pose proof (iteration_run z dt value s) as Hrun; cbv zeta in Hrun.
  apply IH; [exact Hk| |].
  - intros t Ht. apply Hok. rewrite Hrun, final_triple in Ht; cbn [now] in Ht. lia.
  - rewrite iteration_led_state by exact Hk.
    rewrite Hrun, final_triple; cbn [pins].
    rewrite toggle_leds_pins. unfold in_range.
    replace (0 <=? k)%nat with true by (symmetry; apply Nat.leb_le; lia).
    replace (k <? 0 + length (led_names dt))%nat with true
      by (symmetry; apply Nat.ltb_lt; lia).
    destruct (Z.ltb_spec (gpio_pin_toggle z (now s) k) 0) as [Hneg|_].
    + exfalso. apply (Hok (now s)); [lia | exact Hneg].
    + cbn [andb negb]. rewrite Hsync. reflexivity.
Qed.
End DemoOutputs.

(** X7. In a run of the demo that reaches its loop, as long as no toggle
    of a LED has failed, the stored flag of that LED is the level of its
    output: both are [true] after start-up and after an even number of
    iterations, [false] after an odd one. *)
Theorem flags_track_outputs (z : Drivers) (dt : Devicetree)
    (value : sensor_value) (n k : nat) :
  fst (result (Demo.startup z dt value (Demo.boot dt))) = None ->
  (k < length (led_names dt))%nat ->
  (forall t, (t < n)%nat -> ~ gpio_pin_toggle z t k < 0) ->
  let s := final (Demo.main z dt n value (Demo.boot dt)) in
  pins s !! k = Some (Nat.even n) /\
  Demo.led_state (mem s) !! k = Some (Nat.even n).
Proof.
  intros Hnone Hk Hok s.
  destruct (startup_spec z dt value (Demo.boot dt)) as (_ & _ & Hnow & Hst).
  destruct (Hst Hnone) as (_ & _ & Hled).
  assert (Hled0 : Demo.led_state
                    (mem (final (Demo.startup z dt value (Demo.boot dt)))) !! k
                  = Some true).
  { apply Hled; [exact Hk|]. cbn. rewrite length_replicate. exact Hk. }
  assert (Hpins0 : pins (final (Demo.startup z dt value (Demo.boot dt))) !! k
                   = Some true).
  { pose proof (startup_run z dt value (Demo.boot dt)) as Hrun; cbv zeta in Hrun.
    rewrite Hrun in Hnone |- *; clear Hrun.
    pose proof (init_leds_pins z (led_names dt) 0 (Demo.boot dt) k) as Hp.
    destruct (result (Demo.init_leds z 0 (led_names dt) (Demo.boot dt)));
      [discriminate Hnone|].
    rewrite final_triple.
    destruct (init_sensors_spec z (all_sensors dt) 0 value
                (final (Demo.init_leds z 0 (led_names dt) (Demo.boot dt))))
      as (_ & _ & _ & Hsp & _).
    rewrite Hsp, (Hp eq_refl). unfold in_range.
    replace (0 <=? k)%nat with true by (symmetry; apply Nat.leb_le; lia).
    replace (k <? 0 + length (led_names dt))%nat with true
      by (symmetry; apply Nat.ltb_lt; lia).
    cbn. rewrite lookup_replicate_2 by exact Hk. reflexivity. }
  assert (Hflag : Demo.led_state (mem s) !! k = Some (Nat.even n)).
  { subst s.
    pose proof (main_run z dt n value (Demo.boot dt)) as Hrun; cbv zeta in Hrun.
    rewrite Hrun, Hnone, final_triple.
    rewrite monitor_loop_led_state by exact Hk. rewrite Hled0.
    destruct (Nat.even n); reflexivity. }
  split; [|exact Hflag]. rewrite <- Hflag. subst s.
  pose proof (main_run z dt n value (Demo.boot dt)) as Hrun; cbv zeta in Hrun.
  rewrite Hrun, Hnone, final_triple.
  apply monitor_loop_sync; [exact Hk| |congruence].
  intros t Ht. apply Hok. rewrite Hnow in Ht. cbn [now Demo.boot] in Ht. lia.
Qed.

Lemma flags_track_outputs_witness :
  (fst (result (Demo.startup Bench.lab Bench.lab_board Bench.junk
                  (Demo.boot Bench.lab_board))) = None /\
   (1 < length (led_names Bench.lab_board))%nat /\
   (forall t, (t < 3)%nat -> ~ gpio_pin_toggle Bench.lab t 1 < 0)) /\
  pins (final (Demo.main Bench.lab Bench.lab_board 3 Bench.junk
                 (Demo.boot Bench.lab_board))) !! 1%nat
  = Some (Nat.even 3).
Proof.
  assert (H1 : fst (result (Demo.startup Bench.lab Bench.lab_board Bench.junk
                              (Demo.boot Bench.lab_board))) = None)
    by (vm_compute; reflexivity).
  assert (H2 : (1 < length (led_names Bench.lab_board))%nat) by (cbn; lia).
  assert (H3 : forall t, (t < 3)%nat -> ~ gpio_pin_toggle Bench.lab t 1 < 0)
    by (intros t _ H; vm_compute in H; discriminate H).
  split; [repeat split; assumption|].
  exact (proj1 (flags_track_outputs Bench.lab Bench.lab_board Bench.junk 3 1
                  H1 H2 H3)).
Defined.

(** X8. Start-up of the demo validates the LEDs before it touches any
    sensor: if some LED is not ready, [main] returns 0 without a single
    sensor call, and it has configured a LED only if that LED and all the
    LEDs before it were ready. *)
Theorem leds_validated_before_sensors (z : Drivers) (dt : Devicetree)
    (value : sensor_value) (s : machine Demo.globals) :
  (exists k, (k < length (led_names dt))%nat /\ gpio_is_ready z k = false) ->
  let r := Demo.startup z dt value s in
  fst (result r) = Some 0 /\
  Forall (fun e => is_sensor_call e = false) (output r) /\
  (forall j, Call (GpioConfigure j) ∈ output r ->
             forall j', (j' <= j)%nat -> gpio_is_ready z j' = true).
Proof.
  intros (k & Hk & Hnot) r. subst r.
  pose proof (startup_run z dt value s) as Hrun; cbv zeta in Hrun. rewrite Hrun.
  destruct (init_leds_spec z (led_names dt) 0 s)
    as (_ & _ & Hzero & _ & _ & _ & _ & _ & Hnone).
  destruct (init_leds_order z (led_names dt) 0 s) as [Hev Hord].
  destruct (result (Demo.init_leds z 0 (led_names dt) s)) as [code|].
  - rewrite (Hzero code eq_refl), result_triple, output_triple.
    split; [reflexivity|]. split.
    + repeat (constructor; [reflexivity|]).
      eapply Forall_impl; [exact Hev|]. intros [[]|[]]; cbn; congruence.
    + intros j H j' Hj'.
      apply elem_of_cons in H as [H|H]; [discriminate|].
      apply elem_of_cons in H as [H|H]; [discriminate|].
      apply elem_of_cons in H as [H|H]; [discriminate|].
      apply (Hord j H); [lia | exact Hj'].
  - exfalso. destruct (Hnone eq_refl) as (_ & Hready & _).
    specialize (Hready k Hk). cbn in Hready. congruence.
Qed.

Lemma leds_validated_before_sensors_witness :
  let z := Bench.drivers (fun _ => true) (Bench.always 0) (Bench.always 0)
             Bench.lab_temps 0 0 in
  let broken := {|
    CONFIG_ARCH := CONFIG_ARCH z;
    gpio_is_ready := fun k => negb (Nat.eqb k 1);
    gpio_pin_configure := gpio_pin_configure z;
    gpio_pin_toggle := gpio_pin_toggle z;
    device_ready := device_ready z;
    sensor_sample_fetch := sensor_sample_fetch z;
    sensor_channel_get_result := sensor_channel_get_result z;
    sensor_value_from_double := sensor_value_from_double z;
    sensor_attr_set_result := sensor_attr_set_result z;
    sensor_trigger_set_result := sensor_trigger_set_result z |} in
  (exists k, (k < length (led_names Bench.lab_board))%nat /\
             gpio_is_ready broken k = false) /\
  fst (result (Demo.startup broken Bench.lab_board Bench.junk
                 (Demo.boot Bench.lab_board))) = Some 0.
Proof.
  intros z broken.
  assert (H : exists k, (k < length (led_names Bench.lab_board))%nat /\
                        gpio_is_ready broken k = false).
  { exists 1%nat. split; [cbn; lia | reflexivity]. }
  split; [exact H|].
  exact (proj1 (leds_validated_before_sensors broken Bench.lab_board Bench.junk
                  (Demo.boot Bench.lab_board) H)).
Defined.

(** ** Return codes that are not negative *)

Lemma read_temperature_value_nonneg {G : Type} (z : Drivers) (dev : nat)
    (val : sensor_value) (s : machine G) :
  ~ read_code z (now s) dev < 0 ->
  snd (result (read_temperature z dev val s)) = read_value z (now s) dev.
Proof.
  unfold read_temperature, read_code, read_value, bind,
    sensor_sample_fetch_chan, sensor_channel_get, when, printf, ret, result;
    simpl.
  destruct (Z.ltb_spec (sensor_sample_fetch z (now s) dev) 0) as [Hf|Hf]; simpl.
  - intros H; contradiction.
  - destruct (sensor_channel_get_result z (now s) dev) as [r v]; simpl.
    destruct (r <? 0); reflexivity.
Qed.

(** X9. The callers of [read_temperature] do not agree on a positive
    return code.  Start-up's calibration takes it for a failure: it prints
    it and [main] returns it.  The alert handler takes it for a success:
    it goes on to compare the sample with the bounds. *)
Theorem positive_read_code (z : Drivers) (i : nat) (value : sensor_value)
    (s : machine Demo.globals) :
  0 < read_code z (now s) i ->
  let r := read_code z (now s) i in
  let v := sensor_value_to_double (read_value z (now s) i) in
  result (Demo.calibrate z i value s) = inl r /\
  last (output (Demo.calibrate z i value s)) = Some (Print (FailedToRead r)) /\
  last (output (Demo.temp_alert_handler z i value s))
    = Some (Print (verdict (Demo.low_temp (mem s)) (Demo.high_temp (mem s)) v)).
Proof.
  intros Hpos r v.
  assert (Hrun := calibrate_run z i value s); cbv zeta in Hrun.
  rewrite read_temperature_code in Hrun. fold r in Hrun.
  replace (r =? 0) with false in Hrun by (symmetry; apply Z.eqb_neq; subst r; lia).
  cbn [negb] in Hrun. rewrite Hrun; run.
  split; [reflexivity|]. split; [apply last_snoc|].
  pose proof (temp_alert_handler_run z i value s) as Hh; cbv zeta in Hh.
  rewrite Hh, output_triple, last_snoc, read_temperature_code. fold r.
  replace (r <? 0) with false by (symmetry; apply Z.ltb_ge; subst r; lia).
  rewrite read_temperature_value_nonneg by lia. reflexivity.
Qed.

Lemma positive_read_code_witness :
  let z := {|
    CONFIG_ARCH := "arm"%string;
    gpio_is_ready := fun _ => true;
    gpio_pin_configure := fun _ => 0;
    gpio_pin_toggle := fun _ _ => 0;
    device_ready := fun _ => true;
    sensor_sample_fetch := fun _ _ => 0;
    sensor_channel_get_result := fun _ _ => (1, SensorValue 20 0);
    sensor_value_from_double := Bench.from_double;
    sensor_attr_set_result := fun _ _ _ => 0;
    sensor_trigger_set_result := fun _ => 0 |} in
  let s := Demo.boot Bench.lab_board in
  0 < read_code z (now s) 0 /\
  result (Demo.calibrate z 0 Bench.junk s) = inl (read_code z (now s) 0).
Proof.
  intros z s.
  assert (H : 0 < read_code z (now s) 0) by reflexivity.
  split; [exact H|].
  exact (proj1 (positive_read_code z 0 Bench.junk s H)).
Defined.

(** ** More of the generated variant *)

Section TemplateMore.
Variable z : Drivers.

Lemma init_led_run (p : nat) (s : machine Template.memory) :
  let l := mem s p in
  let r := gpio_pin_configure z (Template.gpio l) in
  Template.init_led z p s =
  if negb (gpio_is_ready z (Template.gpio l)) then
    (-1, s, [Print (DiscoveredLed (Template.name l));
             Print (LedNotReady (Template.name l))])
  else if r <? 0 then
    (r, s, [Print (DiscoveredLed (Template.name l));
            Call (GpioConfigure (Template.gpio l));
            Print (LedConfigureFailed (Template.name l))])
  else
    (0, Machine (Template.set_state p false (mem s))
          (<[Template.gpio l := true]> (pins s)) (now s),
     [Print (DiscoveredLed (Template.name l));
      Call (GpioConfigure (Template.gpio l))]).
Proof.
  cbv zeta. unfold Template.init_led, bind, load, gpio_is_ready_dt,
    gpio_pin_configure_dt, printf, store, ret, Template.memory in *.
  cbn [mem pins now].
  destruct (negb (gpio_is_ready z (Template.gpio (mem s p)))); [reflexivity|].
  destruct (gpio_pin_configure z (Template.gpio (mem s p)) <? 0); reflexivity.
Qed.

Lemma template_init_leds_cons (p : nat) (ps : list nat)
    (s : machine Template.memory) :
  let one := Template.init_led z p s in
  Template.init_leds z (p :: ps) s =
  if result one <? 0 then (Some (result one), final one, output one)
  else
    let rest := Template.init_leds z ps (final one) in
    (result rest, final rest, output one ++ output rest).
Proof.
  cbv zeta. cbn [Template.init_leds]. rewrite bind_run.
  destruct (result (Template.init_led z p s) <? 0); [|reflexivity].
  unfold ret; run. rewrite app_nil_r. reflexivity.
Qed.

(** The LED block of the generated start-up.  It returns a negative code
    at the first LED that is not ready or cannot be configured, and emits
    nothing of an iteration.  When it completes, every LED of the list was
    ready, has its state [false] and its output active, so that the state
    of these LEDs is the negation of the level of their output. *)
Lemma template_init_leds ps : forall (s : machine Template.memory) (D : nat -> Prop),
  (forall q, Template.gpio (mem s q) = q) ->
  (forall p, D p -> pins s !! p = Some (negb (Template.state (mem s p)))) ->
  let r := Template.init_leds z ps s in
  Forall (fun e => iteration_event e = false) (output r) /\
  now (final r) = now s /\
  length (pins (final r)) = length (pins s) /\
  (forall q, Template.gpio (mem (final r) q) = q) /\
  (forall c, result r = Some c -> c < 0) /\
  (result r = None ->
   (forall p, p ∈ ps -> gpio_is_ready z p = true) /\
   (forall p, p ∈ ps -> Template.state (mem (final r) p) = false) /\
   (forall p, D p \/ (p ∈ ps /\ (p < length (pins s))%nat) ->
              pins (final r) !! p = Some (negb (Template.state (mem (final r) p))))).
Proof.
  induction ps as [|p0 ps IH]; intros s D Hgpio HD; cbv zeta.
  - cbn. split; [constructor|]. repeat split; try assumption; try discriminate.
    + intros p Hp; apply elem_of_nil in Hp; destruct Hp.
    + intros p Hp; apply elem_of_nil in Hp; destruct Hp.
    + intros p [Hp|[Hp _]]; [apply HD; exact Hp|].
      apply elem_of_nil in Hp; destruct Hp.
  - rewrite template_init_leds_cons; cbv zeta.
    pose proof (init_led_run p0 s) as Hone; cbv zeta in Hone.
    rewrite Hgpio in Hone. rewrite Hone; clear Hone.
    destruct (gpio_is_ready z p0) eqn:Hready; cbn [negb].
    2:{ run. cbn [Z.ltb Z.compare]. run.
        split; [repeat constructor|]. repeat split; try assumption; try discriminate.
        intros c [= <-]. lia. }
    destruct (Z.ltb_spec (gpio_pin_configure z p0) 0) as [Hconf|Hconf].
    { run. replace (gpio_pin_configure z p0 <? 0) with true
        by (symmetry; apply Z.ltb_lt; exact Hconf). run.
      split; [repeat constructor|]. repeat split; try assumption; try discriminate.
      intros c [= <-]. exact Hconf. }
    run. cbn [Z.ltb Z.compare]. run.
    set (s1 := Machine (Template.set_state p0 false (mem s))
                 (<[p0 := true]> (pins s)) (now s)).
    assert (Hgpio1 : forall q, Template.gpio (mem s1 q) = q).
    { intros q. subst s1; cbn [mem]. rewrite set_state_gpio. apply Hgpio. }
    assert (Hstate1 : forall q, Template.state (mem s1 q)
                                = if Nat.eqb q p0 then false else Template.state (mem s q)).
    { intros q. subst s1; cbn [mem]. unfold Template.set_state.
      destruct (Nat.eqb q p0); reflexivity. }
    destruct (IH s1 (fun p => D p \/ (p = p0 /\ (p0 < length (pins s))%nat)) Hgpio1)
      as (IH1 & IH2 & IH3 & IH4 & IH5 & IH6).
    { intros p Hp. rewrite Hstate1. subst s1; cbn [pins].
      destruct (Nat.eqb_spec p p0) as [->|Hne].
      - apply list_lookup_insert_eq.
        destruct Hp as [Hp|[_ Hp]]; [|exact Hp].
        apply lookup_lt_is_Some. rewrite (HD p0 Hp). eauto.
      - rewrite list_lookup_insert_ne by congruence.
        destruct Hp as [Hp|[Hp _]]; [apply HD; exact Hp | contradiction]. }
    assert (Hlen1 : length (pins s1) = length (pins s))
      by (subst s1; cbn [pins]; apply length_insert).
    split; [repeat (constructor; [reflexivity|]); exact IH1|].
    split; [exact IH2|]. split; [congruence|]. split; [exact IH4|].
    split; [exact IH5|].
    intros Hnone. destruct (IH6 Hnone) as (R1 & R2 & R3).
    split; [|split].
    + intros p Hp. apply elem_of_cons in Hp as [->|Hp]; [exact Hready | exact (R1 p Hp)].
    + intros p Hp. destruct (decide (p ∈ ps)) as [Hin|Hout]; [exact (R2 p Hin)|].
      apply elem_of_cons in Hp as [->|Hp]; [|contradiction].
      assert (Hkeep : forall qs (s' : machine Template.memory),
        p0 ∉ qs ->
        Template.state (mem (final (Template.init_leds z qs s')) p0)
        = Template.state (mem s' p0)).
      { clear. induction qs as [|q qs IHq]; intros s' Hq; [reflexivity|].
        rewrite template_init_leds_cons; cbv zeta.
        pose proof (init_led_run q s') as Hq1; cbv zeta in Hq1. rewrite Hq1.
        apply not_elem_of_cons in Hq as [Hne Hq].
        destruct (negb _); [reflexivity|].
        destruct (Z.ltb_spec (gpio_pin_configure z (Template.gpio (mem s' q))) 0)
          as [Hc|Hc].
        - run. replace (_ <? 0) with true by (symmetry; apply Z.ltb_lt; exact Hc).
          run. reflexivity.
        - run. cbn [Z.ltb Z.compare]. run. rewrite IHq by exact Hq.
          cbn [mem]. unfold Template.set_state.
          destruct (Nat.eqb_spec p0 q); [congruence | reflexivity]. }
      rewrite Hkeep by exact Hout. rewrite Hstate1, Nat.eqb_refl. reflexivity.
    + intros p Hp. apply R3.
      destruct Hp as [Hp|[Hp Hlt]]; [left; left; exact Hp|].
      apply elem_of_cons in Hp as [->|Hp].
      * left; right. split; [reflexivity | exact Hlt].
      * right. split; [exact Hp | rewrite Hlen1; exact Hlt].
Qed.

Lemma init_thermometer_run (t : Template.thermometer)
    (s : machine Template.memory) :
  Template.init_thermometer z t s =
  if negb (device_ready z (Template.dev t)) then
    (-1, s, [Print (DiscoveredThermometer (Template.thermometer_name t));
             Print (DeviceNotReady (Template.thermometer_name t))])
  else (0, s, [Print (DiscoveredThermometer (Template.thermometer_name t))]).
Proof.
  unfold Template.init_thermometer, bind, printf, device_is_ready, ret.
  destruct (negb (device_ready z (Template.dev t))); reflexivity.
Qed.

Lemma template_init_thermometers ts : forall s : machine Template.memory,
  let r := Template.init_thermometers z ts s in
  final r = s /\
  Forall (fun e => iteration_event e = false) (output r) /\
  (forall c, result r = Some c -> c = -1) /\
  (result r = None -> forall t, t ∈ ts -> device_ready z (Template.dev t) = true).
Proof.
  induction ts as [|t ts IH]; intros s; cbv zeta.
  - cbn. split; [reflexivity|]. split; [constructor|]. split; [discriminate|].
    intros _ t Ht; apply elem_of_nil in Ht; destruct Ht.
  - cbn [Template.init_thermometers]. rewrite bind_run, init_thermometer_run.
    destruct (device_ready z (Template.dev t)) eqn:Hready; cbn [negb]; run.
    + cbn [Z.ltb Z.compare].
      destruct (IH s) as (IH1 & IH2 & IH3 & IH4).
      split; [exact IH1|]. split; [constructor; [reflexivity | exact IH2]|].
      split; [exact IH3|].
      intros Hnone t' Ht'. apply elem_of_cons in Ht' as [->|Ht'];
        [exact Hready | exact (IH4 Hnone t' Ht')].
    + cbn [Z.ltb Z.compare]. unfold ret; run.
      split; [reflexivity|]. split; [repeat constructor|].
      split; [intros c [= <-]; reflexivity | discriminate].
Qed.
End TemplateMore.


Section TemplateRuns.
Variable z : Drivers.
Variable leds : list nat.
Variable ts : list Template.thermometer.

Lemma template_main_run n (s : machine Template.memory) :
  let a := Template.init_leds z leds s in
  let b := Template.init_thermometers z ts (final a) in
  let l := Template.monitor_loop z leds ts n (final b) in
  Template.main z leds ts n s =
  match result a with
  | Some c => (Some c, final a, output a)
  | None =>
      match result b with
      | Some c => (Some c, final b, output a ++ output b)
      | None => (result l, final l, output a ++ output b ++ output l)
      end
  end.
Proof.
  cbv zeta. unfold Template.main. rewrite bind_run.
  destruct (result (Template.init_leds z leds s)) as [c|].
  - unfold ret; run. rewrite app_nil_r. reflexivity.
  - rewrite bind_run.
    destruct (result (Template.init_thermometers z ts _)) as [c|].
    + unfold ret; run. rewrite app_nil_r. reflexivity.
    + reflexivity.
Qed.

Lemma toggle_led_state_inv D q (s : machine Template.memory) :
  state_negates_output D s ->
  state_negates_output D (final (Template.toggle_led_state z q s)).
Proof.
  intros [Hgpio HD].
  pose proof (toggle_led_state_run z q s) as Hrun; cbv zeta in Hrun.
  rewrite Hrun, Hgpio.
  destruct (gpio_pin_toggle z (now s) q <? 0); run; [split; assumption|].
  split.
  - intros p. cbn [mem]. rewrite set_state_gpio. apply Hgpio.
  - intros p Hp. cbn [mem pins]. unfold Template.set_state.
    destruct (Nat.eqb_spec p q) as [->|Hne].
    + rewrite list_lookup_alter_eq, (HD q Hp). reflexivity.
    + rewrite list_lookup_alter_ne by congruence. apply HD; exact Hp.
Qed.

Lemma toggle_leds_inv D ps : forall s : machine Template.memory,
  state_negates_output D s ->
  state_negates_output D (final (Template.toggle_leds z ps s)).
Proof.
  induction ps as [|p ps IH]; intros s Hinv; [exact Hinv|].
  rewrite template_toggle_leds_cons; cbv zeta.
  pose proof (toggle_led_state_inv D p s Hinv) as H1.
  destruct (result (Template.toggle_led_state z p s) <? 0); run;
    [exact H1 | apply IH; exact H1].
Qed.

Lemma template_iteration_final (s : machine Template.memory) :
  let t := Template.toggle_leds z leds s in
  let r := Template.iteration z leds ts s in
  mem (final r) = mem (final t) /\ pins (final r) = pins (final t) /\
  (result r = None -> result t = None).
Proof.
  cbv zeta. unfold Template.iteration. rewrite bind_run.
  destruct (result (Template.toggle_leds z leds s)) as [c|].
  - unfold ret; run. repeat split. discriminate.
  - rewrite bind_run.
    destruct (template_print_thermometers z ts (final (Template.toggle_leds z leds s)))
      as (Hfin & _).
    destruct (result (Template.print_thermometers z ts _)) as [c|].
    + unfold ret; run. rewrite Hfin. repeat split.
    + rewrite bind_run. unfold k_sleep, ret; run. rewrite Hfin. repeat split.
Qed.

Lemma template_monitor_loop_step n (s : machine Template.memory) :
  let it := Template.iteration z leds ts s in
  let rest := Template.monitor_loop z leds ts n (final it) in
  Template.monitor_loop z leds ts (S n) s =
  match result it with
  | Some c => (Some c, final it, output it)
  | None => (result rest, final rest, output it ++ output rest)
  end.
Proof.
  cbv zeta. cbn [Template.monitor_loop]. rewrite bind_run.
  destruct (result (Template.iteration z leds ts s)) as [c|]; [|reflexivity].
  unfold ret; run. rewrite app_nil_r. reflexivity.
Qed.

Lemma template_monitor_loop_inv D n : forall s : machine Template.memory,
  state_negates_output D s ->
  state_negates_output D (final (Template.monitor_loop z leds ts n s)).
Proof.
  induction n as [|n IH]; intros s Hinv; [exact Hinv|].
  rewrite template_monitor_loop_step; cbv zeta.
  assert (H1 : state_negates_output D (final (Template.iteration z leds ts s))).
  { destruct (template_iteration_final s) as (Hm & Hp & _).
    destruct (toggle_leds_inv D leds s Hinv) as [G1 G2].
    split.
    - intros q. rewrite Hm. apply G1.
    - intros p HpD. rewrite Hm, Hp. apply G2; exact HpD. }
  destruct (result (Template.iteration z leds ts s)); run;
    [exact H1 | apply IH; exact H1].
Qed.

(** A block of toggles that completes has inverted the state of each of
    its LEDs, once if the list has no repetition. *)
Lemma template_toggle_leds_states ps : forall s : machine Template.memory,
  NoDup ps ->
  result (Template.toggle_leds z ps s) = None ->
  forall p,
    Template.state (mem (final (Template.toggle_leds z ps s)) p)
    = if decide (p ∈ ps) then negb (Template.state (mem s p))
      else Template.state (mem s p).
Proof.
  induction ps as [|p0 ps IH]; intros s Hnd Hnone p.
  - destruct (decide (p ∈ [])) as [H|_]; [apply elem_of_nil in H; destruct H|].
    reflexivity.
  - apply NoDup_cons in Hnd as [Hp0 Hnd].
    rewrite template_toggle_leds_cons in Hnone |- *; cbv zeta in Hnone |- *.
    pose proof (toggle_led_state_run z p0 s) as Hone; cbv zeta in Hone.
    rewrite Hone in Hnone |- *; clear Hone.
    destruct (Z.ltb_spec (gpio_pin_toggle z (now s) (Template.gpio (mem s p0))) 0)
      as [Hneg|Hok].
    { rewrite result_triple in Hnone.
      replace (_ <? 0) with true in Hnone by (symmetry; apply Z.ltb_lt; exact Hneg).
      rewrite result_triple in Hnone. discriminate. }
    rewrite !result_triple, !final_triple in Hnone |- *.
    cbn [Z.ltb Z.compare] in Hnone |- *. rewrite result_triple in Hnone.
    rewrite final_triple, (IH _ Hnd Hnone p). cbn [mem].
    unfold Template.set_state.
    destruct (decide (p ∈ ps)) as [Hin|Hout].
    + destruct (decide (p ∈ p0 :: ps)) as [_|Hc];
        [|exfalso; apply Hc, elem_of_cons; right; exact Hin].
      destruct (Nat.eqb_spec p p0) as [->|_]; [contradiction | reflexivity].
    + destruct (Nat.eqb_spec p p0) as [->|Hne]; cbn [Template.state].
      * destruct (decide (p0 ∈ p0 :: ps)) as [_|Hc];
          [reflexivity | exfalso; apply Hc, list_elem_of_here].
      * destruct (decide (p ∈ p0 :: ps)) as [Hc|_]; [|reflexivity].
        apply elem_of_cons in Hc as [Hc|Hc]; contradiction.
Qed.

Lemma template_monitor_loop_parity n : forall s : machine Template.memory,
  NoDup leds ->
  result (Template.monitor_loop z leds ts n s) = None ->
  forall p, p ∈ leds ->
    Template.state (mem (final (Template.monitor_loop z leds ts n s)) p)
    = if Nat.even n then Template.state (mem s p)
      else negb (Template.state (mem s p)).
Proof.
  induction n as [|n IH]; intros s Hnd Hnone p Hp; [reflexivity|].
  rewrite template_monitor_loop_step in Hnone |- *; cbv zeta in Hnone |- *.
  destruct (template_iteration_final s) as (Hm & _ & Hres).
  destruct (result (Template.iteration z leds ts s)) as [c|];
    [rewrite result_triple in Hnone; discriminate|].
  rewrite result_triple in Hnone. rewrite final_triple.
  rewrite (IH _ Hnd Hnone p Hp), Hm.
  rewrite (template_toggle_leds_states leds s Hnd (Hres eq_refl) p).
  destruct (decide (p ∈ leds)) as [_|Hc]; [|contradiction].
  rewrite Nat.even_succ, <- Nat.negb_even.
  destruct (Nat.even n), (Template.state (mem s p)); reflexivity.
Qed.
End TemplateRuns.

(** X10. The generated [main] returns a negative code, before its loop and
    without a single toggle, sleep or reading, when one of its LEDs or one
    of its thermometers is not ready. *)
Theorem template_startup_failure (z : Drivers) (names : list string)
    (leds : list nat) (ts : list Template.thermometer) :
  (exists p, p ∈ leds /\ gpio_is_ready z p = false) \/
  (exists t, t ∈ ts /\ device_ready z (Template.dev t) = false) ->
  exists c, c < 0 /\
    forall n,
      result (Template.main z leds ts n (Template.boot names)) = Some c /\
      Forall (fun e => iteration_event e = false)
        (output (Template.main z leds ts n (Template.boot names))).
Proof.
  intros Hnot.
  destruct (template_init_leds z leds (Template.boot names) (fun _ => False))
    as (A1 & _ & _ & _ & A5 & A6); [reflexivity | contradiction |].
  destruct (template_init_thermometers z ts
              (final (Template.init_leds z leds (Template.boot names))))
    as (_ & B2 & B3 & B4).
  destruct (result (Template.init_leds z leds (Template.boot names))) as [c|] eqn:Ea.
  - exists c. split; [exact (A5 c eq_refl)|]. intros n.
    pose proof (template_main_run z leds ts n (Template.boot names)) as Hrun.
    cbv zeta in Hrun. rewrite Hrun, Ea; run. split; [reflexivity | exact A1].
  - destruct (A6 eq_refl) as (Hready & _).
    destruct (result (Template.init_thermometers z ts _)) as [c|] eqn:Eb.
    + exists c. split; [rewrite (B3 c eq_refl); lia|]. intros n.
      pose proof (template_main_run z leds ts n (Template.boot names)) as Hrun.
      cbv zeta in Hrun. rewrite Hrun, Ea, Eb; run.
      split; [reflexivity | apply Forall_app; split; assumption].
    + exfalso. destruct Hnot as [(p & Hp & Hf)|(t & Ht & Hf)].
      * rewrite (Hready p Hp) in Hf. discriminate.
      * rewrite (B4 eq_refl t Ht) in Hf. discriminate.
Qed.

Lemma template_startup_failure_witness :
  (exists t, t ∈ [Template.Thermometer 0 "temp0"] /\
             device_ready Bench.not_ready (Template.dev t) = false) /\
  exists c, c < 0 /\
    result (Template.main Bench.not_ready [0; 1]%nat [Template.Thermometer 0 "temp0"]
              4 (Template.boot ["led0"; "led1"]%string)) = Some c.
Proof.
  assert (H : exists t, t ∈ [Template.Thermometer 0 "temp0"] /\
                device_ready Bench.not_ready (Template.dev t) = false).
  { exists (Template.Thermometer 0 "temp0"). split; [apply list_elem_of_here | reflexivity]. }
  split; [exact H|].
  destruct (template_startup_failure Bench.not_ready ["led0"; "led1"]%string
              [0; 1]%nat [Template.Thermometer 0 "temp0"] (or_intror H))
    as (c & Hc & Hrun).
  exists c. split; [exact Hc | exact (proj1 (Hrun 4%nat))].
Defined.

(** X11. In the generated variant the stored state of a LED is never the
    level of its output but its negation: [init_led] drives the output
    active and stores [false], and every toggle that succeeds inverts
    both.  This holds at any point of a run whose LEDs were all
    initialised, for every LED of the list that has an output. *)
Theorem template_state_negates_output (z : Drivers) (names : list string)
    (leds : list nat) (ts : list Template.thermometer) (n p : nat) :
  result (Template.init_leds z leds (Template.boot names)) = None ->
  p ∈ leds ->
  (p < length names)%nat ->
  let s := final (Template.main z leds ts n (Template.boot names)) in
  pins s !! p = Some (negb (Template.state (mem s p))).
Proof.
  intros Hinit Hp Hlt s.
  set (D := fun q => q ∈ leds /\ (q < length names)%nat).
  destruct (template_init_leds z leds (Template.boot names) (fun _ => False))
    as (_ & _ & _ & A4 & _ & A6); [reflexivity | contradiction |].
  destruct (A6 Hinit) as (_ & _ & A7).
  assert (Hinv0 : state_negates_output D
                    (final (Template.init_leds z leds (Template.boot names)))).
  { split; [exact A4|]. intros q [Hq1 Hq2]. apply A7. right.
    split; [exact Hq1|]. cbn. rewrite length_replicate. exact Hq2. }
  assert (Hinv : state_negates_output D s).
  { subst s.
    pose proof (template_main_run z leds ts n (Template.boot names)) as Hrun.
    cbv zeta in Hrun. rewrite Hrun, Hinit.
    destruct (template_init_thermometers z ts
                (final (Template.init_leds z leds (Template.boot names))))
      as (B1 & _).
    destruct (result (Template.init_thermometers z ts _)); run; rewrite B1;
      [exact Hinv0 | apply template_monitor_loop_inv; exact Hinv0]. }
  apply Hinv. split; assumption.
Qed.

Lemma template_state_negates_output_witness :
  let boot := Template.boot ["led0"; "led1"]%string in
  let s := final (Template.main Bench.lab [0; 1]%nat
                    [Template.Thermometer 0 "temp0"] 3 boot) in
  (result (Template.init_leds Bench.lab [0; 1]%nat boot) = None /\
   1%nat ∈ [0; 1]%nat /\ (1 < length ["led0"; "led1"]%string)%nat) /\
  pins s !! 1%nat = Some (negb (Template.state (mem s 1%nat))).
Proof.
  intros boot s.
  assert (H1 : result (Template.init_leds Bench.lab [0; 1]%nat boot) = None)
    by (vm_compute; reflexivity).
  assert (H2 : 1%nat ∈ [0; 1]%nat)
    by (apply list_elem_of_further, list_elem_of_here).
  assert (H3 : (1 < length ["led0"; "led1"]%string)%nat) by (cbn; lia).
  split; [repeat split; assumption|].
  exact (template_state_negates_output Bench.lab ["led0"; "led1"]%string
           [0; 1]%nat [Template.Thermometer 0 "temp0"] 3 1 H1 H2 H3).
Defined.

(** X12. In the generated variant, with no LED listed twice, a LED state
    is [false] when the loop is entered and, while [main] is still running
    after [n] iterations, [true] exactly when [n] is odd: the parity is the
    opposite of the demo's. *)
Theorem template_led_parity (z : Drivers) (names : list string)
    (leds : list nat) (ts : list Template.thermometer) (n p : nat) :
  NoDup leds ->
  p ∈ leds ->
  result (Template.main z leds ts n (Template.boot names)) = None ->
  Template.state (mem (final (Template.main z leds ts n (Template.boot names))) p)
  = Nat.odd n.
Proof.
  intros Hnd Hp Hnone.
  pose proof (template_main_run z leds ts n (Template.boot names)) as Hrun.
  cbv zeta in Hrun. rewrite Hrun in Hnone |- *; clear Hrun.
  destruct (template_init_leds z leds (Template.boot names) (fun _ => False))
    as (_ & _ & _ & _ & _ & A6); [reflexivity | contradiction |].
  destruct (result (Template.init_leds z leds (Template.boot names)));
    [rewrite result_triple in Hnone; discriminate|].
  destruct (A6 eq_refl) as (_ & Hfalse & _).
  destruct (template_init_thermometers z ts
              (final (Template.init_leds z leds (Template.boot names))))
    as (B1 & _).
  destruct (result (Template.init_thermometers z ts _));
    [rewrite result_triple in Hnone; discriminate|].
  rewrite result_triple in Hnone. rewrite final_triple.
  rewrite B1 in Hnone |- *.
  rewrite (template_monitor_loop_parity z leds ts n _ Hnd Hnone p Hp).
  rewrite (Hfalse p Hp), <- Nat.negb_even.
  destruct (Nat.even n); reflexivity.
Qed.

Lemma template_led_parity_witness :
  let boot := Template.boot ["led0"; "led1"]%string in
  (NoDup [0; 1]%nat /\ 1%nat ∈ [0; 1]%nat /\
   result (Template.main Bench.lab [0; 1]%nat [Template.Thermometer 0 "temp0"]
             3 boot) = None) /\
  Template.state
    (mem (final (Template.main Bench.lab [0; 1]%nat
                   [Template.Thermometer 0 "temp0"] 3 boot)) 1%nat)
  = Nat.odd 3.
Proof.
  intros boot.
  assert (H1 : NoDup [0; 1]%nat).
  { apply NoDup_cons. split.
    - intros H. apply elem_of_cons in H as [H|H]; [discriminate|].
      apply elem_of_nil in H; exact H.
    - apply NoDup_cons. split; [|apply NoDup_nil; exact I].
      intros H. apply elem_of_nil in H; exact H. }
  assert (H2 : 1%nat ∈ [0; 1]%nat)
    by (apply list_elem_of_further, list_elem_of_here).
  assert (H3 : result (Template.main Bench.lab [0; 1]%nat
                         [Template.Thermometer 0 "temp0"] 3 boot) = None)
    by (vm_compute; reflexivity).
  split; [repeat split; assumption|].
  exact (template_led_parity Bench.lab ["led0"; "led1"]%string [0; 1]%nat
           [Template.Thermometer 0 "temp0"] 3 1 H1 H2 H3).
Defined.

(** X13. [print_temperature] leaves the machine alone and answers 0 or -1:
    0, with the reading printed under the device's name, when the read
    returned 0; -1, with the read's code printed and no reading, for any
    other code of the read, positive ones included. *)
Theorem print_temperature_result (z : Drivers) (t : Template.thermometer)
    (s : machine Template.memory) :
  let r := Template.print_temperature z t s in
  let code := read_code z (now s) (Template.dev t) in
  final r = s /\
  (code = 0 ->
   result r = 0 /\
   last (output r)
   = Some (Print (Reading (Template.thermometer_name t)
                    (sensor_value_to_double (read_value z (now s) (Template.dev t)))))) /\
  (code <> 0 ->
   result r = -1 /\
   last (output r) = Some (Print (FailedToRead code)) /\
   forall name v, Print (Reading name v) ∉ output r).
Proof.
  cbv zeta. unfold Template.print_temperature. rewrite bind_run.
  rewrite (read_temperature_final z (Template.dev t) (SensorValue 0 0) s).
  pose proof (read_temperature_code z (Template.dev t) (SensorValue 0 0) s) as Hcode.
  pose proof (read_temperature_value z (Template.dev t) (SensorValue 0 0) s) as Hval.
  pose proof (read_temperature_output z (Template.dev t) (SensorValue 0 0) s) as Hout.
  destruct (result (read_temperature z (Template.dev t) (SensorValue 0 0) s))
    as [r v]; cbn [fst snd] in *. subst r.
  destruct (Z.eqb_spec (read_code z (now s) (Template.dev t)) 0) as [E|E];
    cbn [negb]; rewrite bind_run; unfold printf, ret; run; rewrite app_nil_r.
  - split; [reflexivity|]. split; [|tauto].
    intros _. split; [reflexivity|]. rewrite last_snoc, (Hval E). reflexivity.
  - split; [reflexivity|]. split; [tauto|].
    intros _. split; [reflexivity|]. split; [apply last_snoc|].
    intros name v' H. apply elem_of_app in H as [H|H].
    + apply Hout in H as [H|[H|[[c H]|[c H]]]]; discriminate.
    + apply elem_of_cons in H as [H|H]; [discriminate|].
      apply elem_of_nil in H; destruct H.
Qed.

Lemma print_temperature_result_witness :
  let s := Machine (mem (Template.boot ["led0"]%string)) [true] 1%nat in
  let t := Template.Thermometer 0 "temp0" in
  read_code Bench.twin (now s) (Template.dev t) <> 0 /\
  result (Template.print_temperature Bench.twin t s) = -1.
Proof.
  intros s t.
  assert (H : read_code Bench.twin (now s) (Template.dev t) <> 0)
    by (vm_compute; discriminate).
  split; [exact H|].
  exact (proj1 (proj2 (proj2 (print_temperature_result Bench.twin t s)) H)).
Defined.


(** ** Which devices a piece of code touches *)

(** X14. The alert handler makes no driver call but the fetch and the get
    on the sensor it was invoked for: it toggles no LED, writes no
    attribute and touches no other sensor. *)
Theorem handler_touches_only_its_sensor (z : Drivers) (dev : nat)
    (value : sensor_value) (s : machine Demo.globals) (c : call) :
  Call c ∈ output (Demo.temp_alert_handler z dev value s) ->
  c = SampleFetch dev \/ c = ChannelGet dev.
Proof.
  pose proof (temp_alert_handler_run z dev value s) as H; cbv zeta in H.
  rewrite H, output_triple. intros Hin.
  apply elem_of_app in Hin as [Hin|Hin].
  - apply read_temperature_output in Hin as [E|[E|[[r E]|[r E]]]];
      try discriminate; injection E as ->; auto.
  - apply elem_of_cons in Hin as [Hin|Hin]; [discriminate|].
    apply elem_of_nil in Hin; destruct Hin.
Qed.

Lemma handler_touches_only_its_sensor_witness :
  let s := Demo.boot Bench.lab_board in
  Call (ChannelGet 0) ∈ output (Demo.temp_alert_handler Bench.lab 0 Bench.junk s) /\
  (ChannelGet 0 = SampleFetch 0 \/ ChannelGet 0 = ChannelGet 0).
Proof.
  intros s.
  assert (H : Call (ChannelGet 0)
                ∈ output (Demo.temp_alert_handler Bench.lab 0 Bench.junk s)).
  { apply list_elem_of_In. vm_compute. tauto. }
  split; [exact H|].
  exact (handler_touches_only_its_sensor Bench.lab 0 Bench.junk s (ChannelGet 0) H).
Defined.

Section DemoAbort.
Variable z : Drivers.

Lemma calibrate_device i value s c :
  Call c ∈ output (Demo.calibrate z i value s) -> sensor_of c = Some i.
Proof.
  assert (Hrun := calibrate_run z i value s); cbv zeta in Hrun. rewrite Hrun.
  assert (Hrd : Call c ∈ output (read_temperature z i value s) ->
                sensor_of c = Some i).
  { intros H. apply read_temperature_output in H as [E|[E|[[r E]|[r E]]]];
      try discriminate; injection E as ->; reflexivity. }
  assert (Hwhen : forall (b : bool) (x : report), Call c ∈ (if b then [Print x] else []) -> False).
  { intros [] x H; [apply elem_of_cons in H as [H|H]; [discriminate|]|];
      apply elem_of_nil in H; exact H. }
  destruct (negb _); [|destruct (negb _); [|destruct (negb _)]];
    rewrite output_triple, ?elem_of_app, ?elem_of_cons, ?elem_of_nil;
    intuition (try discriminate; eauto;
               try match goal with
                   | H : Call c = Call _ |- _ => injection H as ->; reflexivity
                   | H : Call c ∈ (if _ then _ else _) |- _ =>
                       exfalso; exact (Hwhen _ _ H)
                   end).
Qed.

Lemma calibratable_completes i value (s : machine Demo.globals) :
  calibratable z (now s) i ->
  exists v, result (Demo.calibrate z i value s) = inr v /\
            Call (TriggerSet i) ∈ output (Demo.calibrate z i value s).
Proof.
  intros (_ & Hread & H1 & H2).
  assert (Hrun := calibrate_run z i value s); cbv zeta in Hrun.
  rewrite read_temperature_code, Hread in Hrun; cbn [Z.eqb negb] in Hrun.
  rewrite (read_temperature_value z i value s Hread) in Hrun.
  rewrite H1, H2 in Hrun; cbn [Z.eqb negb] in Hrun.
  rewrite Hrun; run. eexists. split; [reflexivity|].
  rewrite !elem_of_app. right; right; right. apply list_elem_of_here.
Qed.

(** The sensor loop stops at the first sensor that is not ready: the
    sensors before it are calibrated to the end, those from it on are not
    touched. *)
Lemma init_sensors_abort nodes : forall i value s k,
  (k < length nodes)%nat ->
  device_ready z (i + k) = false ->
  (forall j, (j < k)%nat -> calibratable z (now s) (i + j)) ->
  let r := Demo.init_sensors z i nodes value s in
  fst (result r) = Some 0 /\
  (forall j, (j < k)%nat -> Call (TriggerSet (i + j)) ∈ output r) /\
  (forall c d, Call c ∈ output r -> sensor_of c = Some d -> (d < i + k)%nat).
Proof.
  induction nodes as [|node nodes IH]; intros i value s k Hk Hnot Hbefore;
    [cbn in Hk; lia|].
  cbv zeta.
  pose proof (init_sensors_cons z i node nodes value s) as Hrun; cbv zeta in Hrun.
  rewrite Hrun; clear Hrun.
  set (s1 := if String.eqb (friendly_name node) "thermometer" then _ else s).
  set (o1 := if String.eqb (friendly_name node) "thermometer" then _ else []).
  assert (Hnow1 : now s1 = now s) by (subst s1; destruct (String.eqb _ _); reflexivity).
  assert (Ho1 : forall c, Call c ∈ o1 -> False).
  { intros c H. subst o1. destruct (String.eqb _ _).
    - apply elem_of_cons in H as [H|H]; [discriminate|].
      apply elem_of_nil in H; exact H.
    - apply elem_of_nil in H; exact H. }
  destruct k as [|k].
  - rewrite Nat.add_0_r in Hnot. rewrite Hnot; cbn [negb]. run. cbn [fst].
    split; [reflexivity|]. split; [intros j Hj; lia|].
    intros c d H _. exfalso. apply elem_of_app in H as [H|H]; [exact (Ho1 c H)|].
    apply elem_of_cons in H as [H|H]; [discriminate|].
    apply elem_of_nil in H; exact H.
  - assert (H0 : calibratable z (now s1) i).
    { rewrite Hnow1. specialize (Hbefore 0%nat). rewrite Nat.add_0_r in Hbefore.
      apply Hbefore; lia. }
    pose proof H0 as (Hready0 & _). rewrite Hready0; cbn [negb].
    destruct (calibratable_completes i value s1 H0) as (v & Hres & Htrig).
    pose proof (calibrate_device i value s1) as Hdev.
    destruct (calibrate_spec z i value s1) as (_ & Hcnow & _).
    rewrite Hres. cbv zeta.
    destruct (IH (S i) v (final (Demo.calibrate z i value s1)) k) as (R1 & R2 & R3).
    + cbn [length] in Hk; lia.
    + replace (S i + k)%nat with (i + S k)%nat by lia. exact Hnot.
    + intros j Hj. rewrite Hcnow, Hnow1.
      replace (S i + j)%nat with (i + S j)%nat by lia. apply Hbefore; lia.
    + run. split; [exact R1|]. split.
      * intros [|j] Hj.
        -- rewrite Nat.add_0_r. apply elem_of_app; right.
           apply elem_of_app; left. exact Htrig.
        -- apply elem_of_app; right. apply elem_of_app; right.
           replace (i + S j)%nat with (S i + j)%nat by lia. apply R2; lia.
      * intros c d H Hd. apply elem_of_app in H as [H|H];
          [exfalso; exact (Ho1 c H)|].
        apply elem_of_app in H as [H|H].
        -- rewrite (Hdev c H) in Hd. injection Hd as <-. lia.
        -- specialize (R3 c d H Hd). lia.
Qed.
End DemoAbort.

(** X15. When start-up of the demo stops at a sensor that is not ready,
    it returns 0 with the sensors before it left armed: each of them,
    whose calibration ran to the end, has had its trigger set, while no
    call at all was made on the sensor that is not ready nor on any sensor
    after it. *)
Theorem startup_stops_at_first_unready_sensor (z : Drivers) (dt : Devicetree)
    (value : sensor_value) (k : nat) :
  result (Demo.init_leds z 0 (led_names dt) (Demo.boot dt)) = None ->
  (k < length (all_sensors dt))%nat ->
  device_ready z k = false ->
  (forall j, (j < k)%nat -> calibratable z 0 j) ->
  let r := Demo.startup z dt value (Demo.boot dt) in
  fst (result r) = Some 0 /\
  (forall j, (j < k)%nat -> Call (TriggerSet j) ∈ output r) /\
  (forall c d, Call c ∈ output r -> sensor_of c = Some d -> (d < k)%nat).
Proof.
  intros Hleds Hk Hnot Hbefore r. subst r.
  pose proof (startup_run z dt value (Demo.boot dt)) as Hrun; cbv zeta in Hrun.
  rewrite Hrun, Hleds; clear Hrun.
  destruct (init_leds_spec z (led_names dt) 0 (Demo.boot dt))
    as (_ & _ & _ & Hnow & _).
  destruct (init_leds_order z (led_names dt) 0 (Demo.boot dt)) as [Hev _].
  destruct (init_sensors_abort z (all_sensors dt) 0 value
              (final (Demo.init_leds z 0 (led_names dt) (Demo.boot dt))) k Hk Hnot)
    as (R1 & R2 & R3).
  { intros j Hj. rewrite Hnow. apply Hbefore; exact Hj. }
  run. split; [exact R1|]. split.
  - intros j Hj. apply elem_of_app; right. apply elem_of_app; right.
    apply (R2 j Hj).
  - intros c d H Hd.
    apply elem_of_cons in H as [H|H]; [discriminate|].
    apply elem_of_cons in H as [H|H]; [discriminate|].
    apply elem_of_cons in H as [H|H]; [discriminate|].
    apply elem_of_app in H as [H|H].
    + rewrite Forall_forall in Hev. specialize (Hev _ H).
      destruct c; cbn in Hev, Hd; congruence.
    + exact (R3 c d H Hd).
Qed.

Lemma startup_stops_at_first_unready_sensor_witness :
  let z := Bench.drivers (fun d => Nat.eqb d 0) (Bench.always 0) (Bench.always 0)
             Bench.twin_temps 0 0 in
  let r := Demo.startup z Bench.twin_board Bench.junk (Demo.boot Bench.twin_board) in
  (result (Demo.init_leds z 0 (led_names Bench.twin_board)
             (Demo.boot Bench.twin_board)) = None /\
   (1 < length (all_sensors Bench.twin_board))%nat /\
   device_ready z 1 = false /\
   (forall j, (j < 1)%nat -> calibratable z 0 j)) /\
  fst (result r) = Some 0 /\
  Call (TriggerSet 0) ∈ output r.
Proof.
  intros z r.
  assert (H1 : result (Demo.init_leds z 0 (led_names Bench.twin_board)
                         (Demo.boot Bench.twin_board)) = None)
    by (vm_compute; reflexivity).
  assert (H2 : (1 < length (all_sensors Bench.twin_board))%nat) by (cbn; lia).
  assert (H3 : device_ready z 1 = false) by reflexivity.
  assert (H4 : forall j, (j < 1)%nat -> calibratable z 0 j).
  { intros j Hj. replace j with 0%nat by lia.
    repeat split; vm_compute; reflexivity. }
  destruct (startup_stops_at_first_unready_sensor z Bench.twin_board Bench.junk 1
              H1 H2 H3 H4) as (R1 & R2 & _).
  split; [exact (conj H1 (conj H2 (conj H3 H4)))|].
  split; [exact R1 | apply R2; lia].
Defined.
